(** * Mobile-reporting: the phased harvesting engine of [automate_vitals.py]

    A shallow embedding of [collect_app_data] and of its response callback
    [handle_response], followed by the properties of the harvesting engine.

    Layout:
    - [Float64]   : binary64 helpers behind Python's [float], [round], [int]
                    and true division;
    - [Py]        : the JSON values a response carries and the Python
                    operations the callback applies to them;
    - the state closed over by [handle_response], and the callback itself,
      one definition per [if]/[elif] block of the source;
    - the sequencer [collect_app_data] as a program over the trace of
      [await] outcomes;
    - the theorems. *)

From Stdlib Require Import ZArith Floats String Ascii List Bool Lia.
From Stdlib Require Import Sorting.Sorted Sorting.Permutation.
From stdpp Require Import base option list strings gmap pretty.

Set Warnings "-inexact-float,-register-all".

Local Open Scope Z_scope.

(* ===================================================================== *)
(** * Binary64 arithmetic *)
(* ===================================================================== *)

Module Float64.

(** The binary64 number nearest to the rational [p / q] ([0 < q]), ties to
    even.  The quotient is taken with 1200 fractional bits and a sticky
    bit, which is finer than any rounding boundary of the format, so the
    final rounding by [binary_normalize] is the correct rounding of the
    rational.  Overflow yields an infinity. *)
Definition nearest (p q : Z) : float :=
  let k := 1200 in
  let n := Z.abs p * 2 ^ k in
  let m := n / q in
  let sticky := if n mod q =? 0 then 0 else 1 in
  let mant := 2 * m + sticky in
  let neg := p <? 0 in
  SF2Prim (binary_normalize prec emax (if neg then - mant else mant) (- k - 1) neg).

(** [float(z)] for a Python [int]: correctly rounded. *)
Definition of_Z (z : Z) : float := nearest z 1.

Definition is_finite (f : float) : bool :=
  match Prim2SF f with
  | S754_zero _ | S754_finite _ _ _ => true
  | _ => false
  end.

Definition is_nan (f : float) : bool :=
  match Prim2SF f with S754_nan => true | _ => false end.

(** [int(f)]: truncation towards zero; [None] on NaN and infinities, where
    Python raises. *)
Definition trunc (f : float) : option Z :=
  match Prim2SF f with
  | S754_zero _ => Some 0
  | S754_finite s m e =>
      let a := if 0 <=? e then Z.pos m * 2 ^ e else Z.pos m / 2 ^ (- e) in
      Some (if s then - a else a)
  | _ => None
  end.

(** [num / den] rounded to the nearest integer, ties to even
    ([0 <= num], [0 < den]). *)
Definition round_half_even (num den : Z) : Z :=
  let q := num / den in
  let r := num mod den in
  match 2 * r ?= den with
  | Lt => q
  | Gt => q + 1
  | Eq => if Z.even q then q else q + 1
  end.

(** [round(f, 2)] on a float: the exact value of [f] is rounded to two
    decimals (ties to even, as [dtoa] does), and the decimal obtained is
    read back as the nearest binary64 (as [strtod] does).  NaN, infinities
    and zeros are returned as they are. *)
Definition round2 (f : float) : float :=
  match Prim2SF f with
  | S754_finite s m e =>
      let num := Z.pos m * 100 * (if 0 <=? e then 2 ^ e else 1) in
      let den := if 0 <=? e then 1 else 2 ^ (- e) in
      let n := round_half_even num den in
      if n =? 0 then (if s then PrimFloat.neg_zero else PrimFloat.zero)
      else nearest (if s then - n else n) 100
  | _ => f
  end.

(** [a / b] on two Python [int]s: the correctly rounded quotient.  [None]
    when Python raises ([b = 0], or a quotient too large for a float). *)
Definition int_truediv (a b : Z) : option float :=
  if b =? 0 then None
  else
    let r := if b <? 0 then nearest (- a) (- b) else nearest a b in
    if is_finite r then Some r else None.

(** [float(z)] raising [OverflowError] when [z] is too large. *)
Definition of_int (z : Z) : option float :=
  let r := of_Z z in if is_finite r then Some r else None.

(** Equality of a float and an [int], exact as Python's [==] is. *)
Definition eqb_Z (f : float) (z : Z) : bool :=
  match Prim2SF f with
  | S754_zero _ => z =? 0
  | S754_finite s m e =>
      if 0 <=? e then z =? (if s then - (Z.pos m * 2 ^ e) else Z.pos m * 2 ^ e)
      else (Z.pos m mod 2 ^ (- e) =? 0)
           && (z =? (if s then - (Z.pos m / 2 ^ (- e)) else Z.pos m / 2 ^ (- e)))
  | _ => false
  end.

End Float64.

(* ===================================================================== *)
(** * JSON values and the Python operations applied to them *)
(* ===================================================================== *)

(** What [response.json()] returns.  Numbers keep Python's split between
    [int] and [float]; an object is the list of the items of the [dict], in
    insertion order.  Characters are [ascii]. *)
Inductive json : Type :=
| JNull
| JBool (b : bool)
| JInt (z : Z)
| JFloat (f : float)
| JStr (s : string)
| JArr (l : list json)
| JObj (kv : list (string * json)).

(** The Python library functions the callback calls on strings.  They are
    not code of this repository: the development is parametric in them.
    [None] stands for a raised exception. *)
Class PyBuiltins := {
  (** [int(s)] on a [str] *)
  int_of_str : string -> option Z;
  (** [float(s)] on a [str] *)
  float_of_str : string -> option float;
  (** [str(v)] *)
  str_of : json -> string;
  str_of_str : forall s, str_of (JStr s) = s;
  (** [json.loads(s)] *)
  json_loads : string -> option json;
  (** [datetime.fromisoformat(s).date()], as a day number (the proleptic
      Gregorian ordinal of the date) *)
  date_fromisoformat : string -> option Z
}.

Module Py.

Fixpoint assoc {A} (kv : list (string * A)) (k : string) : option A :=
  match kv with
  | [] => None
  | (k', v) :: rest => if String.eqb k' k then Some v else assoc rest k
  end.

(** Truth value of an object, as tested by [if], [and], [not]. *)
Definition truthy (v : json) : bool :=
  match v with
  | JNull => false
  | JBool b => b
  | JInt z => negb (z =? 0)
  | JFloat f => negb (f =? 0)%float
  | JStr s => negb (String.eqb s "")
  | JArr l => match l with [] => false | _ => true end
  | JObj kv => match kv with [] => false | _ => true end
  end.

(** [d.get(k, default)]: only a [dict] has the method. *)
Definition get (d : json) (k : string) (default : json) : option json :=
  match d with
  | JObj kv => Some (match assoc kv k with Some v => v | None => default end)
  | _ => None
  end.

(** [k in d] for a [dict] [d]. *)
Definition has_key (d : json) (k : string) : bool :=
  match d with
  | JObj kv => match assoc kv k with Some _ => true | None => false end
  | _ => false
  end.

Fixpoint string_nth (s : string) (i : nat) : option ascii :=
  match s, i with
  | EmptyString, _ => None
  | String c _, O => Some c
  | String _ rest, S j => string_nth rest j
  end.

Definition str1 (c : ascii) : string := String c EmptyString.

Fixpoint chars (s : string) : list json :=
  match s with
  | EmptyString => []
  | String c rest => JStr (str1 c) :: chars rest
  end.

(** [v[i]] for a literal index [i >= 0]: lists and strings are indexed; a
    [dict] from JSON has no integer key; the rest is not subscriptable. *)
Definition index (v : json) (i : nat) : option json :=
  match v with
  | JArr l => nth_error l i
  | JStr s => match string_nth s i with Some c => Some (JStr (str1 c)) | None => None end
  | _ => None
  end.

(** [v[k]] for a literal string key [k]. *)
Definition item (v : json) (k : string) : option json :=
  match v with
  | JObj kv => assoc kv k
  | _ => None
  end.

(** [len(v)] *)
Definition len (v : json) : option Z :=
  match v with
  | JArr l => Some (Z.of_nat (List.length l))
  | JStr s => Some (Z.of_nat (String.length s))
  | JObj kv => Some (Z.of_nat (List.length kv))
  | _ => None
  end.

(** The elements a [for] loop visits. *)
Definition iter (v : json) : option (list json) :=
  match v with
  | JArr l => Some l
  | JStr s => Some (chars s)
  | JObj kv => Some (map (fun p => JStr (fst p)) kv)
  | _ => None
  end.

(** [v == s] against a string literal. *)
Definition eq_str (v : json) (s : string) : bool :=
  match v with
  | JStr t => String.eqb t s
  | _ => false
  end.

Fixpoint repeat_string (n : nat) (s : string) : string :=
  match n with
  | O => ""
  | S k => String.append s (repeat_string k s)
  end.

(** [v * n] for a literal [int] [n >= 0]: arithmetic on numbers,
    repetition on sequences. *)
Definition mul_int (v : json) (n : Z) : option json :=
  match v with
  | JInt z => Some (JInt (z * n))
  | JBool b => Some (JInt (Z.b2z b * n))
  | JFloat f => Some (JFloat (f * Float64.of_Z n)%float)
  | JStr s => Some (JStr (repeat_string (Z.to_nat n) s))
  | JArr l => Some (JArr (concat (repeat l (Z.to_nat n))))
  | _ => None
  end.

(** [round(v, 2)]: an [int] is returned as it is, a [float] is rounded. *)
Definition round2 (v : json) : option json :=
  match v with
  | JInt z => Some (JInt z)
  | JBool b => Some (JInt (Z.b2z b))
  | JFloat f => Some (JFloat (Float64.round2 f))
  | _ => None
  end.

Section WithBuiltins.
Context `{PyBuiltins}.

(** [int(v)] *)
Definition int (v : json) : option Z :=
  match v with
  | JInt z => Some z
  | JBool b => Some (Z.b2z b)
  | JFloat f => Float64.trunc f
  | JStr s => int_of_str s
  | _ => None
  end.

(** [float(v)] *)
Definition float (v : json) : option float :=
  match v with
  | JFloat f => Some f
  | JInt z => Float64.of_int z
  | JBool b => Some (if b then 1%float else 0%float)
  | JStr s => float_of_str s
  | _ => None
  end.

End WithBuiltins.

(** ** Strings *)

(** [needle in hay] *)
Fixpoint contains (needle hay : string) : bool :=
  String.prefix needle hay
  || match hay with
     | EmptyString => false
     | String _ rest => contains needle rest
     end.

(** [s.replace('Z', '+00:00')] *)
Fixpoint replace_Z (s : string) : string :=
  match s with
  | EmptyString => EmptyString
  | String c rest =>
      if Ascii.eqb c "Z"%char then String.append "+00:00" (replace_Z rest)
      else String c (replace_Z rest)
  end.

Fixpoint drop (n : nat) (s : string) : string :=
  match n, s with
  | O, _ => s
  | S k, String _ rest => drop k rest
  | S _, EmptyString => EmptyString
  end.

End Py.


(* ===================================================================== *)
(** * The data of one app's collection *)
(* ===================================================================== *)

(** [current_phase]: the strings the source assigns to it. *)
Inductive phase : Set :=
| metrics | crashes | non_fatals | anr_metrics | anrs
| ios_metrics | ios_crashes | ios_non_fatals
| up_anrs | ios_dominant_release | android_dominant_release
| android_p90_launch.

Global Instance phase_eq_dec : EqDecision phase.
Proof. solve_decision. Defined.

Definition phase_name (p : phase) : string :=
  match p with
  | metrics => "metrics"
  | crashes => "crashes"
  | non_fatals => "non_fatals"
  | anr_metrics => "anr_metrics"
  | anrs => "anrs"
  | ios_metrics => "ios_metrics"
  | ios_crashes => "ios_crashes"
  | ios_non_fatals => "ios_non_fatals"
  | up_anrs => "up_anrs"
  | ios_dominant_release => "ios_dominant_release"
  | android_dominant_release => "android_dominant_release"
  | android_p90_launch => "android_p90_launch"
  end.

(** [current_phase.startswith("ios")] *)
Definition startswith_ios (p : phase) : bool := String.prefix "ios" (phase_name p).

(** An entry of [APPS_CONFIG]. *)
Record play_console_config := PlayConsoleConfig {
  pc_developer_id : string;
  pc_app_id : string
}.

Record android_config := AndroidConfig {
  cfg_app_id : string;
  cfg_package_name : string;
  cfg_play_console : play_console_config
}.

Record ios_config := IosConfig {
  cfg_ios_app_id : string;
  cfg_bundle_id : string
}.

(** [cfg_ios] is [None] when the entry has no ["ios"] key; [cfg_has_ios] is
    the truth value of [app_config.get("has_ios")]; [cfg_has_p90_launch_time]
    is [None] when the key is absent (the source defaults it to [True]). *)
Record app_configuration := AppConfig {
  cfg_name : string;
  cfg_firebase_project : string;
  cfg_android : android_config;
  cfg_ios : option ios_config;
  cfg_has_ios : bool;
  cfg_has_p90_launch_time : option bool
}.

(** One ranked issue of [top_crashes], [top_non_fatals], [all_anrs]. *)
Record issue_data := IssueData {
  rank : Z;
  name : json;
  impact_percentage : Z;
  impacted_devices : Z;
  events : Z
}.

(** One entry of [up_anrs]. *)
Record anr_data := AnrData {
  anr_name : json;
  anr_impact_percentage : float;
  anr_affected_users : Z;
  anr_events : Z
}.

Module Android.
Record t := Make {
  crash_free_rates : gmap string json;
  total_installs : gmap string Z;
  top_crashes : list issue_data;
  top_non_fatals : list issue_data;
  all_anrs : list issue_data;
  up_anrs : list anr_data;
  p90_launch_time_seconds : option float;
  dominant_release : json
}.
Definition set_crash_free_rates (v : gmap string json) (r : t) : t :=
  Make v (total_installs r) (top_crashes r) (top_non_fatals r) (all_anrs r) (up_anrs r) (p90_launch_time_seconds r) (dominant_release r).
Definition set_total_installs (v : gmap string Z) (r : t) : t :=
  Make (crash_free_rates r) v (top_crashes r) (top_non_fatals r) (all_anrs r) (up_anrs r) (p90_launch_time_seconds r) (dominant_release r).
Definition set_top_crashes (v : list issue_data) (r : t) : t :=
  Make (crash_free_rates r) (total_installs r) v (top_non_fatals r) (all_anrs r) (up_anrs r) (p90_launch_time_seconds r) (dominant_release r).
Definition set_top_non_fatals (v : list issue_data) (r : t) : t :=
  Make (crash_free_rates r) (total_installs r) (top_crashes r) v (all_anrs r) (up_anrs r) (p90_launch_time_seconds r) (dominant_release r).
Definition set_all_anrs (v : list issue_data) (r : t) : t :=
  Make (crash_free_rates r) (total_installs r) (top_crashes r) (top_non_fatals r) v (up_anrs r) (p90_launch_time_seconds r) (dominant_release r).
Definition set_up_anrs (v : list anr_data) (r : t) : t :=
  Make (crash_free_rates r) (total_installs r) (top_crashes r) (top_non_fatals r) (all_anrs r) v (p90_launch_time_seconds r) (dominant_release r).
Definition set_p90_launch_time_seconds (v : option float) (r : t) : t :=
  Make (crash_free_rates r) (total_installs r) (top_crashes r) (top_non_fatals r) (all_anrs r) (up_anrs r) v (dominant_release r).
Definition set_dominant_release (v : json) (r : t) : t :=
  Make (crash_free_rates r) (total_installs r) (top_crashes r) (top_non_fatals r) (all_anrs r) (up_anrs r) (p90_launch_time_seconds r) v.
End Android.

Module Ios.
Record t := Make {
  crash_free_rates : gmap string json;
  total_installs : gmap string Z;
  top_crashes : list issue_data;
  top_non_fatals : list issue_data;
  dominant_release : json
}.
Definition set_crash_free_rates (v : gmap string json) (r : t) : t :=
  Make v (total_installs r) (top_crashes r) (top_non_fatals r) (dominant_release r).
Definition set_total_installs (v : gmap string Z) (r : t) : t :=
  Make (crash_free_rates r) v (top_crashes r) (top_non_fatals r) (dominant_release r).
Definition set_top_crashes (v : list issue_data) (r : t) : t :=
  Make (crash_free_rates r) (total_installs r) v (top_non_fatals r) (dominant_release r).
Definition set_top_non_fatals (v : list issue_data) (r : t) : t :=
  Make (crash_free_rates r) (total_installs r) (top_crashes r) v (dominant_release r).
Definition set_dominant_release (v : json) (r : t) : t :=
  Make (crash_free_rates r) (total_installs r) (top_crashes r) (top_non_fatals r) v.
End Ios.

(** [app_data] *)
Record app_result := AppResult {
  app_key : string;
  app_name : string;
  android : Android.t;
  ios : Ios.t;
  google_play_vitals : json
}.
Definition set_android (v : Android.t) (r : app_result) : app_result :=
  AppResult (app_key r) (app_name r) v (ios r) (google_play_vitals r).
Definition set_ios (v : Ios.t) (r : app_result) : app_result :=
  AppResult (app_key r) (app_name r) (android r) v (google_play_vitals r).
Definition set_google_play_vitals (v : json) (r : app_result) : app_result :=
  AppResult (app_key r) (app_name r) (android r) (ios r) v.

(** The variables [handle_response] closes over ([nonlocal]). *)
Record state := State {
  metrics_requests : list string;
  metrics_captured : bool;
  fatal_installs : Z;
  non_fatal_installs : Z;
  anr_installs : Z;
  ios_fatal_installs : Z;
  ios_non_fatal_installs : Z;
  crashes_captured : bool;
  non_fatals_captured : bool;
  anr_metrics_captured : bool;
  ios_metrics_captured : bool;
  ios_crashes_captured : bool;
  ios_non_fatals_captured : bool;
  ios_crash_free_rate_captured : bool;
  play_console_anrs_captured : bool;
  ios_dominant_release_captured : bool;
  android_dominant_release_captured : bool;
  android_p90_launch_captured : bool;
  ios_nonfatal_issues_processed : bool;
  current_phase : phase;
  app_data : app_result
}.
Definition set_metrics_requests (v : list string) (r : state) : state :=
  State v (metrics_captured r) (fatal_installs r) (non_fatal_installs r) (anr_installs r) (ios_fatal_installs r) (ios_non_fatal_installs r) (crashes_captured r) (non_fatals_captured r) (anr_metrics_captured r) (ios_metrics_captured r) (ios_crashes_captured r) (ios_non_fatals_captured r) (ios_crash_free_rate_captured r) (play_console_anrs_captured r) (ios_dominant_release_captured r) (android_dominant_release_captured r) (android_p90_launch_captured r) (ios_nonfatal_issues_processed r) (current_phase r) (app_data r).
Definition set_metrics_captured (v : bool) (r : state) : state :=
  State (metrics_requests r) v (fatal_installs r) (non_fatal_installs r) (anr_installs r) (ios_fatal_installs r) (ios_non_fatal_installs r) (crashes_captured r) (non_fatals_captured r) (anr_metrics_captured r) (ios_metrics_captured r) (ios_crashes_captured r) (ios_non_fatals_captured r) (ios_crash_free_rate_captured r) (play_console_anrs_captured r) (ios_dominant_release_captured r) (android_dominant_release_captured r) (android_p90_launch_captured r) (ios_nonfatal_issues_processed r) (current_phase r) (app_data r).
Definition set_fatal_installs (v : Z) (r : state) : state :=
  State (metrics_requests r) (metrics_captured r) v (non_fatal_installs r) (anr_installs r) (ios_fatal_installs r) (ios_non_fatal_installs r) (crashes_captured r) (non_fatals_captured r) (anr_metrics_captured r) (ios_metrics_captured r) (ios_crashes_captured r) (ios_non_fatals_captured r) (ios_crash_free_rate_captured r) (play_console_anrs_captured r) (ios_dominant_release_captured r) (android_dominant_release_captured r) (android_p90_launch_captured r) (ios_nonfatal_issues_processed r) (current_phase r) (app_data r).
Definition set_non_fatal_installs (v : Z) (r : state) : state :=
  State (metrics_requests r) (metrics_captured r) (fatal_installs r) v (anr_installs r) (ios_fatal_installs r) (ios_non_fatal_installs r) (crashes_captured r) (non_fatals_captured r) (anr_metrics_captured r) (ios_metrics_captured r) (ios_crashes_captured r) (ios_non_fatals_captured r) (ios_crash_free_rate_captured r) (play_console_anrs_captured r) (ios_dominant_release_captured r) (android_dominant_release_captured r) (android_p90_launch_captured r) (ios_nonfatal_issues_processed r) (current_phase r) (app_data r).
Definition set_anr_installs (v : Z) (r : state) : state :=
  State (metrics_requests r) (metrics_captured r) (fatal_installs r) (non_fatal_installs r) v (ios_fatal_installs r) (ios_non_fatal_installs r) (crashes_captured r) (non_fatals_captured r) (anr_metrics_captured r) (ios_metrics_captured r) (ios_crashes_captured r) (ios_non_fatals_captured r) (ios_crash_free_rate_captured r) (play_console_anrs_captured r) (ios_dominant_release_captured r) (android_dominant_release_captured r) (android_p90_launch_captured r) (ios_nonfatal_issues_processed r) (current_phase r) (app_data r).
Definition set_ios_fatal_installs (v : Z) (r : state) : state :=
  State (metrics_requests r) (metrics_captured r) (fatal_installs r) (non_fatal_installs r) (anr_installs r) v (ios_non_fatal_installs r) (crashes_captured r) (non_fatals_captured r) (anr_metrics_captured r) (ios_metrics_captured r) (ios_crashes_captured r) (ios_non_fatals_captured r) (ios_crash_free_rate_captured r) (play_console_anrs_captured r) (ios_dominant_release_captured r) (android_dominant_release_captured r) (android_p90_launch_captured r) (ios_nonfatal_issues_processed r) (current_phase r) (app_data r).
Definition set_ios_non_fatal_installs (v : Z) (r : state) : state :=
  State (metrics_requests r) (metrics_captured r) (fatal_installs r) (non_fatal_installs r) (anr_installs r) (ios_fatal_installs r) v (crashes_captured r) (non_fatals_captured r) (anr_metrics_captured r) (ios_metrics_captured r) (ios_crashes_captured r) (ios_non_fatals_captured r) (ios_crash_free_rate_captured r) (play_console_anrs_captured r) (ios_dominant_release_captured r) (android_dominant_release_captured r) (android_p90_launch_captured r) (ios_nonfatal_issues_processed r) (current_phase r) (app_data r).
Definition set_crashes_captured (v : bool) (r : state) : state :=
  State (metrics_requests r) (metrics_captured r) (fatal_installs r) (non_fatal_installs r) (anr_installs r) (ios_fatal_installs r) (ios_non_fatal_installs r) v (non_fatals_captured r) (anr_metrics_captured r) (ios_metrics_captured r) (ios_crashes_captured r) (ios_non_fatals_captured r) (ios_crash_free_rate_captured r) (play_console_anrs_captured r) (ios_dominant_release_captured r) (android_dominant_release_captured r) (android_p90_launch_captured r) (ios_nonfatal_issues_processed r) (current_phase r) (app_data r).
Definition set_non_fatals_captured (v : bool) (r : state) : state :=
  State (metrics_requests r) (metrics_captured r) (fatal_installs r) (non_fatal_installs r) (anr_installs r) (ios_fatal_installs r) (ios_non_fatal_installs r) (crashes_captured r) v (anr_metrics_captured r) (ios_metrics_captured r) (ios_crashes_captured r) (ios_non_fatals_captured r) (ios_crash_free_rate_captured r) (play_console_anrs_captured r) (ios_dominant_release_captured r) (android_dominant_release_captured r) (android_p90_launch_captured r) (ios_nonfatal_issues_processed r) (current_phase r) (app_data r).
Definition set_anr_metrics_captured (v : bool) (r : state) : state :=
  State (metrics_requests r) (metrics_captured r) (fatal_installs r) (non_fatal_installs r) (anr_installs r) (ios_fatal_installs r) (ios_non_fatal_installs r) (crashes_captured r) (non_fatals_captured r) v (ios_metrics_captured r) (ios_crashes_captured r) (ios_non_fatals_captured r) (ios_crash_free_rate_captured r) (play_console_anrs_captured r) (ios_dominant_release_captured r) (android_dominant_release_captured r) (android_p90_launch_captured r) (ios_nonfatal_issues_processed r) (current_phase r) (app_data r).
Definition set_ios_metrics_captured (v : bool) (r : state) : state :=
  State (metrics_requests r) (metrics_captured r) (fatal_installs r) (non_fatal_installs r) (anr_installs r) (ios_fatal_installs r) (ios_non_fatal_installs r) (crashes_captured r) (non_fatals_captured r) (anr_metrics_captured r) v (ios_crashes_captured r) (ios_non_fatals_captured r) (ios_crash_free_rate_captured r) (play_console_anrs_captured r) (ios_dominant_release_captured r) (android_dominant_release_captured r) (android_p90_launch_captured r) (ios_nonfatal_issues_processed r) (current_phase r) (app_data r).
Definition set_ios_crashes_captured (v : bool) (r : state) : state :=
  State (metrics_requests r) (metrics_captured r) (fatal_installs r) (non_fatal_installs r) (anr_installs r) (ios_fatal_installs r) (ios_non_fatal_installs r) (crashes_captured r) (non_fatals_captured r) (anr_metrics_captured r) (ios_metrics_captured r) v (ios_non_fatals_captured r) (ios_crash_free_rate_captured r) (play_console_anrs_captured r) (ios_dominant_release_captured r) (android_dominant_release_captured r) (android_p90_launch_captured r) (ios_nonfatal_issues_processed r) (current_phase r) (app_data r).
Definition set_ios_non_fatals_captured (v : bool) (r : state) : state :=
  State (metrics_requests r) (metrics_captured r) (fatal_installs r) (non_fatal_installs r) (anr_installs r) (ios_fatal_installs r) (ios_non_fatal_installs r) (crashes_captured r) (non_fatals_captured r) (anr_metrics_captured r) (ios_metrics_captured r) (ios_crashes_captured r) v (ios_crash_free_rate_captured r) (play_console_anrs_captured r) (ios_dominant_release_captured r) (android_dominant_release_captured r) (android_p90_launch_captured r) (ios_nonfatal_issues_processed r) (current_phase r) (app_data r).
Definition set_play_console_anrs_captured (v : bool) (r : state) : state :=
  State (metrics_requests r) (metrics_captured r) (fatal_installs r) (non_fatal_installs r) (anr_installs r) (ios_fatal_installs r) (ios_non_fatal_installs r) (crashes_captured r) (non_fatals_captured r) (anr_metrics_captured r) (ios_metrics_captured r) (ios_crashes_captured r) (ios_non_fatals_captured r) (ios_crash_free_rate_captured r) v (ios_dominant_release_captured r) (android_dominant_release_captured r) (android_p90_launch_captured r) (ios_nonfatal_issues_processed r) (current_phase r) (app_data r).
Definition set_ios_dominant_release_captured (v : bool) (r : state) : state :=
  State (metrics_requests r) (metrics_captured r) (fatal_installs r) (non_fatal_installs r) (anr_installs r) (ios_fatal_installs r) (ios_non_fatal_installs r) (crashes_captured r) (non_fatals_captured r) (anr_metrics_captured r) (ios_metrics_captured r) (ios_crashes_captured r) (ios_non_fatals_captured r) (ios_crash_free_rate_captured r) (play_console_anrs_captured r) v (android_dominant_release_captured r) (android_p90_launch_captured r) (ios_nonfatal_issues_processed r) (current_phase r) (app_data r).
Definition set_android_dominant_release_captured (v : bool) (r : state) : state :=
  State (metrics_requests r) (metrics_captured r) (fatal_installs r) (non_fatal_installs r) (anr_installs r) (ios_fatal_installs r) (ios_non_fatal_installs r) (crashes_captured r) (non_fatals_captured r) (anr_metrics_captured r) (ios_metrics_captured r) (ios_crashes_captured r) (ios_non_fatals_captured r) (ios_crash_free_rate_captured r) (play_console_anrs_captured r) (ios_dominant_release_captured r) v (android_p90_launch_captured r) (ios_nonfatal_issues_processed r) (current_phase r) (app_data r).
Definition set_android_p90_launch_captured (v : bool) (r : state) : state :=
  State (metrics_requests r) (metrics_captured r) (fatal_installs r) (non_fatal_installs r) (anr_installs r) (ios_fatal_installs r) (ios_non_fatal_installs r) (crashes_captured r) (non_fatals_captured r) (anr_metrics_captured r) (ios_metrics_captured r) (ios_crashes_captured r) (ios_non_fatals_captured r) (ios_crash_free_rate_captured r) (play_console_anrs_captured r) (ios_dominant_release_captured r) (android_dominant_release_captured r) v (ios_nonfatal_issues_processed r) (current_phase r) (app_data r).
Definition set_ios_nonfatal_issues_processed (v : bool) (r : state) : state :=
  State (metrics_requests r) (metrics_captured r) (fatal_installs r) (non_fatal_installs r) (anr_installs r) (ios_fatal_installs r) (ios_non_fatal_installs r) (crashes_captured r) (non_fatals_captured r) (anr_metrics_captured r) (ios_metrics_captured r) (ios_crashes_captured r) (ios_non_fatals_captured r) (ios_crash_free_rate_captured r) (play_console_anrs_captured r) (ios_dominant_release_captured r) (android_dominant_release_captured r) (android_p90_launch_captured r) v (current_phase r) (app_data r).
Definition set_current_phase (v : phase) (r : state) : state :=
  State (metrics_requests r) (metrics_captured r) (fatal_installs r) (non_fatal_installs r) (anr_installs r) (ios_fatal_installs r) (ios_non_fatal_installs r) (crashes_captured r) (non_fatals_captured r) (anr_metrics_captured r) (ios_metrics_captured r) (ios_crashes_captured r) (ios_non_fatals_captured r) (ios_crash_free_rate_captured r) (play_console_anrs_captured r) (ios_dominant_release_captured r) (android_dominant_release_captured r) (android_p90_launch_captured r) (ios_nonfatal_issues_processed r) v (app_data r).
Definition set_app_data (v : app_result) (r : state) : state :=
  State (metrics_requests r) (metrics_captured r) (fatal_installs r) (non_fatal_installs r) (anr_installs r) (ios_fatal_installs r) (ios_non_fatal_installs r) (crashes_captured r) (non_fatals_captured r) (anr_metrics_captured r) (ios_metrics_captured r) (ios_crashes_captured r) (ios_non_fatals_captured r) (ios_crash_free_rate_captured r) (play_console_anrs_captured r) (ios_dominant_release_captured r) (android_dominant_release_captured r) (android_p90_launch_captured r) (ios_nonfatal_issues_processed r) (current_phase r) v.


(** The flags of [state] by name, for the code that is the same for each. *)
Inductive flag : Set :=
| f_metrics_captured | f_crashes_captured | f_non_fatals_captured
| f_anr_metrics_captured | f_ios_metrics_captured | f_ios_crashes_captured
| f_ios_non_fatals_captured | f_play_console_anrs_captured
| f_ios_dominant_release_captured | f_android_dominant_release_captured
| f_android_p90_launch_captured.

Definition get_flag (f : flag) : state -> bool :=
  match f with
  | f_metrics_captured => metrics_captured
  | f_crashes_captured => crashes_captured
  | f_non_fatals_captured => non_fatals_captured
  | f_anr_metrics_captured => anr_metrics_captured
  | f_ios_metrics_captured => ios_metrics_captured
  | f_ios_crashes_captured => ios_crashes_captured
  | f_ios_non_fatals_captured => ios_non_fatals_captured
  | f_play_console_anrs_captured => play_console_anrs_captured
  | f_ios_dominant_release_captured => ios_dominant_release_captured
  | f_android_dominant_release_captured => android_dominant_release_captured
  | f_android_p90_launch_captured => android_p90_launch_captured
  end.

Definition set_flag (f : flag) : bool -> state -> state :=
  match f with
  | f_metrics_captured => set_metrics_captured
  | f_crashes_captured => set_crashes_captured
  | f_non_fatals_captured => set_non_fatals_captured
  | f_anr_metrics_captured => set_anr_metrics_captured
  | f_ios_metrics_captured => set_ios_metrics_captured
  | f_ios_crashes_captured => set_ios_crashes_captured
  | f_ios_non_fatals_captured => set_ios_non_fatals_captured
  | f_play_console_anrs_captured => set_play_console_anrs_captured
  | f_ios_dominant_release_captured => set_ios_dominant_release_captured
  | f_android_dominant_release_captured => set_android_dominant_release_captured
  | f_android_p90_launch_captured => set_android_p90_launch_captured
  end.

(** Updates of [app_data["android"]] and [app_data["ios"]] inside the state. *)
Definition on_android (f : Android.t -> Android.t) (s : state) : state :=
  set_app_data (set_android (f (android (app_data s))) (app_data s)) s.

Definition on_ios (f : Ios.t -> Ios.t) (s : state) : state :=
  set_app_data (set_ios (f (ios (app_data s))) (app_data s)) s.

(** The state [collect_app_data] starts from. *)
Definition initial_app_data (app_key : string) (cfg : app_configuration) : app_result :=
  AppResult app_key (cfg_name cfg)
    (Android.Make ∅ ∅ [] [] [] [] None JNull)
    (Ios.Make ∅ ∅ [] [] JNull)
    JNull.

Definition initial_state (app_key : string) (cfg : app_configuration) : state :=
  {| metrics_requests := [];
     metrics_captured := false;
     fatal_installs := 0;
     non_fatal_installs := 0;
     anr_installs := 0;
     ios_fatal_installs := 0;
     ios_non_fatal_installs := 0;
     crashes_captured := false;
     non_fatals_captured := false;
     anr_metrics_captured := false;
     ios_metrics_captured := false;
     ios_crashes_captured := false;
     ios_non_fatals_captured := false;
     ios_crash_free_rate_captured := false;
     play_console_anrs_captured := false;
     ios_dominant_release_captured := false;
     android_dominant_release_captured := false;
     android_p90_launch_captured := false;
     ios_nonfatal_issues_processed := false;
     current_phase := metrics;
     app_data := initial_app_data app_key cfg |}.

(** A network response, by what the callback reads of it: [response.url],
    and the outcome of [await response.json()], of [await response.text()]
    ([None] when the call raises) and of [response.request.post_data]. *)
Record response := Response {
  url : string;
  json_body : option json;
  text_body : option string;
  post_data : option string
}.

(* ===================================================================== *)
(** * Statements that mutate the closure and may raise *)
(* ===================================================================== *)

(** A block of statements inside a [try]: it runs on the closure's state
    and either completes with a value or raises.  What it assigned before
    raising stays assigned. *)
Definition H (A : Type) : Type := state -> state * option A.

Global Instance H_ret : MRet H := fun A a s => (s, Some a).

Global Instance H_bind : MBind H := fun A B k m s =>
  match m s with
  | (s', Some a) => k a s'
  | (s', None) => (s', None)
  end.

(** A Python expression evaluated inside the block. *)
Definition lift {A} (o : option A) : H A := fun s => (s, o).

Definition modify (f : state -> state) : H unit := fun s => (f s, Some tt).

Definition read {A} (f : state -> A) : H A := fun s => (s, Some (f s)).

(** [for x in l: body] *)
Fixpoint for_each {A} (l : list A) (body : A -> H unit) : H unit :=
  match l with
  | [] => mret tt
  | x :: rest => _ ← body x; for_each rest body
  end.

(** [try: body / except Exception: handler] *)
Definition try_except (body : H unit) (handler : state -> state) (s : state) : state :=
  match body s with
  | (s', Some _) => s'
  | (s', None) => handler s'
  end.

(* ===================================================================== *)
(** * Grouping and ranking *)
(* ===================================================================== *)

(** ** A [dict] keyed by values taken from the payload *)

(** A [list] or a [dict] is not hashable: using one as a key raises. *)
Definition hashable (v : json) : bool :=
  match v with
  | JArr _ | JObj _ => false
  | _ => true
  end.

(** When two keys are the same key of a [dict]: Python's [==] on the
    hashable values, where [True == 1 == 1.0].  The decoder hands out one
    NaN object, which a [dict] finds again by identity. *)
Definition key_eqb (a b : json) : bool :=
  match a, b with
  | JNull, JNull => true
  | JStr s, JStr t => String.eqb s t
  | JBool x, JBool y => Z.b2z x =? Z.b2z y
  | JBool x, JInt z | JInt z, JBool x => Z.b2z x =? z
  | JInt x, JInt y => x =? y
  | JFloat f, JFloat g => (f =? g)%float || (Float64.is_nan f && Float64.is_nan g)
  | JFloat f, JInt z | JInt z, JFloat f => Float64.eqb_Z f z
  | JFloat f, JBool x | JBool x, JFloat f => Float64.eqb_Z f (Z.b2z x)
  | _, _ => false
  end.

(** The items of the [dict], in insertion order. *)
Fixpoint dict_get {V} (d : list (json * V)) (k : json) : option V :=
  match d with
  | [] => None
  | (k', v) :: rest => if key_eqb k' k then Some v else dict_get rest k
  end.

(** [k in d] *)
Definition dict_mem {V} (d : list (json * V)) (k : json) : option bool :=
  if hashable k then Some (bool_decide (is_Some (dict_get d k))) else None.

(** [d[k] = f(d[k])] on a key that is present: the item keeps its place. *)
Fixpoint dict_alter {V} (f : V -> V) (d : list (json * V)) (k : json) : list (json * V) :=
  match d with
  | [] => []
  | (k', v) :: rest =>
      if key_eqb k' k then (k', f v) :: rest else (k', v) :: dict_alter f rest k
  end.

(** [d[k] = v]: a present key keeps its place, a new one goes last. *)
Fixpoint dict_set {V} (d : list (json * V)) (k : json) (v : V) : list (json * V) :=
  match d with
  | [] => [(k, v)]
  | (k', v') :: rest =>
      if key_eqb k' k then (k', v) :: rest else (k', v') :: dict_set rest k v
  end.

(** ** [sorted(l, key=key, reverse=True)] *)

(** The list is sorted with [<] on the keys alone, as [list.sort] does, and
    stably: an element passes only those whose key is strictly above its
    own.  On keys that [<] orders totally (integers, floats other than NaN)
    this is the arrangement [list.sort] returns, the only stable one. *)
Section SortedReverse.
Context {A K : Type} (key : A -> K) (ltb : K -> K -> bool).

Fixpoint insert_reverse (x : A) (l : list A) : list A :=
  match l with
  | [] => [x]
  | y :: rest =>
      if ltb (key x) (key y) then y :: insert_reverse x rest else x :: y :: rest
  end.

Fixpoint sorted_reverse (l : list A) : list A :=
  match l with
  | [] => []
  | x :: rest => insert_reverse x (sorted_reverse rest)
  end.

(** [sorted(l, key=key, reverse=True)[:3]] *)
Definition top3 (l : list A) : list A := firstn 3 (sorted_reverse l).

End SortedReverse.

(** ** Firebase issue lists *)

(** A value of [grouped_issues]. *)
Record issue_group := IssueGroup {
  g_title : json;
  g_original_title : json;
  g_subtitle : json;
  g_impactedDevicesCount : Z;
  g_eventsCount : Z
}.

Definition add_counts (impacted_devices events_count : Z) (g : issue_group) : issue_group :=
  IssueGroup (g_title g) (g_original_title g) (g_subtitle g)
    (g_impactedDevicesCount g + impacted_devices) (g_eventsCount g + events_count).

Section Issues.
Context `{PyBuiltins}.

(** One turn of [for issue in top_issues]. *)
Definition group_issue (current_phase : phase) (grouped_issues : list (json * issue_group))
    (issue : json) : option (list (json * issue_group)) :=
  caption ← Py.get issue "caption" (JObj []);
  subtitle ← Py.get caption "subtitle" (JStr "Unknown");
  title ← Py.get caption "title" (JStr "Unknown");
  impacted_devices ← Py.get issue "impactedDevicesCount" (JStr "0") ≫= Py.int;
  events_count ← Py.get issue "eventsCount" (JStr "0") ≫= Py.int;
  let '(group_key, display_title) :=
    if bool_decide (current_phase = anrs) || startswith_ios current_phase
    then (title, title)
    else (subtitle, if negb (Py.eq_str subtitle "Unknown") then subtitle else title) in
  if startswith_ios current_phase then
    let issue_key :=
      JStr (str_of title +:+ "_" +:+ pretty (List.length grouped_issues)) in
    let display_name :=
      if bool_decide (current_phase = ios_non_fatals) then subtitle else title in
    Some (dict_set grouped_issues issue_key
            (IssueGroup display_name title subtitle impacted_devices events_count))
  else
    present ← dict_mem grouped_issues group_key;
    if present : bool
    then Some (dict_alter (add_counts impacted_devices events_count) grouped_issues group_key)
    else Some (dict_set grouped_issues group_key
                 (IssueGroup display_title title subtitle impacted_devices events_count)).

(** The whole loop, from an empty [grouped_issues]. *)
Fixpoint group_issues_from (current_phase : phase) (grouped_issues : list (json * issue_group))
    (top_issues : list json) : option (list (json * issue_group)) :=
  match top_issues with
  | [] => Some grouped_issues
  | issue :: rest =>
      grouped_issues' ← group_issue current_phase grouped_issues issue;
      group_issues_from current_phase grouped_issues' rest
  end.

Definition group_issues (current_phase : phase) (top_issues : list json) :=
  group_issues_from current_phase [] top_issues.

(** [sorted(grouped_issues.values(), key=lambda x: x["impactedDevicesCount"],
    reverse=True)[:3]] *)
Definition sorted_issues (grouped_issues : list (json * issue_group)) : list issue_group :=
  top3 g_impactedDevicesCount Z.ltb (map snd grouped_issues).

(** [int(impactedDevicesCount / total_installs * 100) if total_installs > 0
    else 0]: a true division and a product in binary64, then a truncation. *)
Definition impact_percent (impactedDevicesCount total_installs : Z) : option Z :=
  if 0 <? total_installs then
    q ← Float64.int_truediv impactedDevicesCount total_installs;
    Float64.trunc (q * 100)%float
  else Some 0.

End Issues.

(* ===================================================================== *)
(** * The response callback *)
(* ===================================================================== *)

(** The double quote, for the fragments of the request body the Play-console
    block looks for. *)
Definition dquote : string := String (Ascii.ascii_of_nat 34) EmptyString.

Section Callback.
Context `{PyBuiltins}.
(** The module-level [DATE_RANGE_DAYS] and the [app_config] of the app. *)
Variable DATE_RANGE_DAYS : Z.
Variable app_config : app_configuration.

(** ** URL signatures *)

Definition is_launch_timeline (url : string) : bool :=
  Py.contains "traces/_as:listTimelines" url
  && negb (Py.contains "filter.appVersionValues" url).

Definition is_dominant_release (url : string) : bool :=
  Py.contains "analytics.google.com/analytics/app/data/v2/venus?" url
  && Py.contains "reportId" url.

Definition is_play_console_clusters (url : string) : bool :=
  Py.contains "playconsolehealth-pa.clients6.google.com" url
  && Py.contains "errorClusters" url
  && Py.contains (pc_app_id (cfg_play_console (cfg_android app_config))) url.

(** [re.search(r'metrics:getMetricsReport', url)]: the pattern has no
    metacharacter, the search is a substring test. *)
Definition is_metrics_report (url : string) : bool :=
  Py.contains "metrics:getMetricsReport" url.

Definition is_top_issues (url : string) : bool :=
  Py.contains "metrics:listFirebaseTopOpenIssues" url.

(** ** Dates *)

(** [datetime.fromisoformat(v.replace('Z', '+00:00')).date()]; [None] when
    it raises ([v] is no string, or no ISO date). *)
Definition iso_date (v : json) : option Z :=
  match v with
  | JStr s => date_fromisoformat (Py.replace_Z s)
  | _ => None
  end.

(** [today] is the date [datetime.now()] gives when the callback runs. *)
Definition is_valid_date_range (today : Z) (start_time_str end_time_str : json) : bool :=
  match
    start_time ← iso_date start_time_str;
    end_time ← iso_date end_time_str;
    let expected_start := today - (DATE_RANGE_DAYS - 1) in
    Some ((end_time =? today) && (start_time =? expected_start))
  with
  | Some b => b
  | None => false
  end.

(** ** Android P90 launch time *)

(** The [for projection in projections] loop: [Some None] when it ends
    with [target_projection] still [None]. *)
Fixpoint find_target_projection (today : Z) (projections : list json) : option (option json) :=
  match projections with
  | [] => Some None
  | projection :: rest =>
      start_time_str ← Py.get projection "startTime" (JStr "");
      if Py.truthy start_time_str then
        match iso_date start_time_str with
        | Some start_time =>
            let yesterday := today - 1 in
            if (start_time =? today) || (start_time =? yesterday)
            then Some (Some projection)
            else find_target_projection today rest
        | None => find_target_projection today rest
        end
      else find_target_projection today rest
  end.

(** The body of the [try]: [None] when it raises, [Some None] when it
    completes without a value, [Some (Some p90_seconds)] otherwise. *)
Definition p90_launch_seconds (today : Z) (json_response : json) : option (option float) :=
  timelines ← Py.get json_response "timelines" (JArr []);
  if Py.truthy timelines then
    n ← Py.len timelines;
    if 0 <? n then
      projections ← Py.index timelines 0 ≫= (fun t => Py.get t "projections" (JArr []));
      target_projection ← Py.iter projections ≫= find_target_projection today;
      match target_projection with
      | Some target_projection =>
          if Py.truthy target_projection then
            quantiles ← Py.get target_projection "projection" (JObj [])
                        ≫= (fun p => Py.get p "quantiles" (JArr []));
            n ← Py.len quantiles;
            if 19 <=? n then
              p90_microseconds ← Py.index quantiles 18 ≫= Py.float;
              Some (Some (Float64.round2 (p90_microseconds / 1000000)%float))
            else Some None
          else Some None
      | None => Some None
      end
    else Some None
  else Some None.

Definition handle_launch_time (today : Z) (response : response) (s : state) : state :=
  match json_body response ≫= p90_launch_seconds today with
  | Some (Some p90_seconds) =>
      set_android_p90_launch_captured true
        (on_android (Android.set_p90_launch_time_seconds (Some p90_seconds)) s)
  | _ => s
  end.

(** ** Dominant release *)

Definition dominant_version (response_text : string) : option (option json) :=
  let response_text :=
    if String.prefix ")]}'," response_text then Py.drop 5 response_text else response_text in
  json_response ← json_loads response_text;
  dominant_releases ← Py.get json_response "default" (JObj [])
                      ≫= (fun d => Py.get d "responses" (JArr []));
  n ← Py.len dominant_releases;
  if 3 <=? n then
    third ← Py.index dominant_releases 2;
    rows ← Py.get third "responseRows" JNull;
    if Py.truthy rows then
      first_row ← Py.item third "responseRows" ≫= (fun r => Py.index r 0);
      release_data ← Py.get first_row "dimensionCompoundValues" (JArr []);
      if Py.truthy release_data then
        version_data ← Py.index release_data 0;
        match Py.item version_data "value" with
        | Some v => Some (Some v)
        | None => Some (Some (JStr (str_of version_data)))
        end
      else Some None
    else Some None
  else Some None.

Definition handle_dominant_release (response : response) (s : state) : state :=
  match text_body response ≫= dominant_version with
  | Some (Some dominant_version) =>
      if bool_decide (current_phase s = ios_dominant_release) then
        on_ios (Ios.set_dominant_release dominant_version)
          (set_ios_dominant_release_captured true s)
      else
        on_android (Android.set_dominant_release dominant_version)
          (set_android_dominant_release_captured true s)
  | _ => s
  end.

(** ** Play-console ANR clusters *)

(** A value of [grouped_anrs]. *)
Record anr_group := AnrGroup {
  g_affected_users : Z;
  g_event_count : Z;
  g_impact_percentage : float
}.

Definition merge_anr (affected_users event_count : Z) (impact_percentage : float)
    (g : anr_group) : anr_group :=
  AnrGroup (g_affected_users g + affected_users) (g_event_count g + event_count)
    (g_impact_percentage g + impact_percentage)%float.

(** One turn of [for anr in anr_data]. *)
Definition group_anr (grouped_anrs : list (json * anr_group)) (anr : json)
    : option (list (json * anr_group)) :=
  anr_name ← Py.get anr "2" (JObj []) ≫= (fun d => Py.get d "1" (JStr "Unknown"));
  affected_users ← Py.get anr "6" (JStr "0") ≫= Py.int;
  event_count ← Py.get anr "7" (JStr "0") ≫= Py.int;
  ratio ← Py.get anr "11" (JInt 0) ≫= Py.float;
  let impact_percentage := (ratio * 100)%float in
  present ← dict_mem grouped_anrs anr_name;
  if present : bool
  then Some (dict_alter (merge_anr affected_users event_count impact_percentage)
               grouped_anrs anr_name)
  else Some (dict_set grouped_anrs anr_name
               (AnrGroup affected_users event_count impact_percentage)).

Fixpoint group_anrs_from (grouped_anrs : list (json * anr_group)) (anr_data : list json)
    : option (list (json * anr_group)) :=
  match anr_data with
  | [] => Some grouped_anrs
  | anr :: rest => group_anr grouped_anrs anr ≫= (fun g => group_anrs_from g rest)
  end.

(** [sorted(grouped_anrs.items(), key=lambda x: x[1]["impact_percentage"],
    reverse=True)[:3]] *)
Definition sorted_anrs (grouped_anrs : list (json * anr_group)) : list (json * anr_group) :=
  top3 (fun x => g_impact_percentage (snd x)) PrimFloat.ltb grouped_anrs.

Definition anr_entry (x : json * anr_group) : anr_data :=
  AnrData (fst x) (Float64.round2 (g_impact_percentage (snd x)))
    (g_affected_users (snd x)) (g_event_count (snd x)).

Definition play_console_anrs (json_response : json) : option (list anr_data) :=
  anr_data ← Py.get json_response "1" (JArr []) ≫= Py.iter;
  grouped_anrs ← group_anrs_from [] anr_data;
  Some (map anr_entry (sorted_anrs grouped_anrs)).

(** [request_body and '"19":2' in request_body and '"2":[3]' in request_body] *)
Definition wanted_request_body (request_body : option string) : bool :=
  match request_body with
  | Some b =>
      negb (String.eqb b "")
      && Py.contains (dquote +:+ "19" +:+ dquote +:+ ":2") b
      && Py.contains (dquote +:+ "2" +:+ dquote +:+ ":[3]") b
  | None => false
  end.

Definition handle_play_console (response : response) (s : state) : state :=
  if wanted_request_body (post_data response) then
    match json_body response ≫= play_console_anrs with
    | Some anr_list =>
        set_play_console_anrs_captured true (on_android (Android.set_up_anrs anr_list) s)
    | None => s
    end
  else s.

(** ** Metrics reports *)

(** [metric["intervalMetrics"][0]] *)
Definition interval0 (metric : json) : option json :=
  Py.item metric "intervalMetrics" ≫= (fun m => Py.index m 0).

(** [metric.get("intervalMetrics")] as a condition *)
Definition has_interval_metrics (metric : json) : option bool :=
  Py.truthy <$> Py.get metric "intervalMetrics" JNull.

(** [round(ratio * 100, 2)] of the row *)
Definition crash_free_rate (metric : json) : option json :=
  i0 ← interval0 metric;
  ratio ← Py.get i0 "crashlyticsEventFreeUsersCombined" (JObj [])
          ≫= (fun c => Py.get c "ratio" (JInt 0));
  Py.mul_int ratio 100 ≫= Py.round2.

(** [int(metric["intervalMetrics"][0].get("totalCrashlyticsInstalls", "0"))] *)
Definition crashlytics_installs (metric : json) : option Z :=
  i0 ← interval0 metric;
  Py.get i0 "totalCrashlyticsInstalls" (JStr "0") ≫= Py.int.

(** The condition all three metrics blocks test before they extract. *)
Definition valid_report (today : Z) (grouped_metrics : json) : option bool :=
  if Py.truthy grouped_metrics then
    first ← Py.index grouped_metrics 0;
    interval_metrics ← Py.get first "intervalMetrics" JNull;
    if Py.truthy interval_metrics then
      start_time ← interval0 first ≫= (fun i => Py.get i "startTime" (JStr ""));
      end_time ← interval0 first ≫= (fun i => Py.get i "endTime" (JStr ""));
      Some (is_valid_date_range today start_time end_time)
    else Some false
  else Some false.

(** *** Android *)

(** [for metric in grouped_metrics], with the two local rates. *)
Fixpoint android_metrics_loop (grouped_metrics : list json)
    (non_fatal_rate fatal_rate : json) : H (json * json) :=
  match grouped_metrics with
  | [] => mret (non_fatal_rate, fatal_rate)
  | metric :: rest =>
      fatality ← lift (Py.get metric "fatality" JNull);
      has ← lift (has_interval_metrics metric);
      if Py.eq_str fatality "NON_FATAL" && has then
        rate ← lift (crash_free_rate metric);
        installs ← lift (crashlytics_installs metric);
        _ ← modify (set_non_fatal_installs installs);
        android_metrics_loop rest rate fatal_rate
      else if Py.eq_str fatality "FATAL" && has then
        rate ← lift (crash_free_rate metric);
        installs ← lift (crashlytics_installs metric);
        _ ← modify (set_fatal_installs installs);
        android_metrics_loop rest non_fatal_rate rate
      else android_metrics_loop rest non_fatal_rate fatal_rate
  end.

Definition store_android_metrics (url : string) (non_fatal_rate fatal_rate : json)
    (s : state) : state :=
  let rates : gmap string json :=
    <["fatal" := fatal_rate]> (<["non_fatal" := non_fatal_rate]> ∅) in
  let installs : gmap string Z :=
    <["fatal" := fatal_installs s]> (<["non_fatal" := non_fatal_installs s]> ∅) in
  set_metrics_captured true
    (set_metrics_requests (metrics_requests s ++ [url])
       (on_android (fun a => Android.set_total_installs installs
                               (Android.set_crash_free_rates rates a)) s)).

Definition android_metrics_body (today : Z) (response : response) : H unit :=
  grouped_metrics ← lift (json_body response
                          ≫= (fun j => Py.get j "groupedMetrics" (JArr [])));
  valid ← lift (valid_report today grouped_metrics);
  if valid : bool then
    rows ← lift (Py.iter grouped_metrics);
    rates ← android_metrics_loop rows JNull JNull;
    modify (store_android_metrics (url response) (fst rates) (snd rates))
  else mret tt.

Definition handle_android_metrics (today : Z) (response : response) : state -> state :=
  try_except (android_metrics_body today response) id.

(** *** ANR page *)

(** The loop stops at the first ANR row that has interval metrics. *)
Fixpoint find_anr_installs (grouped_metrics : list json) : option (option Z) :=
  match grouped_metrics with
  | [] => Some None
  | metric :: rest =>
      fatality ← Py.get metric "fatality" JNull;
      has ← has_interval_metrics metric;
      if Py.eq_str fatality "ANR" && has
      then Some <$> crashlytics_installs metric
      else find_anr_installs rest
  end.

Definition handle_anr_metrics (today : Z) (response : response) (s : state) : state :=
  match
    grouped_metrics ← json_body response ≫= (fun j => Py.get j "groupedMetrics" (JArr []));
    valid ← valid_report today grouped_metrics;
    if valid : bool then Py.iter grouped_metrics ≫= find_anr_installs else Some None
  with
  | Some (Some installs) => set_anr_metrics_captured true (set_anr_installs installs s)
  | _ => s
  end.

(** *** iOS *)

Definition ios_has_rate (k : string) (s : state) : bool :=
  bool_decide (is_Some (Ios.crash_free_rates (ios (app_data s)) !! k)).

Definition store_ios_rate (k : string) (rate : json) (installs : Z) : state -> state :=
  on_ios (fun i =>
    Ios.set_total_installs (<[k := installs]> (Ios.total_installs i))
      (Ios.set_crash_free_rates (<[k := rate]> (Ios.crash_free_rates i)) i)).

(** One turn of [for metric in grouped_metrics] of the iOS block. *)
Definition ios_metrics_row (metric : json) : H unit :=
  fatality ← lift (Py.get metric "fatality" JNull);
  has ← lift (has_interval_metrics metric);
  if Py.eq_str fatality "FATAL" && has then
    installs ← lift (crashlytics_installs metric);
    _ ← modify (set_ios_fatal_installs installs);
    s ← read id;
    if (bool_decide (current_phase s = ios_crashes) || bool_decide (current_phase s = ios_metrics))
       && negb (ios_has_rate "fatal" s)
    then
      ios_fatal_rate ← lift (crash_free_rate metric);
      modify (store_ios_rate "fatal" ios_fatal_rate (ios_fatal_installs s))
    else mret tt
  else if Py.eq_str fatality "NON_FATAL" && has then
    installs ← lift (crashlytics_installs metric);
    _ ← modify (set_ios_non_fatal_installs installs);
    s ← read id;
    if (bool_decide (current_phase s = ios_non_fatals) || bool_decide (current_phase s = ios_metrics))
       && negb (ios_has_rate "non_fatal" s)
    then
      ios_non_fatal_rate ← lift (crash_free_rate metric);
      s ← read id;
      if negb (ios_has_rate "non_fatal" s)
      then modify (store_ios_rate "non_fatal" ios_non_fatal_rate (ios_non_fatal_installs s))
      else mret tt
    else mret tt
  else mret tt.

Definition ios_metrics_body (today : Z) (response : response) : H unit :=
  grouped_metrics ← lift (json_body response
                          ≫= (fun j => Py.get j "groupedMetrics" (JArr [])));
  valid ← lift (valid_report today grouped_metrics);
  if valid : bool then
    rows ← lift (Py.iter grouped_metrics);
    _ ← for_each rows ios_metrics_row;
    modify (fun s =>
      if bool_decide (current_phase s = ios_metrics) then set_ios_metrics_captured true s
      else if bool_decide (current_phase s = ios_non_fatals) then set_ios_metrics_captured true s
      else s)
  else mret tt.

(** The [except] clause: the flag is still set when a fatal rate is there. *)
Definition ios_metrics_except (s : state) : state :=
  if ios_has_rate "fatal" s then set_ios_metrics_captured true s else s.

Definition handle_ios_metrics (today : Z) (response : response) : state -> state :=
  try_except (ios_metrics_body today response) ios_metrics_except.

(** ** Top open issues *)

(** What the [if]/[elif] chain ahead of the [try] decides. *)
Inductive issues_guard : Type :=
| Extract (total_installs : Z)
| MarkPending
| Skip.

Definition top_issues_guard (s : state) : issues_guard :=
  let current_phase := current_phase s in
  if bool_decide (current_phase = crashes) && negb (crashes_captured s)
  then Extract (fatal_installs s)
  else if bool_decide (current_phase = non_fatals) && negb (non_fatals_captured s)
  then Extract (non_fatal_installs s)
  else if bool_decide (current_phase = anrs) && anr_metrics_captured s
  then Extract (anr_installs s)
  else if bool_decide (current_phase = ios_crashes) && ios_metrics_captured s
  then Extract (ios_fatal_installs s)
  else if bool_decide (current_phase = ios_non_fatals) && ios_metrics_captured s
  then Extract (ios_non_fatal_installs s)
  else if bool_decide (current_phase = ios_non_fatals) && negb (ios_metrics_captured s)
  then MarkPending
  else Skip.

(** [app_data[...][...].append(issue_data)], by the current phase. *)
Definition append_issue (issue_data : issue_data) (s : state) : state :=
  match current_phase s with
  | crashes =>
      on_android (fun a => Android.set_top_crashes (Android.top_crashes a ++ [issue_data]) a) s
  | non_fatals =>
      on_android (fun a => Android.set_top_non_fatals (Android.top_non_fatals a ++ [issue_data]) a) s
  | anrs =>
      on_android (fun a => Android.set_all_anrs (Android.all_anrs a ++ [issue_data]) a) s
  | ios_crashes =>
      on_ios (fun i => Ios.set_top_crashes (Ios.top_crashes i ++ [issue_data]) i) s
  | ios_non_fatals =>
      on_ios (fun i => Ios.set_top_non_fatals (Ios.top_non_fatals i ++ [issue_data]) i) s
  | _ => s
  end.

(** The entry stored for the issue ranked [i]. *)
Definition ranked_issue (total_installs i : Z) (issue : issue_group) : option issue_data :=
  impact_percent ← impact_percent (g_impactedDevicesCount issue) total_installs;
  Some (IssueData i (g_title issue) impact_percent
          (g_impactedDevicesCount issue) (g_eventsCount issue)).

(** [for i, issue in enumerate(sorted_issues, 1)] *)
Fixpoint append_issues (total_installs i : Z) (sorted_issues : list issue_group) : H unit :=
  match sorted_issues with
  | [] => mret tt
  | issue :: rest =>
      issue_data ← lift (ranked_issue total_installs i issue);
      _ ← modify (append_issue issue_data);
      append_issues total_installs (i + 1) rest
  end.

Definition mark_issues_captured (s : state) : state :=
  match current_phase s with
  | crashes => set_crashes_captured true s
  | non_fatals => set_non_fatals_captured true s
  | ios_crashes => set_ios_crashes_captured true s
  | ios_non_fatals => set_ios_non_fatals_captured true s
  | _ => s
  end.

Definition top_issues_body (total_installs : Z) (response : response) : H unit :=
  top_issues ← lift (json_body response
                     ≫= (fun j => Py.get j "topIssues" (JArr []) ≫= Py.iter));
  current_phase ← read current_phase;
  grouped_issues ← lift (group_issues current_phase top_issues);
  _ ← append_issues total_installs 1 (sorted_issues grouped_issues);
  modify mark_issues_captured.

Definition handle_top_issues (response : response) (s : state) : state :=
  match top_issues_guard s with
  | Extract total_installs => try_except (top_issues_body total_installs response) id s
  | MarkPending => set_ios_nonfatal_issues_processed true s
  | Skip => s
  end.

(** ** [handle_response] *)

(** Three independent [if] blocks, then one [if]/[elif] chain.

    A call is one step of the model, from the first guard to the last
    write.  The coroutine of the source is suspended once in each block it
    enters, at [await response.json()] or [await response.text()], and the
    dominant-release, iOS and issue-list blocks read [current_phase] again
    when they are resumed; here the body is read and the writes are made in
    the state the guard was tested in.  A statement about a call is
    therefore about a response handled from its guard to its last write
    with nothing in between: neither another response nor a step of the
    main flow. *)
Definition handle_response (today : Z) (response : response) (s : state) : state :=
  let url := url response in
  let s :=
    if bool_decide (current_phase s = android_p90_launch) && is_launch_timeline url
    then handle_launch_time today response s else s in
  let s :=
    if (bool_decide (current_phase s = ios_dominant_release)
        || bool_decide (current_phase s = android_dominant_release))
       && is_dominant_release url
    then handle_dominant_release response s else s in
  let s :=
    if bool_decide (current_phase s = up_anrs) && is_play_console_clusters url
    then handle_play_console response s else s in
  if negb (metrics_captured s) && is_metrics_report url
  then handle_android_metrics today response s
  else if bool_decide (current_phase s = anr_metrics) && is_metrics_report url
  then handle_anr_metrics today response s
  else if (bool_decide (current_phase s = ios_metrics)
           || bool_decide (current_phase s = ios_crashes)
           || bool_decide (current_phase s = ios_non_fatals))
          && is_metrics_report url
  then handle_ios_metrics today response s
  else if is_top_issues url
  then handle_top_issues response s
  else s.

End Callback.

(* ===================================================================== *)
(** * A reference instance of the library functions *)
(* ===================================================================== *)

(** Used to run the callback on fixtures.  It covers plain literals:
    [int] and [float] of a signed decimal numeral, [str] of a string,
    [None], a Boolean or an [int], and ISO dates of the two shapes
    [YYYY-MM-DD] and [YYYY-MM-DDThh:mm:ss], with an optional [+hh:mm]
    offset.  Elsewhere it raises ([str] gives the empty string, and no text
    body is decoded): no fixture goes there. *)
Module Reference.

Definition digit (c : ascii) : option Z :=
  let n := Z.of_nat (nat_of_ascii c) in
  if (48 <=? n) && (n <=? 57) then Some (n - 48) else None.

Fixpoint digits (s : string) (acc : Z) : option Z :=
  match s with
  | EmptyString => Some acc
  | String c rest => d ← digit c; digits rest (10 * acc + d)
  end.

(** A numeral: at least one digit. *)
Definition numeral (s : string) : option Z :=
  match s with
  | EmptyString => None
  | _ => digits s 0
  end.

Definition int_of_str (s : string) : option Z :=
  match s with
  | String "-" rest => Z.opp <$> numeral rest
  | String "+" rest => numeral rest
  | _ => numeral s
  end.

Definition float_of_str (s : string) : option float :=
  int_of_str s ≫= Float64.of_int.

Definition str_of (v : json) : string :=
  match v with
  | JStr s => s
  | JNull => "None"
  | JBool true => "True"
  | JBool false => "False"
  | JInt z => pretty z
  | _ => ""
  end.

Definition is_leap (y : Z) : bool :=
  (y mod 4 =? 0) && (negb (y mod 100 =? 0) || (y mod 400 =? 0)).

Definition days_in_month (y m : Z) : Z :=
  if m =? 2 then (if is_leap y then 29 else 28)
  else if (m =? 4) || (m =? 6) || (m =? 9) || (m =? 11) then 30
  else 31.

Definition days_before_month (y m : Z) : Z :=
  let common := nth (Z.to_nat (m - 1)) [0; 31; 59; 90; 120; 151; 181; 212; 243; 273; 304; 334] 0 in
  if (2 <? m) && is_leap y then common + 1 else common.

(** [date(y, m, d).toordinal()] *)
Definition toordinal (y m d : Z) : Z :=
  let y' := y - 1 in
  y' * 365 + y' / 4 - y' / 100 + y' / 400 + days_before_month y m + d.

Definition field (s : string) (from len : nat) : option Z :=
  numeral (String.substring from len s).

Definition sep (s : string) (at_ : nat) (c : ascii) : bool :=
  bool_decide (Py.string_nth s at_ = Some c).

Definition clock (s : string) (from : nat) : bool :=
  match field s from 2, field s (from + 3) 2 with
  | Some h, Some m => (h <? 24) && (m <? 60) && sep s (from + 2) ":"
  | _, _ => false
  end.

Definition date_fromisoformat (s : string) : option Z :=
  y ← field s 0 4;
  m ← field s 5 2;
  d ← field s 8 2;
  let date_ok :=
    sep s 4 "-" && sep s 7 "-" && (1 <=? y) && (1 <=? m) && (m <=? 12)
    && (1 <=? d) && (d <=? days_in_month y m) in
  let n := String.length s in
  let time_ok :=
    match field s 17 2 with
    | Some sec => sep s 10 "T" && clock s 11 && sep s 16 ":" && (sec <? 60)
    | None => false
    end in
  let rest_ok :=
    (n =? 10)%nat
    || ((n =? 19)%nat && time_ok)
    || ((n =? 25)%nat && time_ok && sep s 19 "+" && clock s 20) in
  if date_ok && rest_ok then Some (toordinal y m d) else None.

Global Instance builtins : PyBuiltins :=
  Build_PyBuiltins int_of_str float_of_str str_of (fun s => eq_refl) (fun _ => None)
    date_fromisoformat.

End Reference.


(* ===================================================================== *)
(** * The URLs of one app *)
(* ===================================================================== *)

(** The dictionary [_build_urls] returns; an absent key is [None]. *)
Record urls := Urls {
  firebase_url : string;
  top_crashes_url : string;
  top_non_fatals_url : string;
  top_anrs_url : string;
  play_console_anr_url : string;
  android_p90_launch_url : option string;
  ios_crashes_url : option string;
  ios_non_fatals_url : option string;
  ios_dominant_release_url : option string;
  android_dominant_release_url : option string
}.

Definition ga_explorer : string :=
  "reports~2Fexplorer%3Fparams%3D_r.explorerCard..selmet%253D%255B%2522activeUsers%2522%255D%2526_r.explorerCard..seldim%253D%255B%2522appVersion%2522%255D".

Definition ga_ios_filter : string :=
  "%2526_r..dataFilters%253D%255B%257B%2522type%2522%253A1%252C%2522fieldName%253A%2522operatingSystem%2522%252C%2522evaluationType%2522%253A4%252C%2522expressionList%253A%255B%2522iOS%2522%255D%252C%2522complement%2522%253Afalse%252C%2522isCaseSensitive%253Atrue%252C%2522expression%253A%2522%2522%257D%255D".

Definition ga_android_filter : string :=
  "%2526_r..dataFilters%253D%255B%257B%2522type%2522%253A1%252C%2522fieldName%253A%2522operatingSystem%2522%252C%2522evaluationType%253A3%252C%2522expressionList%253A%255B%2522iOS%2522%255D%252C%2522complement%253Atrue%252C%2522isCaseSensitive%253Atrue%252C%2522expression%253A%2522%2522%257D%255D"
  +:+ "%2526_r.copa-filter-builder..filter-to-edit%253D%255B%257B%2522type%2522%253A1%252C%2522fieldName%253A%2522operatingSystem%2522%252C%2522evaluationType%253A4%252C%2522expressionList%253A%255B%2522iOS%2522%255D%252C%2522complement%253Afalse%252C%2522isCaseSensitive%253Atrue%252C%2522expression%253A%2522%2522%257D%255D%2526_u.comparisonOption%253Ddisabled%2526_u.dateOption%253D".

(** The two dominant-release links, for the analytics app [app]. *)
Definition ios_dom (firebase_project app ga_date_option : string) : string :=
  "https://console.firebase.google.com/u/0/project/" +:+ firebase_project
  +:+ "/analytics/app/" +:+ app +:+ "/overview/" +:+ ga_explorer +:+ ga_ios_filter
  +:+ "%2526_u.dateOption%253D" +:+ ga_date_option
  +:+ "%2526_u.comparisonOption%253Ddisabled&r%3Duser-technology-detail&fpn%3D324301932190".

Definition android_dom (firebase_project app ga_date_option : string) : string :=
  "https://console.firebase.google.com/u/0/project/" +:+ firebase_project
  +:+ "/analytics/app/" +:+ app +:+ "/overview/" +:+ ga_explorer +:+ ga_android_filter
  +:+ ga_date_option +:+ "&r%3Duser-technology-detail&fpn%3D324301932190".

(** [_build_urls(report_days, app_key, app_config)].  The two links the
    source builds first for a fixed project are overwritten on both
    branches and left out. *)
Definition _build_urls (report_days : Z) (app_key : string) (app_config : app_configuration)
    : urls :=
  let seven := report_days =? 7 in
  let firebase_time := if seven then "last-seven-days" else "last-thirty-days" in
  let ga_date_option := if seven then "last7Days" else "last28Days" in
  let pc_days := if seven then "7" else "30" in
  let perf_time := if seven then "7d" else "30d" in
  let firebase_project := cfg_firebase_project app_config in
  let android_app := cfg_app_id (cfg_android app_config) in
  let base :=
    "https://console.firebase.google.com/u/0/project/" +:+ firebase_project
    +:+ "/crashlytics/app" in
  let issues app query :=
    base +:+ "/" +:+ app +:+ "/issues?state=open&time=" +:+ firebase_time +:+ query in
  let play_console := cfg_play_console (cfg_android app_config) in
  let android_p90_launch_url :=
    if default true (cfg_has_p90_launch_time app_config) then
      Some ("https://console.firebase.google.com/u/0/project/" +:+ firebase_project
            +:+ "/performance/app/" +:+ android_app +:+ "/trends?time=" +:+ perf_time)
    else None in
  let with_ios :=
    match cfg_ios app_config with
    | Some i => if cfg_has_ios app_config then Some (cfg_ios_app_id i) else None
    | None => None
    end in
  {| firebase_url := issues android_app "&tag=all&sort=userCount&types=crash%2Cerror";
     top_crashes_url := issues android_app "&tag=all&sort=userCount&types=crash";
     top_non_fatals_url := issues android_app "&tag=all&sort=userCount&types=error";
     top_anrs_url := issues android_app "&tag=all&sort=userCount&types=ANR";
     play_console_anr_url :=
       "https://play.google.com/console/u/0/developers/" +:+ pc_developer_id play_console
       +:+ "/app/" +:+ pc_app_id play_console +:+ "/vitals/crashes" +:+ "?days=" +:+ pc_days
       +:+ "&isUserPerceived=true&errorType=ANR";
     android_p90_launch_url := android_p90_launch_url;
     ios_crashes_url :=
       (fun ios_app => issues ios_app "&types=crash&tag=all&sort=userCount") <$> with_ios;
     ios_non_fatals_url :=
       (fun ios_app => issues ios_app "&types=error&tag=all&sort=eventCount") <$> with_ios;
     ios_dominant_release_url :=
       (fun ios_app => ios_dom firebase_project ios_app ga_date_option) <$> with_ios;
     android_dominant_release_url :=
       Some (android_dom firebase_project (default android_app with_ios) ga_date_option) |}.

(** The truth value of a URL read with [urls.get(...)]. *)
Definition url_given (u : option string) : bool :=
  match u with
  | Some u => negb (String.eqb u "")
  | None => false
  end.

(* ===================================================================== *)
(** * The sequencer *)
(* ===================================================================== *)

(** One [await] of [collect_app_data], as the environment decides it: the
    responses the callback handles while the call is pending, each with the
    date of that moment, and whether the awaited call raises. *)
Record await_outcome := Await {
  arrivals : list (Z * response);
  raises : bool
}.

(** Where a run stands once the trace of outcomes is used up: it returned,
    an exception reached the outer [except] (the source returns [None]), or
    it is still waiting. *)
Inductive run_result (A : Type) : Type :=
| Done (a : A) (s : state) (rest : list await_outcome)
| Raised (s : state)
| Waiting (s : state).
Arguments Done {A} a s rest.
Arguments Raised {A} s.
Arguments Waiting {A} s.

Definition Flow (A : Type) : Type := state -> list await_outcome -> run_result A.

Global Instance Flow_ret : MRet Flow := fun A a s tr => Done a s tr.

Global Instance Flow_bind : MBind Flow := fun A B k m s tr =>
  match m s tr with
  | Done a s' tr' => k a s' tr'
  | Raised s' => Raised s'
  | Waiting s' => Waiting s'
  end.

(** A synchronous statement of the main flow. *)
Definition assign (f : state -> state) : Flow unit := fun s tr => Done tt (f s) tr.

(** The value a [return] computes from the state. *)
Definition result {A} (f : state -> A) : Flow A := fun s tr => Done (f s) s tr.

Definition timeout_seconds : nat := 120.

Section Sequencer.
Context `{PyBuiltins}.
Variable DATE_RANGE_DAYS : Z.
Variable app_config : app_configuration.

(** The callback runs once per response, in arrival order, while the main
    flow is suspended in an [await]. *)
Definition deliver (o : await_outcome) (s : state) : state :=
  fold_left (fun s a => handle_response DATE_RANGE_DAYS app_config (fst a) (snd a) s)
    (arrivals o) s.

(** [await asyncio.sleep(...)] *)
Definition sleep : Flow unit := fun s tr =>
  match tr with
  | [] => Waiting s
  | o :: rest => Done tt (deliver o s) rest
  end.

(** [await page.goto(url)], [await page.reload()], [await page.evaluate(...)] *)
Definition page_call : Flow unit := fun s tr =>
  match tr with
  | [] => Waiting s
  | o :: rest => if raises o then Raised (deliver o s) else Done tt (deliver o s) rest
  end.

Definition goto (url : option string) : Flow unit :=
  match url with
  | Some _ => page_call
  | None => fun s _ => Raised s
  end.

(** [while not flag: await asyncio.sleep(1)] *)
Fixpoint wait_for (f : flag) (s : state) (tr : list await_outcome) {struct tr}
    : run_result unit :=
  if get_flag f s then Done tt s tr
  else
    match tr with
    | [] => Waiting s
    | o :: rest => wait_for f (deliver o s) rest
    end.

(** [while not flag and elapsed < timeout_seconds: await asyncio.sleep(1);
    elapsed += 1], with [remaining = timeout_seconds - elapsed].  The value
    is the final [elapsed]. *)
Fixpoint poll (f : flag) (remaining : nat) (elapsed : nat) (s : state)
    (tr : list await_outcome) : run_result nat :=
  if get_flag f s then Done elapsed s tr
  else
    match remaining with
    | O => Done elapsed s tr
    | S remaining' =>
        match tr with
        | [] => Waiting s
        | o :: rest => poll f remaining' (S elapsed) (deliver o s) rest
        end
    end.

(** The bounded wait, with the forced continuation that follows it. *)
Definition wait_with_timeout (f : flag) : Flow nat :=
  elapsed ← (poll f timeout_seconds 0 : Flow nat);
  _ ← assign (fun s => if negb (get_flag f s) then set_flag f true s else s);
  mret elapsed.

Definition when (b : bool) (m : Flow unit) : Flow unit :=
  if b then m else mret tt.

Definition collect_ios (u : urls) : Flow unit :=
  _ ← sleep;
  _ ← assign (set_current_phase ios_metrics);
  _ ← goto (ios_crashes_url u);
  _ ← sleep;
  _ ← page_call;
  _ ← sleep;
  _ ← page_call;
  _ ← page_call;
  _ ← wait_with_timeout f_ios_metrics_captured;
  _ ← assign (set_current_phase ios_crashes);
  _ ← wait_with_timeout f_ios_crashes_captured;
  _ ← assign (set_current_phase ios_non_fatals);
  _ ← sleep;
  _ ← goto (ios_non_fatals_url u);
  _ ← wait_with_timeout f_ios_non_fatals_captured;
  mret tt.

(** [collect_app_data(report_days, app_key, app_config, page)].
    [vitals_data] is what [get_google_play_vitals] returns when the optional
    import is there ([GOOGLE_PLAY_AVAILABLE]); it never raises. *)
Definition collect_app_data (report_days : Z) (app_key : string)
    (GOOGLE_PLAY_AVAILABLE : bool) (vitals_data : json) : Flow app_result :=
  let u := _build_urls report_days app_key app_config in
  _ ← goto (Some (firebase_url u));
  _ ← (wait_for f_metrics_captured : Flow unit);
  _ ← sleep;
  _ ← assign (set_current_phase crashes);
  _ ← goto (Some (top_crashes_url u));
  _ ← (wait_for f_crashes_captured : Flow unit);
  _ ← assign (set_current_phase non_fatals);
  _ ← sleep;
  _ ← goto (Some (top_non_fatals_url u));
  _ ← (wait_for f_non_fatals_captured : Flow unit);
  _ ← assign (set_current_phase anr_metrics);
  _ ← sleep;
  _ ← goto (Some (top_anrs_url u));
  _ ← (wait_for f_anr_metrics_captured : Flow unit);
  _ ← assign (set_current_phase anrs);
  _ ← when (cfg_has_ios app_config && url_given (ios_crashes_url u)) (collect_ios u);
  _ ← assign (set_current_phase up_anrs);
  _ ← sleep;
  _ ← goto (Some (play_console_anr_url u));
  _ ← wait_with_timeout f_play_console_anrs_captured;
  _ ← when (cfg_has_ios app_config && url_given (ios_dominant_release_url u))
        (_ ← assign (set_current_phase ios_dominant_release);
         _ ← sleep;
         _ ← goto (ios_dominant_release_url u);
         _ ← wait_with_timeout f_ios_dominant_release_captured;
         mret tt);
  _ ← when (url_given (android_dominant_release_url u))
        (_ ← assign (set_current_phase android_dominant_release);
         _ ← sleep;
         _ ← goto (android_dominant_release_url u);
         _ ← wait_with_timeout f_android_dominant_release_captured;
         mret tt);
  _ ← when (default true (cfg_has_p90_launch_time app_config)
            && url_given (android_p90_launch_url u))
        (_ ← assign (set_current_phase android_p90_launch);
         _ ← sleep;
         _ ← goto (android_p90_launch_url u);
         _ ← wait_with_timeout f_android_p90_launch_captured;
         mret tt);
  _ ← when (GOOGLE_PLAY_AVAILABLE && Py.truthy vitals_data)
        (assign (fun s => set_app_data (set_google_play_vitals vitals_data (app_data s)) s));
  result app_data.

End Sequencer.

(* ===================================================================== *)
(** * Notions used by the statements *)
(* ===================================================================== *)

(** ** Invariants of blocks of statements *)

(** A block keeps [I] when every state it leaves behind, raising or not,
    satisfies [I] if the state it started from does. *)
Definition H_inv (I : state -> Prop) {A} (m : H A) : Prop :=
  forall s, I s -> I (fst (m s)).

(** The same for the main flow, with a precondition: from a state that
    satisfies [P], a run that returns leaves [Q] of the value returned, and
    a run that raises, or that is still waiting when the trace of outcomes
    is used up, stands in a state that satisfies [J]. *)
Definition Flow_spec (P J : state -> Prop) {A} (Q : A -> state -> Prop) (m : Flow A) : Prop :=
  forall s tr, P s ->
    match m s tr with
    | Done a s' _ => Q a s'
    | Raised s' => J s'
    | Waiting s' => J s'
    end.

(** What no call of the callback changes: the phase stays [p]; outside
    the iOS phases the iOS part of the app result stays [i]; and
    [metrics_captured], once set, stays set. *)
Definition frame (p : phase) (i : Ios.t) (mc : bool) (s : state) : Prop :=
  current_phase s = p /\
  (startswith_ios p = false -> ios (app_data s) = i) /\
  (mc = true -> metrics_captured s = true).

(** The iOS part of the app result, as [collect_app_data] creates it. *)
Definition initial_ios : Ios.t := Ios.Make ∅ ∅ [] [] JNull.

(** Every iOS field of a result is at its initial empty or null value. *)
Definition ios_fields_initial (result : app_result) : Prop :=
  Ios.crash_free_rates (ios result) = ∅ /\
  Ios.total_installs (ios result) = ∅ /\
  Ios.top_crashes (ios result) = [] /\
  Ios.top_non_fatals (ios result) = [] /\
  Ios.dominant_release (ios result) = JNull.

(** The iOS part is untouched and the phase is none of the iOS phases. *)
Definition ios_idle (s : state) : Prop :=
  startswith_ios (current_phase s) = false /\ ios (app_data s) = initial_ios.

(** ** Crash-free rates *)

(** The four fields that hold crash-free rates and install counts. *)
Definition rates_of (s : state) :=
  (Android.crash_free_rates (android (app_data s)),
   Android.total_installs (android (app_data s)),
   Ios.crash_free_rates (ios (app_data s)),
   Ios.total_installs (ios (app_data s))).

Section Windows.
Context `{PyBuiltins}.
Variable DATE_RANGE_DAYS : Z.

(** The date check of the metrics blocks on a response: [true] when the
    condition evaluates to a true value, [false] when it is false or
    raises. *)
Definition valid_window (today : Z) (response : response) : bool :=
  match
    j ← json_body response;
    grouped_metrics ← Py.get j "groupedMetrics" (JArr []);
    valid_report DATE_RANGE_DAYS today grouped_metrics
  with
  | Some b => b
  | None => false
  end.

(** The date range a metrics report embeds: the [startTime] and [endTime]
    of the first interval of its first group, when there is one. *)
Definition embedded_range (response : response) : option (json * json) :=
  j ← json_body response;
  grouped_metrics ← Py.get j "groupedMetrics" (JArr []);
  if Py.truthy grouped_metrics then
    first ← Py.index grouped_metrics 0;
    interval_metrics ← Py.get first "intervalMetrics" JNull;
    if Py.truthy interval_metrics then
      start_time ← interval0 first ≫= (fun i => Py.get i "startTime" (JStr ""));
      end_time ← interval0 first ≫= (fun i => Py.get i "endTime" (JStr ""));
      Some (start_time, end_time)
    else None
  else None.

(** ** Groups of a metrics report *)

(** The group carries the discriminator [fatality] and interval metrics. *)
Definition is_group (fatality : string) (metric : json) : bool :=
  match Py.get metric "fatality" JNull, has_interval_metrics metric with
  | Some f, Some true => Py.eq_str f fatality
  | _, _ => false
  end.

(** The ratio of crash-free users a group reports. *)
Definition group_ratio (metric : json) : option json :=
  i0 ← interval0 metric;
  c ← Py.get i0 "crashlyticsEventFreeUsersCombined" (JObj []);
  Py.get c "ratio" (JInt 0).

(** The loop of the Android block goes through the group without raising:
    the group is an object and, when it is a FATAL or NON_FATAL group with
    interval metrics, its rate and its install count can be read. *)
Definition group_ok (metric : json) : bool :=
  match Py.get metric "fatality" JNull with
  | Some _ =>
      if is_group "NON_FATAL" metric || is_group "FATAL" metric
      then bool_decide (is_Some (crash_free_rate metric))
           && bool_decide (is_Some (crashlytics_installs metric))
      else true
  | None => false
  end.

(** What the loop leaves in a local rate, and in an install counter, after
    one group. *)
Definition step_rate (fatality : string) (acc : json) (metric : json) : json :=
  if is_group fatality metric then default acc (crash_free_rate metric) else acc.

Definition step_installs (fatality : string) (acc : Z) (metric : json) : Z :=
  if is_group fatality metric then default acc (crashlytics_installs metric) else acc.

End Windows.

(** ** The two halves of [handle_response] *)

Section Halves.
Context `{PyBuiltins}.
Variable DATE_RANGE_DAYS : Z.
Variable app_config : app_configuration.

(** The three [if] blocks the callback starts with. *)
Definition early_blocks (today : Z) (response : response) (s : state) : state :=
  let url := url response in
  let s :=
    if bool_decide (current_phase s = android_p90_launch) && is_launch_timeline url
    then handle_launch_time today response s else s in
  let s :=
    if (bool_decide (current_phase s = ios_dominant_release)
        || bool_decide (current_phase s = android_dominant_release))
       && is_dominant_release url
    then handle_dominant_release response s else s in
  if bool_decide (current_phase s = up_anrs) && is_play_console_clusters app_config url
  then handle_play_console response s else s.

(** The [if]/[elif] chain it ends with. *)
Definition report_chain (today : Z) (response : response) (s : state) : state :=
  let url := url response in
  if negb (metrics_captured s) && is_metrics_report url
  then handle_android_metrics DATE_RANGE_DAYS today response s
  else if bool_decide (current_phase s = anr_metrics) && is_metrics_report url
  then handle_anr_metrics DATE_RANGE_DAYS today response s
  else if (bool_decide (current_phase s = ios_metrics)
           || bool_decide (current_phase s = ios_crashes)
           || bool_decide (current_phase s = ios_non_fatals))
          && is_metrics_report url
  then handle_ios_metrics DATE_RANGE_DAYS today response s
  else if is_top_issues url
  then handle_top_issues response s
  else s.

End Halves.

(** ** Rankings *)

(** No element is ranked below one that follows it. *)
Definition descending {A K} (key : A -> K) (ltb : K -> K -> bool) (l : list A) : Prop :=
  StronglySorted (fun a b => ltb (key a) (key b) = false) l.

(** The ranking value of [x] is neither below nor above [k]. *)
Definition tied {A K} (key : A -> K) (ltb : K -> K -> bool) (k : K) (x : A) : bool :=
  negb (ltb k (key x)) && negb (ltb (key x) k).

(** A binary64 number other than NaN as a triple of integers, compared
    lexicographically: the class (infinities, negative and positive finite
    numbers, zeros), then exponent and mantissa, negated for the negative
    numbers. *)
Definition sf_code (x : spec_float) : Z * Z * Z :=
  match x with
  | S754_zero _ => (0, 0, 0)
  | S754_infinity s => (if s then -2 else 2, 0, 0)
  | S754_nan => (0, 0, 0)
  | S754_finite s m e => if s then (-1, - e, - Z.pos m) else (1, e, Z.pos m)
  end.

Definition lex_lt (a b : Z * Z * Z) : Prop :=
  a.1.1 < b.1.1 \/
  (a.1.1 = b.1.1 /\ (a.1.2 < b.1.2 \/ (a.1.2 = b.1.2 /\ a.2 < b.2))).

(** The ranking values of the two rankings. *)
Definition anr_rank (x : json * anr_group) : float := g_impact_percentage (snd x).

(** ** Signatures and phases *)

(** The URL signatures [handle_response] tests. *)
Inductive signature : Set :=
| sig_launch_timeline
| sig_dominant_release
| sig_play_console_clusters
| sig_metrics_report
| sig_top_issues.

Definition matches (app_config : app_configuration) (sg : signature) (url : string) : bool :=
  match sg with
  | sig_launch_timeline => is_launch_timeline url
  | sig_dominant_release => is_dominant_release url
  | sig_play_console_clusters => is_play_console_clusters app_config url
  | sig_metrics_report => is_metrics_report url
  | sig_top_issues => is_top_issues url
  end.

(** The phases whose pages send a response of the signature, as the
    sequencer visits them: the launch-time page, the two dominant-release
    pages, the Play-console page, the pages that load a metrics report
    (the first Android page, the ANR page and the iOS pages), and the pages
    that list issues. *)
Definition meaningful (sg : signature) (p : phase) : bool :=
  match sg, p with
  | sig_launch_timeline, android_p90_launch => true
  | sig_dominant_release, (ios_dominant_release | android_dominant_release) => true
  | sig_play_console_clusters, up_anrs => true
  | sig_metrics_report,
    (metrics | anr_metrics | ios_metrics | ios_crashes | ios_non_fatals) => true
  | sig_top_issues, (crashes | non_fatals | anrs | ios_crashes | ios_non_fatals) => true
  | _, _ => false
  end.

(** What the sequencer maintains between the first phase and its flag: it
    leaves the phase [metrics] only once [metrics_captured] is set, and the
    flag is never reset. *)
Definition phase_inv (s : state) : Prop :=
  metrics_captured s = false -> current_phase s = metrics.

(** ** Rows and groups *)

(** The keys on which [==] is read off the value: every hashable value but
    a [float]. *)
Definition plain_key (k : json) : bool :=
  match k with
  | JNull | JBool _ | JInt _ | JStr _ => true
  | _ => false
  end.

(** The class of a plain key under [==]: [True] and [1] are one key. *)
Definition key_class (k : json) : option (Z + string) :=
  match k with
  | JBool b => Some (inl (Z.b2z b))
  | JInt z => Some (inl z)
  | JStr s => Some (inr s)
  | _ => None
  end.

Definition plain_keys {V} (d : list (json * V)) : Prop :=
  Forall (fun kv => plain_key (fst kv) = true) d.

Section Grouping.
Context {R V : Type} (key : R -> json) (init : R -> V) (merge : R -> V -> V).

(** The [if key in d: ... else: ...] of the two grouping loops, on a row
    already read. *)
Definition group_row (d : list (json * V)) (r : R) : list (json * V) :=
  if bool_decide (is_Some (dict_get d (key r)))
  then dict_alter (merge r) d (key r)
  else dict_set d (key r) (init r).

Definition group_rows (d : list (json * V)) (rows : list R) : list (json * V) :=
  fold_left group_row rows d.

(** The rows of one key, in payload order. *)
Definition rows_of (k : json) (rows : list R) : list R :=
  List.filter (fun r => key_eqb (key r) k) rows.

(** One more row under a key. *)
Definition collect (o : option V) (r : R) : option V :=
  Some (match o with Some v => merge r v | None => init r end).

(** The first row's entry with the later rows merged in, in order. *)
Definition merged (l : list R) : option V :=
  match l with
  | [] => None
  | r :: rest => Some (fold_left (fun v r' => merge r' v) rest (init r))
  end.

End Grouping.

Definition total {R} (f : R -> Z) (l : list R) : Z :=
  fold_right (fun r acc => f r + acc) 0 l.

(** What one turn of [for issue in top_issues] reads from a row. *)
Record issue_row := IssueRow {
  r_subtitle : json;
  r_title : json;
  r_devices : Z;
  r_events : Z
}.

(** What one turn of [for anr in anr_data] reads from a cluster. *)
Record anr_row := AnrRow {
  r_name : json;
  r_users : Z;
  r_event_count : Z;
  r_ratio : float
}.

(** No ["_"] in the string. *)
Fixpoint underscore_free (s : string) : bool :=
  match s with
  | EmptyString => true
  | String c rest => negb (Ascii.eqb c "_") && underscore_free rest
  end.

(** The keys of the iOS phases: a text, ["_"], and a number below the size
    of the [dict]. *)
Definition numbered {V} (d : list (json * V)) : Prop :=
  Forall (fun kv => exists (t : string) (i : nat),
            fst kv = JStr (t +:+ "_" +:+ pretty i) /\ (i < List.length d)%nat) d.

Section Rows.
Context `{PyBuiltins}.

Definition read_issue (issue : json) : option issue_row :=
  caption ← Py.get issue "caption" (JObj []);
  subtitle ← Py.get caption "subtitle" (JStr "Unknown");
  title ← Py.get caption "title" (JStr "Unknown");
  impacted_devices ← Py.get issue "impactedDevicesCount" (JStr "0") ≫= Py.int;
  events_count ← Py.get issue "eventsCount" (JStr "0") ≫= Py.int;
  Some (IssueRow subtitle title impacted_devices events_count).

(** [group_key] and [display_title] of the loop, outside the iOS phases. *)
Definition group_key (current_phase : phase) (r : issue_row) : json :=
  if bool_decide (current_phase = anrs) || startswith_ios current_phase
  then r_title r else r_subtitle r.

Definition display_title (current_phase : phase) (r : issue_row) : json :=
  if bool_decide (current_phase = anrs) || startswith_ios current_phase
  then r_title r
  else if negb (Py.eq_str (r_subtitle r) "Unknown") then r_subtitle r else r_title r.

(** The entry a first row creates, and what a later row adds to it. *)
Definition first_entry (current_phase : phase) (r : issue_row) : issue_group :=
  IssueGroup (display_title current_phase r) (r_title r) (r_subtitle r)
    (r_devices r) (r_events r).

Definition bump (r : issue_row) : issue_group -> issue_group :=
  add_counts (r_devices r) (r_events r).

(** A group: the captions of its first row, the counts of all its rows. *)
Definition summed (current_phase : phase) (l : list issue_row) : option issue_group :=
  match l with
  | [] => None
  | r :: _ =>
      Some (IssueGroup (display_title current_phase r) (r_title r) (r_subtitle r)
              (total r_devices l) (total r_events l))
  end.

(** The entry of a row in the iOS phases. *)
Definition ios_entry (current_phase : phase) (r : issue_row) : issue_group :=
  IssueGroup
    (if bool_decide (current_phase = ios_non_fatals) then r_subtitle r else r_title r)
    (r_title r) (r_subtitle r) (r_devices r) (r_events r).

Definition read_anr (anr : json) : option anr_row :=
  anr_name ← Py.get anr "2" (JObj []) ≫= (fun d => Py.get d "1" (JStr "Unknown"));
  affected_users ← Py.get anr "6" (JStr "0") ≫= Py.int;
  event_count ← Py.get anr "7" (JStr "0") ≫= Py.int;
  ratio ← Py.get anr "11" (JInt 0) ≫= Py.float;
  Some (AnrRow anr_name affected_users event_count ratio).

Definition first_anr (r : anr_row) : anr_group :=
  AnrGroup (r_users r) (r_event_count r) (r_ratio r * 100)%float.

Definition more_anr (r : anr_row) : anr_group -> anr_group :=
  merge_anr (r_users r) (r_event_count r) (r_ratio r * 100)%float.

(** A Play-console group: the counts of its rows, and their percentages
    added up in payload order. *)
Definition summed_anrs (l : list anr_row) : option anr_group :=
  match l with
  | [] => None
  | r :: rest =>
      Some (AnrGroup (total r_users l) (total r_event_count l)
              (fold_left (fun acc r' => (acc + r_ratio r' * 100)%float) rest
                 (r_ratio r * 100)%float))
  end.

(** Modelled from the claim's words (C3): Android lists group by subtitle,
    by title when the subtitle is absent; ANRs and the iOS lists group by
    title. *)
Definition claimed_group_key (current_phase : phase) (issue : json) : option json :=
  caption ← Py.get issue "caption" (JObj []);
  if bool_decide (current_phase = anrs) || startswith_ios current_phase
  then Py.get caption "title" (JStr "Unknown")
  else if Py.has_key caption "subtitle"
       then Py.get caption "subtitle" (JStr "Unknown")
       else Py.get caption "title" (JStr "Unknown").

(** Modelled from the claim's words (C3): the counts summed within each
    group of the claimed key. *)
Definition claimed_counts (current_phase : phase) (top_issues : list json)
    : option (list (json * (Z * Z))) :=
  keyed ← mapM (fun issue =>
                  k ← claimed_group_key current_phase issue;
                  r ← read_issue issue;
                  Some (k, r)) top_issues;
  Some (group_rows fst
          (fun x => (r_devices (snd x), r_events (snd x)))
          (fun x v => (fst v + r_devices (snd x), snd v + r_events (snd x)))
          [] keyed).

(** The counts of the groups the loop builds. *)
Definition group_counts (current_phase : phase) (top_issues : list json)
    : option (list (json * (Z * Z))) :=
  groups ← group_issues current_phase top_issues;
  Some (map (fun x => (fst x, (g_impactedDevicesCount (snd x), g_eventsCount (snd x))))
          groups).

End Rows.

(** ** Projections of a launch-time timeline *)

Section Projections.
Context `{PyBuiltins}.





End Projections.

(** ** Traces *)

Section Traces.
Context `{PyBuiltins}.
Variable DATE_RANGE_DAYS : Z.
Variable app_config : app_configuration.

(** The state after the responses of several [await]s, one after the other. *)
Definition deliver_all (tr : list await_outcome) (s : state) : state :=
  fold_left (fun s o => deliver DATE_RANGE_DAYS app_config o s) tr s.

End Traces.

(** An [await] during which nothing arrives. *)
Definition quiet : await_outcome := Await [] false.

(* ===================================================================== *)
(** * Fixtures *)
(* ===================================================================== *)

(** The first entry of [APPS_CONFIG], an app without iOS. *)
Definition partner_config : app_configuration :=
  AppConfig "Partner App" "driverapp-f56a2"
    (AndroidConfig "android:com.theporter.android.driverapp"
       "com.theporter.android.driverapp"
       (PlayConsoleConfig "4707055851875633325" "4972278085731896191"))
    None false (Some true).

(** The run of the fixtures takes place on 2024-05-10. *)
Definition fixture_today : Z := 739016.

(** A group of a metrics report over the window [start_time .. end_time]. *)
Definition metrics_group (fatality : string) (ratio installs : json)
    (start_time end_time : string) : json :=
  JObj [("fatality", JStr fatality);
        ("intervalMetrics",
          JArr [JObj [("startTime", JStr start_time);
                      ("endTime", JStr end_time);
                      ("crashlyticsEventFreeUsersCombined", JObj [("ratio", ratio)]);
                      ("totalCrashlyticsInstalls", installs)]])].

Definition metrics_report_url : string :=
  "https://firebasecrashlytics-pa.clients6.google.com/v1/metrics:getMetricsReport".

Definition metrics_report (groups : list json) : response :=
  Response metrics_report_url (Some (JObj [("groupedMetrics", JArr groups)])) None None.

(** The end-to-end fixture of the specification, for a 7-day window. *)
Definition fatal_group : json :=
  metrics_group "FATAL" (JFloat 0.97) (JStr "1000")
    "2024-05-04T00:00:00Z" "2024-05-10T23:59:59Z".

Definition non_fatal_group : json :=
  metrics_group "NON_FATAL" (JFloat 0.95) (JStr "1000")
    "2024-05-04T00:00:00Z" "2024-05-10T23:59:59Z".

Definition metrics_fixture : response := metrics_report [fatal_group; non_fatal_group].

(** ** Launch-time timelines *)

Definition projection_of (start_time : string) (quantiles : list json) : json :=
  JObj [("startTime", JStr start_time);
        ("projection", JObj [("quantiles", JArr quantiles)])].

(** Nineteen buckets, the last of which is [p90_microseconds]. *)
Definition buckets (p90_microseconds : Z) : list json :=
  repeat (JStr "100000") 18 ++ [JInt p90_microseconds].

Definition timeline_url : string :=
  "https://firebaseperfusertraces-pa.clients6.google.com/v1/traces/_as:listTimelines".

Definition timeline_response (projections : list json) : response :=
  Response timeline_url
    (Some (JObj [("timelines", JArr [JObj [("projections", JArr projections)]])]))
    None None.

(** A state of the launch-time phase of a run, before any timeline. *)
Definition launch_phase_state : state :=
  set_current_phase android_p90_launch
    (set_metrics_captured true (initial_state "partner" partner_config)).

(** The same report over the console's default 30-day window. *)
Definition stale_metrics_fixture : response :=
  metrics_report
    [metrics_group "FATAL" (JFloat 0.97) (JStr "1000")
       "2024-04-11T00:00:00Z" "2024-05-10T23:59:59Z"].


(** The state of the run once the fixture report is in and the sequencer
    has moved on to the crashes page. *)
Definition crashes_phase_state : state :=
  set_current_phase crashes
    (@handle_response Reference.builtins 7 partner_config fixture_today metrics_fixture
       (initial_state "partner" partner_config)).

(** Two timelines of the launch-time page, one after the other: today's
    projection, with a 90th percentile of one second, then of two. *)
Definition first_timeline : response :=
  timeline_response [projection_of "2024-05-10T00:00:00Z" (buckets 1000000)].

Definition second_timeline : response :=
  timeline_response [projection_of "2024-05-10T00:00:00Z" (buckets 2000000)].




(** ** Issue lists *)

Definition issue (title subtitle : option string) (devices events : string) : json :=
  let field k v := match v with Some v => [(k, JStr v)] | None => [] end in
  JObj [("caption", JObj (field "title" title ++ field "subtitle" subtitle));
        ("impactedDevicesCount", JStr devices);
        ("eventsCount", JStr events)].

Definition top_issues_url : string :=
  "https://firebasecrashlytics-pa.clients6.google.com/v1/metrics:listFirebaseTopOpenIssues".

Definition issue_list (issues : list json) : response :=
  Response top_issues_url (Some (JObj [("topIssues", JArr issues)])) None None.

(** The end-to-end fixture of the specification: two rows under one
    subtitle, against 1000 installs. *)
Definition issues_fixture : response :=
  issue_list
    [issue (Some "java.lang.NullPointerException") (Some "NullPointerException") "10" "50";
     issue (Some "kotlin.KotlinNullPointerException") (Some "NullPointerException") "5" "20"].

(** 29 impacted devices against 100 installs. *)
Definition small_app_state : state :=
  set_current_phase crashes
    (@handle_response Reference.builtins 7 partner_config fixture_today
       (metrics_report
          [metrics_group "FATAL" (JFloat 0.97) (JStr "100")
             "2024-05-04T00:00:00Z" "2024-05-10T23:59:59Z"])
       (initial_state "partner" partner_config)).

Definition small_app_issues : response :=
  issue_list [issue (Some "java.lang.IllegalStateException") (Some "IllegalStateException")
                "29" "40"].

(** Two rows without a subtitle, under two titles. *)
Definition bare_rows : list json :=
  [issue (Some "A") None "10" "50"; issue (Some "B") None "5" "20"].

(** Two rows under one title. *)
Definition twin_rows : list json :=
  [issue (Some "T") (Some "x") "10" "50"; issue (Some "T") (Some "y") "5" "20"].

(** A cluster of the Play-console payload. *)
Definition cluster (name users events : string) (ratio : float) : json :=
  JObj [("2", JObj [("1", JStr name)]); ("6", JStr users); ("7", JStr events);
        ("11", JFloat ratio)].

Definition twin_clusters : list json :=
  [cluster "Input dispatching timed out" "10" "50" 0.25;
   cluster "Input dispatching timed out" "5" "20" 0.5].

(** Play-console clusters, two of them with the same impact. *)
Definition anr_clusters : list (json * anr_group) :=
  [(JStr "A", AnrGroup 10 20 1.5); (JStr "B", AnrGroup 30 40 2.5);
   (JStr "C", AnrGroup 50 60 1.5); (JStr "D", AnrGroup 70 80 0.5)].

(** A whole run of the partner app: the metrics report, the issue list of
    the crashes page and that of the non-fatals page, an ANR report, then
    pages that never answer. *)
Definition anr_report : response :=
  metrics_report
    [metrics_group "ANR" (JFloat 0.99) (JStr "1000")
       "2024-05-04T00:00:00Z" "2024-05-10T23:59:59Z"].

Definition arrival (r : response) : await_outcome := Await [(fixture_today, r)] false.

Definition partner_trace : list await_outcome :=
  [arrival metrics_fixture; quiet; arrival issues_fixture; quiet; arrival issues_fixture;
   quiet; arrival anr_report]
  ++ repeat quiet 400.

(* ===================================================================== *)
(** * The assignments of the callback *)
(* ===================================================================== *)

(** The iOS pages on which a metrics report is read. *)
Definition ios_report_phase (p : phase) : Prop :=
  p = ios_metrics \/ p = ios_crashes \/ p = ios_non_fatals.

(** Every assignment [handle_response] makes to the variables it closes
    over, each with the conditions under which the source reaches it. *)
Inductive update : state -> state -> Prop :=
| update_launch_time s p90_seconds :
    current_phase s = android_p90_launch ->
    update s (set_android_p90_launch_captured true
                (on_android (Android.set_p90_launch_time_seconds (Some p90_seconds)) s))
| update_ios_dominant_release s v :
    current_phase s = ios_dominant_release ->
    update s (on_ios (Ios.set_dominant_release v) (set_ios_dominant_release_captured true s))
| update_android_dominant_release s v :
    current_phase s = android_dominant_release ->
    update s (on_android (Android.set_dominant_release v)
                (set_android_dominant_release_captured true s))
| update_up_anrs s grouped_anrs :
    current_phase s = up_anrs ->
    update s (set_play_console_anrs_captured true
                (on_android (Android.set_up_anrs (map anr_entry (sorted_anrs grouped_anrs))) s))
| update_non_fatal_installs s n :
    metrics_captured s = false -> update s (set_non_fatal_installs n s)
| update_fatal_installs s n :
    metrics_captured s = false -> update s (set_fatal_installs n s)
| update_android_metrics s u non_fatal_rate fatal_rate :
    metrics_captured s = false ->
    update s (store_android_metrics u non_fatal_rate fatal_rate s)
| update_anr_installs s n :
    current_phase s = anr_metrics ->
    update s (set_anr_metrics_captured true (set_anr_installs n s))
| update_ios_fatal_installs s n :
    ios_report_phase (current_phase s) -> update s (set_ios_fatal_installs n s)
| update_ios_non_fatal_installs s n :
    ios_report_phase (current_phase s) -> update s (set_ios_non_fatal_installs n s)
| update_ios_fatal_rate s rate :
    current_phase s = ios_crashes \/ current_phase s = ios_metrics ->
    ios_has_rate "fatal" s = false ->
    update s (store_ios_rate "fatal" rate (ios_fatal_installs s) s)
| update_ios_non_fatal_rate s rate :
    current_phase s = ios_non_fatals \/ current_phase s = ios_metrics ->
    ios_has_rate "non_fatal" s = false ->
    update s (store_ios_rate "non_fatal" rate (ios_non_fatal_installs s) s)
| update_ios_metrics_captured s :
    ios_report_phase (current_phase s) ->
    update s (set_ios_metrics_captured true s)
| update_append_issue s total_installs issue_data :
    top_issues_guard s = Extract total_installs ->
    update s (append_issue issue_data s)
| update_issues_captured s total_installs :
    top_issues_guard s = Extract total_installs ->
    update s (mark_issues_captured s)
| update_issues_pending s :
    top_issues_guard s = MarkPending ->
    update s (set_ios_nonfatal_issues_processed true s).

(** Several of them, one after the other. *)
Definition updates : state -> state -> Prop := rtc update.

(** A block of statements started in a state that satisfies [P] leaves [Q]
    of its value when it completes and [E] when it raises. *)
Definition H_spec (P : state -> Prop) {A} (Q : A -> state -> Prop) (E : state -> Prop)
    (m : H A) : Prop :=
  forall s, P s ->
    match m s with
    | (s', Some a) => Q a s'
    | (s', None) => E s'
    end.

(* ===================================================================== *)
(** * More fixtures *)
(* ===================================================================== *)

(** The second entry of [APPS_CONFIG], an app with iOS. *)
Definition customer_config : app_configuration :=
  AppConfig "Customer App" "portercustomerapp"
    (AndroidConfig "android:com.theporter.android.customerapp"
       "com.theporter.android.customerapp"
       (PlayConsoleConfig "4707055851875633325" "4975635893417729870"))
    (Some (IosConfig "ios:in.theporter.customerapp" "in.theporter.customerapp"))
    true (Some true).

(** The customer app on its first iOS page, once the fixture report has
    come in there. *)
Definition ios_rates_state : state :=
  @handle_response Reference.builtins 7 customer_config fixture_today metrics_fixture
    (set_current_phase ios_metrics
       (set_metrics_captured true (initial_state "customer" customer_config))).

(** A later report with other ratios. *)
Definition later_metrics_fixture : response :=
  metrics_report
    [metrics_group "FATAL" (JFloat 0.5) (JStr "2000")
       "2024-05-04T00:00:00Z" "2024-05-10T23:59:59Z";
     metrics_group "NON_FATAL" (JFloat 0.25) (JStr "3000")
       "2024-05-04T00:00:00Z" "2024-05-10T23:59:59Z"].

(* ===================================================================== *)
(** * The pages of a run, in order *)
(* ===================================================================== *)

(** The waits that have a deadline: it forces their flag. *)
Definition timed (f : flag) : bool :=
  match f with
  | f_metrics_captured | f_crashes_captured | f_non_fatals_captured
  | f_anr_metrics_captured => false
  | _ => true
  end.

(** The completion flag [collect_app_data] waits for in a phase; it waits
    for none in [anrs]. *)
Definition awaited (p : phase) : option flag :=
  match p with
  | metrics => Some f_metrics_captured
  | crashes => Some f_crashes_captured
  | non_fatals => Some f_non_fatals_captured
  | anr_metrics => Some f_anr_metrics_captured
  | anrs => None
  | ios_metrics => Some f_ios_metrics_captured
  | ios_crashes => Some f_ios_crashes_captured
  | ios_non_fatals => Some f_ios_non_fatals_captured
  | up_anrs => Some f_play_console_anrs_captured
  | ios_dominant_release => Some f_ios_dominant_release_captured
  | android_dominant_release => Some f_android_dominant_release_captured
  | android_p90_launch => Some f_android_p90_launch_captured
  end.

(** The phases in the order the main flow assigns them; the iOS phases are
    there when the app has iOS pages, the launch-time phase when the app
    has the trace. *)
Definition phases_of_run (with_ios with_p90 : bool) : list phase :=
  [metrics; crashes; non_fatals; anr_metrics; anrs]
  ++ (if with_ios then [ios_metrics; ios_crashes; ios_non_fatals] else [])
  ++ [up_anrs]
  ++ (if with_ios then [ios_dominant_release] else [])
  ++ [android_dominant_release]
  ++ (if with_p90 then [android_p90_launch] else []).

(** The phases of the run that come before [p]. *)
Fixpoint phases_before (p : phase) (l : list phase) : list phase :=
  match l with
  | [] => []
  | q :: rest => if bool_decide (q = p) then [] else q :: phases_before p rest
  end.

(** The flag of every wait of an earlier phase is set. *)
Definition earlier_flags_set (with_ios with_p90 : bool) (s : state) : Prop :=
  Forall (fun q => forall f, awaited q = Some f -> get_flag f s = true)
    (phases_before (current_phase s) (phases_of_run with_ios with_p90)).

Section Visits.
Variable report_days : Z.
Variable app_key : string.
Variable app_config : app_configuration.

(** Whether the main flow visits the iOS pages, and the launch-time page. *)
Definition visits_ios : bool :=
  cfg_has_ios app_config
  && url_given (ios_crashes_url (_build_urls report_days app_key app_config)).

Definition visits_p90 : bool :=
  default true (cfg_has_p90_launch_time app_config)
  && url_given (android_p90_launch_url (_build_urls report_days app_key app_config)).

(** The phase a run ends in. *)
Definition last_phase : phase :=
  if visits_p90 then android_p90_launch else android_dominant_release.

End Visits.

(** The run is in one of its phases, and the waits of the phases it has
    left are over. *)
Definition on_course (with_ios with_p90 : bool) (s : state) : Prop :=
  In (current_phase s) (phases_of_run with_ios with_p90) /\
  earlier_flags_set with_ios with_p90 s.

(** A state in which the callback may be called: the main flow is
    suspended in an [await].  A run without iOS pages goes through the
    phase [anrs] without one. *)
Definition listening (with_ios with_p90 : bool) (s : state) : Prop :=
  on_course with_ios with_p90 s /\ (with_ios = false -> current_phase s <> anrs).

(** Where a run stands while it is in phase [p]. *)
Definition stage (Inv : state -> Prop) (with_ios with_p90 : bool) (p : phase) (s : state)
    : Prop :=
  Inv s /\ on_course with_ios with_p90 s /\ current_phase s = p.

(** Every wait of the run is over. *)
Definition all_flags_set (with_ios with_p90 : bool) (s : state) : Prop :=
  Forall (fun q => forall f, awaited q = Some f -> get_flag f s = true)
    (phases_of_run with_ios with_p90).

(** The state in which a run stands. *)
Definition state_of {A} (r : run_result A) : state :=
  match r with
  | Done _ s _ => s
  | Raised s => s
  | Waiting s => s
  end.

(** The value a run returned, if it did. *)
Definition returned {A} (r : run_result A) : option A :=
  match r with
  | Done a _ _ => Some a
  | _ => None
  end.

(** Both Android rates and both Android install totals are there once
    [metrics_captured] is set. *)
Definition android_rates_present (s : state) : Prop :=
  metrics_captured s = true ->
  is_Some (Android.crash_free_rates (android (app_data s)) !! "fatal") /\
  is_Some (Android.crash_free_rates (android (app_data s)) !! "non_fatal") /\
  is_Some (Android.total_installs (android (app_data s)) !! "fatal") /\
  is_Some (Android.total_installs (android (app_data s)) !! "non_fatal").

(** The run of the partner app of the fixtures. *)
Definition partner_run : run_result app_result :=
  @collect_app_data Reference.builtins 7 partner_config 7 "partner" false JNull
    (initial_state "partner" partner_config) partner_trace.

(** Outcomes in which no report of the configured window arrives: a report
    of the console's default window, then an issue list. *)
Definition stale_trace : list await_outcome :=
  [quiet; arrival stale_metrics_fixture; quiet; arrival issues_fixture; quiet].

(** The same run with Play vitals fetched. *)
Definition partner_vitals : json := JObj [("date", JStr "2024-05-09"); ("anr_rate", JFloat 0.25)].

Definition partner_run_with_vitals : run_result app_result :=
  @collect_app_data Reference.builtins 7 partner_config 7 "partner" true partner_vitals
    (initial_state "partner" partner_config) partner_trace.

(** The responses of a trace, each with the date of its arrival. *)
Definition responses_of (tr : list await_outcome) : list (Z * response) :=
  concat (map arrivals tr).

(* ===================================================================== *)
(** * Reasoning about blocks of statements *)
(* ===================================================================== *)

Section HInvLemmas.
Variable I : state -> Prop.

Lemma H_inv_ret {A} (a : A) : H_inv I (mret a).
Proof. intros s Hs. exact Hs. Qed.

Lemma H_inv_lift {A} (o : option A) : H_inv I (lift o).
Proof. intros s Hs. exact Hs. Qed.

Lemma H_inv_read {A} (f : state -> A) : H_inv I (read f).
Proof. intros s Hs. exact Hs. Qed.

Lemma H_inv_modify (f : state -> state) :
  (forall s, I s -> I (f s)) -> H_inv I (modify f).
Proof. intros Hf s Hs. apply Hf, Hs. Qed.

Lemma H_inv_bind {A B} (m : H A) (k : A -> H B) :
  H_inv I m -> (forall a, H_inv I (k a)) -> H_inv I (m ≫= k).
Proof.
  intros Hm Hk s Hs. unfold mbind, H_bind.
  specialize (Hm s Hs). destruct (m s) as [s' [a|]]; simpl in *.
  - apply Hk, Hm.
  - exact Hm.
Qed.

Lemma H_inv_for_each {A} (l : list A) (body : A -> H unit) :
  (forall x, H_inv I (body x)) -> H_inv I (for_each l body).
Proof.
  intros Hbody. induction l as [|x l IH]; simpl.
  - apply H_inv_ret.
  - apply H_inv_bind; [apply Hbody | intros _; exact IH].
Qed.

Lemma try_except_inv (body : H unit) (handler : state -> state) s :
  H_inv I body -> (forall s, I s -> I (handler s)) -> I s ->
  I (try_except body handler s).
Proof.
  intros Hb Hh Hs. unfold try_except. specialize (Hb s Hs).
  destruct (body s) as [s' [u|]]; simpl in *; auto.
Qed.

End HInvLemmas.

(** [handle_response] is its three blocks followed by its chain. *)
Lemma handle_response_halves `{PyBuiltins} D cfg today r s :
  handle_response D cfg today r s = report_chain D today r (early_blocks cfg today r s).
Proof. reflexivity. Qed.

(* ===================================================================== *)
(** * Crash-free rates and the reporting window *)
(* ===================================================================== *)

Section Rates.
Context `{PyBuiltins}.
Variable DATE_RANGE_DAYS : Z.
Variable app_config : app_configuration.

(** The validity check in the words of its docstring: the end date is
    today and the start date is [DATE_RANGE_DAYS - 1] days before. *)
Lemma is_valid_date_range_spec today start_time_str end_time_str :
  is_valid_date_range DATE_RANGE_DAYS today start_time_str end_time_str = true <->
  iso_date end_time_str = Some today /\
  iso_date start_time_str = Some (today - (DATE_RANGE_DAYS - 1)).
Proof.
  unfold is_valid_date_range.
  destruct (iso_date start_time_str) as [a|], (iso_date end_time_str) as [b|]; simpl;
    try (split; [discriminate | intros [? ?]; discriminate]).
  rewrite andb_true_iff, !Z.eqb_eq. split.
  - intros [-> ->]. auto.
  - intros [[= ->] [= ->]]. auto.
Qed.

Lemma append_issue_rates d s : rates_of (append_issue d s) = rates_of s.
Proof. unfold append_issue. destruct (current_phase s); reflexivity. Qed.

Lemma mark_issues_captured_rates s : rates_of (mark_issues_captured s) = rates_of s.
Proof. unfold mark_issues_captured. destruct (current_phase s); reflexivity. Qed.

Lemma append_issues_rates c total i l :
  H_inv (fun s => rates_of s = c) (append_issues total i l).
Proof.
  revert i. induction l as [|g l IH]; intros i; simpl.
  - apply H_inv_ret.
  - apply H_inv_bind; [apply H_inv_lift | intros d].
    apply H_inv_bind; [| intros _; apply IH].
    apply H_inv_modify. intros s <-. apply append_issue_rates.
Qed.

Lemma handle_top_issues_rates r s :
  rates_of (handle_top_issues r s) = rates_of s.
Proof.
  unfold handle_top_issues. destruct (top_issues_guard s) as [total| |]; try reflexivity.
  apply (try_except_inv (fun s' => rates_of s' = rates_of s)); [| auto | reflexivity].
  unfold top_issues_body.
  apply H_inv_bind; [apply H_inv_lift | intros rows].
  apply H_inv_bind; [apply H_inv_read | intros p].
  apply H_inv_bind; [apply H_inv_lift | intros g].
  apply H_inv_bind; [apply append_issues_rates | intros _].
  apply H_inv_modify. intros s' <-. apply mark_issues_captured_rates.
Qed.

Lemma handle_launch_time_rates today r s :
  rates_of (handle_launch_time today r s) = rates_of s.
Proof.
  unfold handle_launch_time.
  destruct (json_body r ≫= p90_launch_seconds today) as [[x|]|]; reflexivity.
Qed.

Lemma handle_dominant_release_rates r s :
  rates_of (handle_dominant_release r s) = rates_of s.
Proof.
  unfold handle_dominant_release.
  destruct (text_body r ≫= dominant_version) as [[x|]|]; try reflexivity.
  destruct (bool_decide _); reflexivity.
Qed.

Lemma handle_play_console_rates r s :
  rates_of (handle_play_console r s) = rates_of s.
Proof.
  unfold handle_play_console. destruct (wanted_request_body _); [|reflexivity].
  destruct (json_body r ≫= play_console_anrs); reflexivity.
Qed.

Lemma handle_anr_metrics_rates today r s :
  rates_of (handle_anr_metrics DATE_RANGE_DAYS today r s) = rates_of s.
Proof.
  unfold handle_anr_metrics.
  match goal with |- context [match ?o with _ => _ end] => destruct o as [[x|]|] end;
    reflexivity.
Qed.

(** Outside a valid window the Android block leaves the state as it is. *)
Lemma handle_android_metrics_invalid today r s :
  valid_window DATE_RANGE_DAYS today r = false ->
  handle_android_metrics DATE_RANGE_DAYS today r s = s.
Proof.
  unfold valid_window, handle_android_metrics, try_except, android_metrics_body.
  destruct (json_body r) as [j|]; simpl; [|reflexivity].
  destruct (Py.get j "groupedMetrics" (JArr [])) as [gm|]; simpl; [|reflexivity].
  unfold mbind, H_bind, lift; simpl.
  destruct (valid_report DATE_RANGE_DAYS today gm) as [[|]|]; simpl;
    [discriminate | reflexivity | reflexivity].
Qed.

Lemma ios_metrics_except_rates s : rates_of (ios_metrics_except s) = rates_of s.
Proof. unfold ios_metrics_except. destruct (ios_has_rate _ _); reflexivity. Qed.

Lemma handle_ios_metrics_invalid today r s :
  valid_window DATE_RANGE_DAYS today r = false ->
  rates_of (handle_ios_metrics DATE_RANGE_DAYS today r s) = rates_of s.
Proof.
  unfold valid_window, handle_ios_metrics, try_except, ios_metrics_body.
  destruct (json_body r) as [j|]; simpl; [|intros _; apply ios_metrics_except_rates].
  destruct (Py.get j "groupedMetrics" (JArr [])) as [gm|]; simpl;
    [|intros _; apply ios_metrics_except_rates].
  unfold mbind, H_bind, lift; simpl.
  destruct (valid_report DATE_RANGE_DAYS today gm) as [[|]|]; simpl;
    [discriminate | reflexivity | intros _; apply ios_metrics_except_rates].
Qed.

End Rates.

Section Window.
Context `{PyBuiltins}.
Variable DATE_RANGE_DAYS : Z.

(** The check passes exactly on a report that embeds a range ending today
    and starting [DATE_RANGE_DAYS - 1] days before. *)
Lemma valid_window_true_iff today response :
  valid_window DATE_RANGE_DAYS today response = true <->
  exists start_time end_time,
    embedded_range response = Some (start_time, end_time) /\
    iso_date end_time = Some today /\
    iso_date start_time = Some (today - (DATE_RANGE_DAYS - 1)).
Proof.
  unfold valid_window, embedded_range, valid_report.
  destruct (json_body response) as [j|]; simpl.
  2: { split; [discriminate | intros (? & ? & [=] & _)]. }
  destruct (Py.get j "groupedMetrics" (JArr [])) as [gm|]; simpl.
  2: { split; [discriminate | intros (? & ? & [=] & _)]. }
  destruct (Py.truthy gm).
  2: { split; [discriminate | intros (? & ? & [=] & _)]. }
  destruct (Py.index gm 0) as [first|]; simpl.
  2: { split; [discriminate | intros (? & ? & [=] & _)]. }
  destruct (Py.get first "intervalMetrics" JNull) as [im|]; simpl.
  2: { split; [discriminate | intros (? & ? & [=] & _)]. }
  destruct (Py.truthy im).
  2: { split; [discriminate | intros (? & ? & [=] & _)]. }
  destruct (interval0 first) as [i0|]; simpl.
  2: { split; [discriminate | intros (? & ? & [=] & _)]. }
  destruct (Py.get i0 "startTime" (JStr "")) as [a|]; simpl.
  2: { split; [discriminate | intros (? & ? & [=] & _)]. }
  destruct (Py.get i0 "endTime" (JStr "")) as [b|]; simpl.
  2: { split; [discriminate | intros (? & ? & [=] & _)]. }
  rewrite is_valid_date_range_spec. split.
  - intros [? ?]. exists a, b. auto.
  - intros (a' & b' & [= <- <-] & ? & ?). auto.
Qed.

End Window.

(** C1.  A metrics-report response whose embedded date range fails the
    validity check (its end date is not today, or its start date is not
    [DATE_RANGE_DAYS - 1] days before today) leaves the crash-free rates
    and the total installs of the app result, Android and iOS, as they
    were. *)
Theorem C1_invalid_window_keeps_rates `{PyBuiltins} (DATE_RANGE_DAYS : Z)
    (app_config : app_configuration) (today : Z) (response : response) (s : state) :
  is_metrics_report (url response) = true ->
  (forall start_time end_time,
     embedded_range response = Some (start_time, end_time) ->
     iso_date end_time <> Some today \/
     iso_date start_time <> Some (today - (DATE_RANGE_DAYS - 1))) ->
  rates_of (handle_response DATE_RANGE_DAYS app_config today response s) = rates_of s.
Proof.
  intros Hurl Hrange.
  assert (Hwin : valid_window DATE_RANGE_DAYS today response = false).
  { destruct (valid_window DATE_RANGE_DAYS today response) eqn:E; [|reflexivity].
    apply valid_window_true_iff in E as (a & b & Hab & Hb & Ha).
    destruct (Hrange a b Hab); contradiction. }
  clear Hrange. unfold handle_response. cbv zeta. rewrite Hurl.
  set (s1 := if _ && is_launch_timeline _ then _ else s).
  assert (H1 : rates_of s1 = rates_of s).
  { subst s1. destruct (_ && _); [apply handle_launch_time_rates | reflexivity]. }
  clearbody s1.
  set (s2 := if _ && is_dominant_release _ then _ else s1).
  assert (H2 : rates_of s2 = rates_of s).
  { subst s2. destruct (_ && _); [rewrite handle_dominant_release_rates|]; exact H1. }
  clearbody s2.
  set (s3 := if _ && is_play_console_clusters _ _ then _ else s2).
  assert (H3 : rates_of s3 = rates_of s).
  { subst s3. destruct (_ && _); [rewrite handle_play_console_rates|]; exact H2. }
  clearbody s3. clear s1 s2 H1 H2. rewrite !andb_true_r.
  destruct (negb (metrics_captured s3)).
  { rewrite handle_android_metrics_invalid by exact Hwin. exact H3. }
  destruct (bool_decide (current_phase s3 = anr_metrics)).
  { rewrite handle_anr_metrics_rates. exact H3. }
  destruct (_ || _).
  { rewrite handle_ios_metrics_invalid by exact Hwin. exact H3. }
  destruct (is_top_issues _); [rewrite handle_top_issues_rates|]; exact H3.
Qed.

(** The 30-day report of the console's default view, received by a 7-day
    run: nothing is stored. *)
Lemma C1_witness :
  is_metrics_report metrics_report_url = true /\
  rates_of (handle_response 7 partner_config fixture_today stale_metrics_fixture
              (initial_state "partner" partner_config))
  = rates_of (initial_state "partner" partner_config).
Proof.
  split; [vm_compute; reflexivity|].
  apply (C1_invalid_window_keeps_rates 7 partner_config fixture_today stale_metrics_fixture).
  - vm_compute; reflexivity.
  - intros a b Hab. vm_compute in Hab. injection Hab as <- <-.
    right. vm_compute. discriminate.
Defined.

(* ===================================================================== *)
(** * The Android metrics block on a valid report *)
(* ===================================================================== *)

(** Case analysis on the outcome of the extraction of a block. *)
Ltac block_cases :=
  repeat match goal with
         | |- context [match ?o with _ => _ end] => destruct o
         end;
  try reflexivity.

Section AndroidMetrics.
Context `{PyBuiltins}.
Variable DATE_RANGE_DAYS : Z.
Variable app_config : app_configuration.

Lemma is_group_exclusive g : is_group "NON_FATAL" g = true -> is_group "FATAL" g = false.
Proof.
  unfold is_group. destruct (Py.get g "fatality" JNull) as [f|]; [|discriminate].
  destruct (has_interval_metrics g) as [[|]|]; try discriminate.
  destruct f; simpl; try discriminate.
  intros E%String.eqb_eq. subst. reflexivity.
Qed.

(** The loop on groups it can read: the rates and the install counters are
    those of the last group of each kind. *)
Lemma android_metrics_loop_ok groups : forall non_fatal_rate fatal_rate s,
  Forall (fun g => group_ok g = true) groups ->
  android_metrics_loop groups non_fatal_rate fatal_rate s =
    (set_fatal_installs (fold_left (step_installs "FATAL") groups (fatal_installs s))
       (set_non_fatal_installs
          (fold_left (step_installs "NON_FATAL") groups (non_fatal_installs s)) s),
     Some (fold_left (step_rate "NON_FATAL") groups non_fatal_rate,
           fold_left (step_rate "FATAL") groups fatal_rate)).
Proof.
  induction groups as [|g groups IH]; intros nf f s Hok.
  - destruct s; reflexivity.
  - inversion Hok as [|? ? Hg Hrest]; subst.
    destruct g as [| | | | | |kv]; try discriminate Hg.
    pose proof (is_group_exclusive (JObj kv)) as Hex.
    cbn [android_metrics_loop fold_left].
    unfold group_ok, step_rate, step_installs, is_group, has_interval_metrics in *.
    cbn [Py.get fmap option_fmap option_map] in *.
    set (fatality := match Py.assoc kv "fatality" with Some v => v | None => JNull end) in *.
    set (has := Py.truthy _) in *.
    unfold mbind at 1, H_bind, lift. unfold mbind at 1, H_bind.
    destruct has; simpl in *.
    + destruct (Py.eq_str fatality "NON_FATAL") eqn:ENF; simpl in *.
      * rewrite (Hex eq_refl). apply andb_true_iff in Hg as [Hr Hi].
        apply bool_decide_eq_true in Hr as [rate Hr], Hi as [n Hi].
        rewrite Hr, Hi. unfold mbind, H_bind, modify. simpl.
        rewrite IH by assumption. reflexivity.
      * destruct (Py.eq_str fatality "FATAL") eqn:EF; simpl in *.
        -- apply andb_true_iff in Hg as [Hr Hi].
           apply bool_decide_eq_true in Hr as [rate Hr], Hi as [n Hi].
           rewrite Hr, Hi. unfold mbind, H_bind, modify. simpl.
           rewrite IH by assumption. reflexivity.
        -- rewrite IH by assumption. reflexivity.
    + rewrite !andb_false_r. rewrite IH by assumption. reflexivity.
Qed.

(** On a valid report whose groups can be read, the block stores the rates
    and the counters the loop ends with. *)
Lemma handle_android_metrics_valid today r j groups s :
  json_body r = Some j ->
  Py.get j "groupedMetrics" (JArr []) = Some (JArr groups) ->
  valid_window DATE_RANGE_DAYS today r = true ->
  Forall (fun g => group_ok g = true) groups ->
  handle_android_metrics DATE_RANGE_DAYS today r s =
    store_android_metrics (url r)
      (fold_left (step_rate "NON_FATAL") groups JNull)
      (fold_left (step_rate "FATAL") groups JNull)
      (set_fatal_installs (fold_left (step_installs "FATAL") groups (fatal_installs s))
         (set_non_fatal_installs
            (fold_left (step_installs "NON_FATAL") groups (non_fatal_installs s)) s)).
Proof.
  intros Hj Hgm Hwin Hok.
  unfold valid_window, handle_android_metrics, try_except, android_metrics_body in *.
  rewrite Hj in *. simpl in *. rewrite Hgm in *. simpl in *.
  unfold mbind at 1, H_bind, lift. unfold mbind at 1, H_bind.
  destruct (valid_report DATE_RANGE_DAYS today (JArr groups)) as [[|]|]; try discriminate.
  unfold mbind at 1, H_bind. cbn [Py.iter]. unfold mbind at 1, H_bind.
  rewrite android_metrics_loop_ok by assumption. reflexivity.
Qed.

(** Without a later group of the kind, the loop keeps what the group gave. *)
Lemma fold_step_rate_last fatality pre g post init rate :
  is_group fatality g = true ->
  crash_free_rate g = Some rate ->
  Forall (fun g' => is_group fatality g' = false) post ->
  fold_left (step_rate fatality) (pre ++ g :: post) init = rate.
Proof.
  intros Hg Hr Hpost. rewrite fold_left_app. simpl.
  unfold step_rate at 2. rewrite Hg, Hr. simpl.
  induction Hpost as [|g' post Hg' _ IH]; [reflexivity|].
  simpl. unfold step_rate at 2. rewrite Hg'. exact IH.
Qed.

Lemma fold_step_installs_last fatality pre g post init n :
  is_group fatality g = true ->
  crashlytics_installs g = Some n ->
  Forall (fun g' => is_group fatality g' = false) post ->
  fold_left (step_installs fatality) (pre ++ g :: post) init = n.
Proof.
  intros Hg Hn Hpost. rewrite fold_left_app. simpl.
  unfold step_installs at 2. rewrite Hg, Hn. simpl.
  induction Hpost as [|g' post Hg' _ IH]; [reflexivity|].
  simpl. unfold step_installs at 2. rewrite Hg'. exact IH.
Qed.

(** [round(ratio * 100, 2)] on a float ratio. *)
Lemma crash_free_rate_float g x :
  group_ratio g = Some (JFloat x) ->
  crash_free_rate g = Some (JFloat (Float64.round2 (x * 100))).
Proof.
  unfold group_ratio, crash_free_rate.
  destruct (interval0 g) as [i0|]; simpl; [|discriminate].
  destruct (Py.get i0 "crashlyticsEventFreeUsersCombined" (JObj [])) as [c|]; simpl;
    [|discriminate].
  intros ->. reflexivity.
Qed.

(** The blocks ahead of the metrics chain leave its guard and its counters
    alone. *)
Lemma early_blocks_metrics today r s :
  let s3 := early_blocks app_config today r s in
  metrics_captured s3 = metrics_captured s /\
  fatal_installs s3 = fatal_installs s /\
  non_fatal_installs s3 = non_fatal_installs s.
Proof.
  unfold early_blocks, handle_launch_time, handle_dominant_release, handle_play_console.
  cbv zeta. block_cases; auto.
Qed.

End AndroidMetrics.

(** C2.  On a valid-dated metrics report whose groups carry a fatality
    discriminator, the FATAL and the NON_FATAL group each give a crash-free
    rate, its ratio times 100 rounded to two decimals, and an install count
    (of several groups of a kind, the last one); and the fixture of the
    specification gives rates of 97.0 and 95.0 and installs of 1000 and
    1000. *)
Theorem C2_valid_report_sets_rates :
  (forall (B : PyBuiltins) (DATE_RANGE_DAYS : Z) (app_config : app_configuration)
          (today : Z) (response : response) (j : json) (groups : list json) (s : state)
          (fatality key : string) (pre post : list json) (g : json) (x : float) (n : Z),
     metrics_captured s = false ->
     is_metrics_report (url response) = true ->
     json_body response = Some j ->
     Py.get j "groupedMetrics" (JArr []) = Some (JArr groups) ->
     valid_window DATE_RANGE_DAYS today response = true ->
     Forall (fun g => group_ok g = true) groups ->
     (fatality, key) = ("FATAL", "fatal") \/ (fatality, key) = ("NON_FATAL", "non_fatal") ->
     groups = pre ++ g :: post ->
     is_group fatality g = true ->
     Forall (fun g' => is_group fatality g' = false) post ->
     group_ratio g = Some (JFloat x) ->
     crashlytics_installs g = Some n ->
     let s' := handle_response DATE_RANGE_DAYS app_config today response s in
     Android.crash_free_rates (android (app_data s')) !! key
       = Some (JFloat (Float64.round2 (x * 100))) /\
     Android.total_installs (android (app_data s')) !! key = Some n)
  /\
  (let s' := @handle_response Reference.builtins 7 partner_config fixture_today
               metrics_fixture (initial_state "partner" partner_config) in
   Android.crash_free_rates (android (app_data s'))
     = {[ "fatal" := JFloat 97; "non_fatal" := JFloat 95 ]} /\
   Android.total_installs (android (app_data s'))
     = {[ "fatal" := 1000; "non_fatal" := 1000 ]}).
Proof.
  split.
  - intros B D cfg today r j groups s fatality key pre post g x n
      Hcap Hurl Hj Hgm Hwin Hok Hkind -> Hg Hpost Hx Hn s'.
    subst s'. rewrite handle_response_halves.
    destruct (early_blocks_metrics cfg today r s) as (Hc & Hf & Hnf).
    set (s3 := early_blocks cfg today r s) in *. unfold report_chain.
    clearbody s3. rewrite Hc, Hcap, Hurl. simpl.
    rewrite (handle_android_metrics_valid D today r j (pre ++ g :: post)) by assumption.
    apply crash_free_rate_float in Hx.
    unfold store_android_metrics. simpl.
    destruct Hkind as [[= -> ->]|[= -> ->]].
    + rewrite (fold_step_rate_last "FATAL" pre g post JNull _ Hg Hx Hpost).
      rewrite (fold_step_installs_last "FATAL" pre g post _ _ Hg Hn Hpost).
      split; apply lookup_insert_eq.
    + rewrite (fold_step_rate_last "NON_FATAL" pre g post JNull _ Hg Hx Hpost).
      rewrite (fold_step_installs_last "NON_FATAL" pre g post _ _ Hg Hn Hpost).
      split; (rewrite lookup_insert_ne by discriminate; apply lookup_insert_eq).
  - cbv zeta. split; vm_compute; reflexivity.
Qed.

(** The general statement at the fixture of the specification. *)
Lemma C2_witness :
  let s' := @handle_response Reference.builtins 7 partner_config fixture_today
              metrics_fixture (initial_state "partner" partner_config) in
  (Android.crash_free_rates (android (app_data s')) !! "fatal" = Some (JFloat 97) /\
   Android.total_installs (android (app_data s')) !! "fatal" = Some 1000) /\
  (Android.crash_free_rates (android (app_data s')) !! "non_fatal" = Some (JFloat 95) /\
   Android.total_installs (android (app_data s')) !! "non_fatal" = Some 1000).
Proof.
  split.
  - apply (proj1 C2_valid_report_sets_rates Reference.builtins 7 partner_config
             fixture_today metrics_fixture
             (JObj [("groupedMetrics", JArr [fatal_group; non_fatal_group])])
             [fatal_group; non_fatal_group]
             (initial_state "partner" partner_config)
             "FATAL" "fatal" [] [non_fatal_group] fatal_group 0.97%float 1000).
    all: try match goal with
             | |- Forall _ _ => repeat (constructor; [vm_compute; reflexivity|]); constructor
             | |- _ \/ _ => left; reflexivity
             end.
    all: vm_compute; reflexivity.
  - apply (proj1 C2_valid_report_sets_rates Reference.builtins 7 partner_config
             fixture_today metrics_fixture
             (JObj [("groupedMetrics", JArr [fatal_group; non_fatal_group])])
             [fatal_group; non_fatal_group]
             (initial_state "partner" partner_config)
             "NON_FATAL" "non_fatal" [fatal_group] [] non_fatal_group 0.95%float 1000).
    all: try match goal with
             | |- Forall _ _ => repeat (constructor; [vm_compute; reflexivity|]); constructor
             | |- _ \/ _ => right; reflexivity
             end.
    all: vm_compute; reflexivity.
Defined.

(* ===================================================================== *)
(** * The bounded wait *)
(* ===================================================================== *)

Lemma get_set_flag f b s : get_flag f (set_flag f b s) = b.
Proof. destruct f; reflexivity. Qed.

Section BoundedWait.
Context `{PyBuiltins}.
Variable DATE_RANGE_DAYS : Z.
Variable app_config : app_configuration.

(** With enough outcomes left, the loop ends after at most [remaining]
    sleeps: either the flag is set, or the bound is reached. *)
Lemma poll_terminates f : forall remaining elapsed s tr,
  (remaining <= length tr)%nat ->
  exists n,
    (n <= remaining)%nat /\
    poll DATE_RANGE_DAYS app_config f remaining elapsed s tr
      = Done (elapsed + n)%nat (deliver_all DATE_RANGE_DAYS app_config (take n tr) s) (drop n tr) /\
    (get_flag f (deliver_all DATE_RANGE_DAYS app_config (take n tr) s) = true \/ n = remaining) /\
    (forall k, (k < n)%nat -> get_flag f (deliver_all DATE_RANGE_DAYS app_config (take k tr) s) = false).
Proof.
  induction remaining as [|remaining IH]; intros elapsed s tr Hlen.
  - exists 0%nat. simpl. rewrite Nat.add_0_r, drop_0.
    repeat split; auto; [destruct (get_flag f s); reflexivity | lia].
  - simpl. destruct (get_flag f s) eqn:Ef.
    + exists 0%nat. simpl. rewrite Nat.add_0_r, drop_0.
      repeat split; auto; lia.
    + destruct tr as [|o tr]; [simpl in Hlen; lia|].
      destruct (IH (S elapsed) (deliver DATE_RANGE_DAYS app_config o s) tr) as
        (n & Hn & Hrun & Hend & Hbefore); [simpl in Hlen; lia|].
      exists (S n). simpl. rewrite Hrun.
      repeat split; [lia | f_equal; lia | destruct Hend; [left|right]; auto |].
      intros [|k] Hk; simpl; [exact Ef | apply Hbefore; lia].
Qed.

End BoundedWait.

(** C9.  A deadline-bounded wait on a completion flag (the waits for iOS
    metrics, iOS crashes, iOS non-fatals, Play-console ANRs, the dominant
    releases and the launch time) ends after at most 120 one-second polls
    with the flag true, and the flow goes on with what follows; when the
    flag never becomes true it ends after exactly 120 polls, and the flag
    is then forced to true. *)
Theorem C9_bounded_wait_terminates (B : PyBuiltins) (DATE_RANGE_DAYS : Z)
    (app_config : app_configuration) (f : flag) (s : state) (tr : list await_outcome) :
  (timeout_seconds <= length tr)%nat ->
  exists elapsed s',
    (elapsed <= 120)%nat /\
    wait_with_timeout DATE_RANGE_DAYS app_config f s tr = Done elapsed s' (drop elapsed tr) /\
    get_flag f s' = true /\
    (forall A (next : nat -> Flow A),
       (wait_with_timeout DATE_RANGE_DAYS app_config f ≫= next) s tr
       = next elapsed s' (drop elapsed tr)) /\
    ((forall k, (k <= 120)%nat ->
        get_flag f (deliver_all DATE_RANGE_DAYS app_config (take k tr) s) = false) ->
     elapsed = 120%nat /\
     s' = set_flag f true (deliver_all DATE_RANGE_DAYS app_config (take 120 tr) s)).
Proof.
  intros Hlen.
  destruct (poll_terminates DATE_RANGE_DAYS app_config f timeout_seconds 0 s tr Hlen)
    as (n & Hn & Hrun & Hend & Hbefore).
  set (s1 := deliver_all DATE_RANGE_DAYS app_config (take n tr) s) in *.
  exists n, (if negb (get_flag f s1) then set_flag f true s1 else s1).
  assert (Hwait : wait_with_timeout DATE_RANGE_DAYS app_config f s tr
                  = Done n (if negb (get_flag f s1) then set_flag f true s1 else s1)
                      (drop n tr)).
  { unfold wait_with_timeout. unfold mbind at 1, Flow_bind. rewrite Hrun. reflexivity. }
  split; [exact Hn|]. split; [exact Hwait|]. split; [|split].
  - destruct (get_flag f s1) eqn:E; simpl; [exact E | apply get_set_flag].
  - intros A next. unfold mbind, Flow_bind. fold (@mbind Flow _).
    unfold mbind in Hwait. unfold Flow_bind in Hwait. rewrite Hwait. reflexivity.
  - intros Hnever.
    assert (n = 120%nat) as ->.
    { destruct Hend as [Hset|Heq]; [|exact Heq].
      subst s1. rewrite Hnever in Hset by exact Hn. discriminate. }
    split; [reflexivity|]. subst s1. rewrite Hnever by lia. reflexivity.
Qed.

(** A Play-console page that never answers: 120 quiet polls, then the flag
    is forced. *)
Lemma C9_witness :
  exists elapsed s',
    (elapsed <= 120)%nat /\
    @wait_with_timeout Reference.builtins 7 partner_config
      f_play_console_anrs_captured
      (set_current_phase up_anrs (initial_state "partner" partner_config))
      (repeat quiet 120)
    = Done elapsed s' (drop elapsed (repeat quiet 120)) /\
    get_flag f_play_console_anrs_captured s' = true.
Proof.
  destruct (C9_bounded_wait_terminates Reference.builtins 7 partner_config
              f_play_console_anrs_captured
              (set_current_phase up_anrs (initial_state "partner" partner_config))
              (repeat quiet 120)) as (elapsed & s' & H1 & H2 & H3 & _).
  - vm_compute. reflexivity.
  - exists elapsed, s'. auto.
Defined.

(* ===================================================================== *)
(** * Phase guards *)
(* ===================================================================== *)

Section Guards.
Context `{PyBuiltins}.
Variable DATE_RANGE_DAYS : Z.
Variable app_config : app_configuration.

(** In a phase where no issue list is expected, the chain ahead of the
    [try] skips the response. *)
Lemma handle_top_issues_skip r s :
  meaningful sig_top_issues (current_phase s) = false ->
  handle_top_issues r s = s.
Proof.
  unfold handle_top_issues, top_issues_guard.
  destruct (current_phase s); simpl; try discriminate; reflexivity.
Qed.

(** Outside the launch-time, dominant-release and Play-console phases the
    three blocks the callback starts with do nothing. *)
Lemma early_blocks_skip today r s :
  current_phase s <> android_p90_launch ->
  current_phase s <> ios_dominant_release ->
  current_phase s <> android_dominant_release ->
  current_phase s <> up_anrs ->
  early_blocks app_config today r s = s.
Proof.
  intros H1 H2 H3 H4. unfold early_blocks. cbv zeta.
  rewrite (bool_decide_eq_false_2 _ H1). cbn [andb].
  rewrite (bool_decide_eq_false_2 _ H2), (bool_decide_eq_false_2 _ H3). cbn [andb orb].
  rewrite (bool_decide_eq_false_2 _ H4). reflexivity.
Qed.

End Guards.

(** C4.  A response whose URL matches signatures of phases other than the
    active one is ignored: the callback returns the state it was given, app
    result and phase state alike.  The state is one the sequencer can be
    in: the phase [metrics] is left only with [metrics_captured] set. *)
Theorem C4_inactive_signature_ignored (B : PyBuiltins) (DATE_RANGE_DAYS : Z)
    (app_config : app_configuration) (today : Z) (response : response) (s : state) :
  phase_inv s ->
  (forall sg, matches app_config sg (url response) = true ->
              meaningful sg (current_phase s) = false) ->
  handle_response DATE_RANGE_DAYS app_config today response s = s.
Proof.
  intros Hinv Hsig. rewrite handle_response_halves. unfold early_blocks, report_chain.
  cbv zeta.
  pose proof (Hsig sig_launch_timeline) as H1.
  pose proof (Hsig sig_dominant_release) as H2.
  pose proof (Hsig sig_play_console_clusters) as H3.
  pose proof (Hsig sig_metrics_report) as H4.
  pose proof (Hsig sig_top_issues) as H5.
  unfold phase_inv in Hinv. clear Hsig. cbn [matches] in H1, H2, H3, H4, H5.
  assert (G1 : bool_decide (current_phase s = android_p90_launch)
               && is_launch_timeline (url response) = false).
  { destruct (is_launch_timeline _); [|apply andb_false_r].
    specialize (H1 eq_refl). destruct (current_phase s); try discriminate H1; reflexivity. }
  rewrite G1.
  assert (G2 : (bool_decide (current_phase s = ios_dominant_release)
                || bool_decide (current_phase s = android_dominant_release))
               && is_dominant_release (url response) = false).
  { destruct (is_dominant_release _); [|apply andb_false_r].
    specialize (H2 eq_refl). destruct (current_phase s); try discriminate H2; reflexivity. }
  rewrite G2.
  assert (G3 : bool_decide (current_phase s = up_anrs)
               && is_play_console_clusters app_config (url response) = false).
  { destruct (is_play_console_clusters _ _); [|apply andb_false_r].
    specialize (H3 eq_refl). destruct (current_phase s); try discriminate H3; reflexivity. }
  rewrite G3.
  assert (G4 : negb (metrics_captured s) && is_metrics_report (url response) = false).
  { destruct (is_metrics_report _); [|apply andb_false_r].
    specialize (H4 eq_refl). destruct (metrics_captured s); [reflexivity|].
    rewrite (Hinv eq_refl) in H4. discriminate H4. }
  rewrite G4.
  assert (G5 : bool_decide (current_phase s = anr_metrics)
               && is_metrics_report (url response) = false).
  { destruct (is_metrics_report _); [|apply andb_false_r].
    specialize (H4 eq_refl). destruct (current_phase s); try discriminate H4; reflexivity. }
  rewrite G5.
  assert (G6 : (bool_decide (current_phase s = ios_metrics)
                || bool_decide (current_phase s = ios_crashes)
                || bool_decide (current_phase s = ios_non_fatals))
               && is_metrics_report (url response) = false).
  { destruct (is_metrics_report _); [|apply andb_false_r].
    specialize (H4 eq_refl). destruct (current_phase s); try discriminate H4; reflexivity. }
  rewrite G6.
  destruct (is_top_issues _); [|reflexivity].
  apply handle_top_issues_skip, H5. reflexivity.
Qed.

(** A metrics report that arrives late, on the crashes page: ignored. *)
Lemma C4_witness :
  matches partner_config sig_metrics_report (url metrics_fixture) = true /\
  @handle_response Reference.builtins 7 partner_config fixture_today metrics_fixture
    crashes_phase_state = crashes_phase_state.
Proof.
  split; [vm_compute; reflexivity|].
  apply (C4_inactive_signature_ignored Reference.builtins 7 partner_config fixture_today
           metrics_fixture crashes_phase_state).
  - intros Hc. vm_compute in Hc. discriminate Hc.
  - intros sg Hm. destruct sg; vm_compute in Hm; try discriminate Hm.
    vm_compute. reflexivity.
Defined.

(* ===================================================================== *)
(** * Grouping *)
(* ===================================================================== *)

Lemma key_eqb_class a b :
  plain_key a = true -> plain_key b = true ->
  key_eqb a b = bool_decide (key_class a = key_class b).
Proof.
  intros Ha Hb. apply Bool.eq_true_iff_eq. rewrite bool_decide_eq_true.
  destruct a, b; simpl in *; try discriminate;
    rewrite ?Z.eqb_eq, ?String.eqb_eq; split; intros E;
    first [reflexivity | discriminate | congruence].
Qed.

Lemma plain_hashable k : plain_key k = true -> hashable k = true.
Proof. destruct k; simpl; intros E; first [reflexivity | discriminate]. Qed.

(** ** The [dict] under plain keys *)

Section Dict.
Context {V : Type}.
Implicit Types d : list (json * V).

Lemma dict_get_alter (f : V -> V) d k' k :
  plain_keys d -> plain_key k' = true -> plain_key k = true ->
  dict_get (dict_alter f d k') k
  = if key_eqb k' k then f <$> dict_get d k else dict_get d k.
Proof.
  intros Hd Hk' Hk. induction Hd as [|[k0 v] d H0 Hd IH]; simpl.
  - destruct (key_eqb k' k); reflexivity.
  - simpl in H0. destruct (key_eqb k0 k') eqn:E0; simpl; rewrite ?IH;
      rewrite (key_eqb_class k0 k') in E0 by assumption;
      rewrite (key_eqb_class k0 k), (key_eqb_class k' k) by assumption;
      [apply bool_decide_eq_true in E0 | apply bool_decide_eq_false in E0];
      repeat case_bool_decide; simpl; first [reflexivity | congruence].
Qed.

Lemma dict_get_set d k' (v : V) k :
  plain_keys d -> plain_key k' = true -> plain_key k = true ->
  dict_get (dict_set d k' v) k = if key_eqb k' k then Some v else dict_get d k.
Proof.
  intros Hd Hk' Hk. induction Hd as [|[k0 v0] d H0 Hd IH]; simpl.
  - reflexivity.
  - simpl in H0. destruct (key_eqb k0 k') eqn:E0; simpl; rewrite ?IH;
      rewrite (key_eqb_class k0 k') in E0 by assumption;
      rewrite (key_eqb_class k0 k), (key_eqb_class k' k) by assumption;
      [apply bool_decide_eq_true in E0 | apply bool_decide_eq_false in E0];
      repeat case_bool_decide; simpl; first [reflexivity | congruence].
Qed.

Lemma dict_get_same d k k' :
  plain_keys d -> plain_key k = true -> plain_key k' = true ->
  key_eqb k k' = true -> dict_get d k = dict_get d k'.
Proof.
  intros Hd Hk Hk' E. rewrite key_eqb_class in E by assumption.
  apply bool_decide_eq_true in E.
  induction Hd as [|[k0 v0] d H0 Hd IH]; simpl; [reflexivity|].
  simpl in H0. rewrite IH, (key_eqb_class k0 k), (key_eqb_class k0 k') by assumption.
  rewrite E. reflexivity.
Qed.

Lemma dict_alter_plain (f : V -> V) d k : plain_keys d -> plain_keys (dict_alter f d k).
Proof.
  intros Hd. induction Hd as [|[k0 v0] d H0 Hd IH]; simpl; [constructor|].
  destruct (key_eqb k0 k); constructor; assumption.
Qed.

Lemma dict_set_plain d k (v : V) :
  plain_keys d -> plain_key k = true -> plain_keys (dict_set d k v).
Proof.
  intros Hd Hk. induction Hd as [|[k0 v0] d H0 Hd IH]; simpl.
  - constructor; [exact Hk | constructor].
  - destruct (key_eqb k0 k); constructor; assumption.
Qed.

(** A key that is not there goes last. *)
Lemma dict_set_fresh d k (v : V) : dict_get d k = None -> dict_set d k v = d ++ [(k, v)].
Proof.
  induction d as [|[k0 v0] d IH]; simpl; [reflexivity|].
  destruct (key_eqb k0 k); [discriminate|]. intros E. rewrite IH by exact E. reflexivity.
Qed.

Lemma dict_get_absent d k :
  Forall (fun kv => key_eqb (fst kv) k = false) d -> dict_get d k = None.
Proof.
  induction 1 as [|[k0 v0] d H0 Hd IH]; simpl; [reflexivity|].
  simpl in H0. rewrite H0. exact IH.
Qed.

End Dict.

(** ** Grouping rows under plain keys *)

Section GroupingFacts.
Context {R V : Type} (key : R -> json) (init : R -> V) (merge : R -> V -> V).

Lemma group_row_plain d r :
  plain_keys d -> plain_key (key r) = true -> plain_keys (group_row key init merge d r).
Proof.
  intros Hd Hr. unfold group_row. case_bool_decide.
  - apply dict_alter_plain, Hd.
  - apply dict_set_plain; assumption.
Qed.

Lemma dict_get_group_row d r k :
  plain_keys d -> plain_key (key r) = true -> plain_key k = true ->
  dict_get (group_row key init merge d r) k
  = if key_eqb (key r) k then collect init merge (dict_get d k) r else dict_get d k.
Proof.
  intros Hd Hr Hk. unfold group_row, collect. case_bool_decide as Hin.
  - rewrite dict_get_alter by assumption.
    destruct (key_eqb (key r) k) eqn:E; [|reflexivity].
    rewrite <- (dict_get_same d (key r) k) by assumption.
    destruct Hin as [v ->]. reflexivity.
  - rewrite dict_get_set by assumption.
    destruct (key_eqb (key r) k) eqn:E; [|reflexivity].
    rewrite <- (dict_get_same d (key r) k) by assumption.
    destruct (dict_get d (key r)) as [v|]; [|reflexivity].
    exfalso. apply Hin. eexists. reflexivity.
Qed.

Lemma dict_get_group_rows rows : forall d k,
  plain_keys d -> Forall (fun r => plain_key (key r) = true) rows -> plain_key k = true ->
  dict_get (group_rows key init merge d rows) k
  = fold_left (collect init merge) (rows_of key k rows) (dict_get d k).
Proof.
  induction rows as [|r rows IH]; intros d k Hd Hrows Hk; simpl; [reflexivity|].
  inversion Hrows as [|? ? Hr Hrest]; subst.
  unfold group_rows in *. simpl. rewrite IH by (auto using group_row_plain).
  rewrite dict_get_group_row by assumption.
  destruct (key_eqb (key r) k); reflexivity.
Qed.

Lemma fold_collect_some l : forall v,
  fold_left (collect init merge) l (Some v)
  = Some (fold_left (fun v r' => merge r' v) l v).
Proof. induction l as [|r l IH]; intros v; simpl; [reflexivity | apply IH]. Qed.

Lemma fold_collect_none l : fold_left (collect init merge) l None = merged init merge l.
Proof. destruct l as [|r l]; simpl; [reflexivity | apply fold_collect_some]. Qed.

(** Every plain key of the result holds its rows, merged in payload order. *)
Lemma group_rows_merged rows k :
  Forall (fun r => plain_key (key r) = true) rows -> plain_key k = true ->
  dict_get (group_rows key init merge [] rows) k = merged init merge (rows_of key k rows).
Proof.
  intros Hrows Hk. rewrite dict_get_group_rows by (assumption || constructor).
  apply fold_collect_none.
Qed.

End GroupingFacts.

(** ** The loops of the callback, row by row *)

Lemma total_cons {R} (f : R -> Z) r l : total f (r :: l) = f r + total f l.
Proof. reflexivity. Qed.

Lemma fold_bump rest : forall g,
  fold_left (fun v r' => bump r' v) rest g
  = IssueGroup (g_title g) (g_original_title g) (g_subtitle g)
      (g_impactedDevicesCount g + total r_devices rest)
      (g_eventsCount g + total r_events rest).
Proof.
  induction rest as [|r rest IH]; intros g.
  - destruct g; simpl. f_equal; lia.
  - simpl fold_left. rewrite IH, !total_cons. unfold bump, add_counts; simpl.
    f_equal; lia.
Qed.

Lemma fold_more_anr rest : forall g,
  fold_left (fun v r' => more_anr r' v) rest g
  = AnrGroup (g_affected_users g + total r_users rest)
      (g_event_count g + total r_event_count rest)
      (fold_left (fun acc r' => (acc + r_ratio r' * 100)%float) rest (g_impact_percentage g)).
Proof.
  induction rest as [|r rest IH]; intros g.
  - destruct g; simpl. f_equal; lia.
  - simpl fold_left. rewrite IH, !total_cons. unfold more_anr, merge_anr; simpl.
    f_equal; lia.
Qed.

Section Loops.
Context `{PyBuiltins}.

Lemma merged_summed current_phase l :
  merged (first_entry current_phase) bump l = summed current_phase l.
Proof.
  destruct l as [|r rest]; [reflexivity|]. unfold merged, summed.
  rewrite fold_bump, !total_cons. reflexivity.
Qed.

Lemma merged_summed_anrs l : merged first_anr more_anr l = summed_anrs l.
Proof.
  destruct l as [|r rest]; [reflexivity|]. unfold merged, summed_anrs.
  rewrite fold_more_anr, !total_cons. reflexivity.
Qed.

(** Outside the iOS phases, one turn of the loop on a row of plain key. *)
Lemma group_issue_row current_phase d issue r :
  startswith_ios current_phase = false ->
  read_issue issue = Some r ->
  plain_key (group_key current_phase r) = true ->
  group_issue current_phase d issue
  = Some (group_row (group_key current_phase) (first_entry current_phase) bump d r).
Proof.
  intros Hios Hr Hk. unfold group_issue, read_issue in *.
  destruct (Py.get issue "caption" _) as [caption|]; simpl in *; [|discriminate].
  destruct (Py.get caption "subtitle" _) as [subtitle|]; simpl in *; [|discriminate].
  destruct (Py.get caption "title" _) as [title|]; simpl in *; [|discriminate].
  destruct (Py.get issue "impactedDevicesCount" _ ≫= Py.int) as [n|]; simpl in *;
    [|discriminate].
  destruct (Py.get issue "eventsCount" _ ≫= Py.int) as [m|]; simpl in *; [|discriminate].
  injection Hr as <-.
  unfold group_row, first_entry, bump, group_key, display_title, dict_mem in *. simpl in *.
  rewrite Hios in *.
  destruct (bool_decide (current_phase = anrs)); simpl in *;
    rewrite (plain_hashable _ Hk); simpl; case_bool_decide; reflexivity.
Qed.

Lemma group_issues_from_rows current_phase top_issues : forall rows d,
  startswith_ios current_phase = false ->
  Forall2 (fun issue r => read_issue issue = Some r) top_issues rows ->
  Forall (fun r => plain_key (group_key current_phase r) = true) rows ->
  group_issues_from current_phase d top_issues
  = Some (group_rows (group_key current_phase) (first_entry current_phase) bump d rows).
Proof.
  induction top_issues as [|issue rest IH]; intros rows d Hios Hread Hplain;
    inversion Hread as [|? r ? rows' Hr Hrest]; subst; simpl; [reflexivity|].
  inversion Hplain as [|? ? Hk Hks]; subst.
  rewrite (group_issue_row _ _ _ r) by assumption. simpl.
  apply IH; assumption.
Qed.

(** One turn of the Play-console loop on a cluster of plain name. *)
Lemma group_anr_row d anr r :
  read_anr anr = Some r -> plain_key (r_name r) = true ->
  group_anr d anr = Some (group_row r_name first_anr more_anr d r).
Proof.
  intros Hr Hk. unfold group_anr, read_anr in *.
  destruct (Py.get anr "2" _ ≫= _) as [anr_name|]; simpl in *; [|discriminate].
  destruct (Py.get anr "6" _ ≫= Py.int) as [n|]; simpl in *; [|discriminate].
  destruct (Py.get anr "7" _ ≫= Py.int) as [m|]; simpl in *; [|discriminate].
  destruct (Py.get anr "11" _ ≫= Py.float) as [ratio|]; simpl in *; [|discriminate].
  injection Hr as <-.
  unfold group_row, first_anr, more_anr, dict_mem in *. simpl in *.
  rewrite (plain_hashable _ Hk); simpl; case_bool_decide; reflexivity.
Qed.

Lemma group_anrs_from_rows anr_data : forall rows d,
  Forall2 (fun anr r => read_anr anr = Some r) anr_data rows ->
  Forall (fun r => plain_key (r_name r) = true) rows ->
  group_anrs_from d anr_data = Some (group_rows r_name first_anr more_anr d rows).
Proof.
  induction anr_data as [|anr rest IH]; intros rows d Hread Hplain;
    inversion Hread as [|? r ? rows' Hr Hrest]; subst; simpl; [reflexivity|].
  inversion Hplain as [|? ? Hk Hks]; subst.
  rewrite (group_anr_row _ _ r) by assumption. simpl.
  apply IH; assumption.
Qed.

End Loops.

(** ** The keys of the iOS phases *)

Lemma pretty_N_go_underscore_free x : forall s,
  underscore_free s = true -> underscore_free (pretty_N_go x s) = true.
Proof.
  induction (N.lt_wf_0 x) as [x _ IH]; intros s Hs.
  destruct (decide (x = 0%N)) as [->|Hx]; [rewrite pretty_N_go_0; exact Hs|].
  rewrite pretty_N_go_step by lia. apply IH; [apply N.div_lt; lia|].
  simpl. rewrite Hs. unfold pretty_N_char. repeat case_match; reflexivity.
Qed.

Lemma pretty_nat_underscore_free (n : nat) : underscore_free (pretty n) = true.
Proof.
  unfold pretty, pretty_nat, pretty, pretty_N. case_decide; [reflexivity|].
  apply pretty_N_go_underscore_free. reflexivity.
Qed.

Lemma underscore_found a x : underscore_free (a +:+ String "_" x) = false.
Proof.
  induction a as [|c a IH]; [reflexivity|].
  change (underscore_free (String c (a +:+ String "_" x)) = false).
  simpl. rewrite IH. apply andb_false_r.
Qed.

(** What follows the last ["_"] is determined by the string. *)
Lemma numbered_inj a : forall b x y,
  underscore_free x = true -> underscore_free y = true ->
  a +:+ String "_" x = b +:+ String "_" y -> x = y.
Proof.
  induction a as [|c a IH]; intros [|c' b] x y Hx Hy E;
    cbv [String.append] in E; fold String.append in E.
  - injection E as E. exact E.
  - injection E as _ E. rewrite E, underscore_found in Hx. discriminate.
  - injection E as _ E. rewrite <- E, underscore_found in Hy. discriminate.
  - injection E as _ E. apply (IH b); assumption.
Qed.

Section IosLoop.
Context `{PyBuiltins}.

(** One turn of the loop in an iOS phase. *)
Lemma group_issue_ios current_phase d issue r :
  startswith_ios current_phase = true ->
  read_issue issue = Some r ->
  group_issue current_phase d issue
  = Some (dict_set d (JStr (str_of (r_title r) +:+ "_" +:+ pretty (List.length d)))
            (ios_entry current_phase r)).
Proof.
  intros Hios Hr. unfold group_issue, read_issue in *.
  destruct (Py.get issue "caption" _) as [caption|]; simpl in *; [|discriminate].
  destruct (Py.get caption "subtitle" _) as [subtitle|]; simpl in *; [|discriminate].
  destruct (Py.get caption "title" _) as [title|]; simpl in *; [|discriminate].
  destruct (Py.get issue "impactedDevicesCount" _ ≫= Py.int) as [n|]; simpl in *;
    [|discriminate].
  destruct (Py.get issue "eventsCount" _ ≫= Py.int) as [m|]; simpl in *; [|discriminate].
  injection Hr as <-. rewrite Hios.
  destruct (bool_decide (current_phase = anrs)); reflexivity.
Qed.

(** The key of a turn is not yet in [grouped_issues]. *)
Lemma ios_key_fresh {V} (d : list (json * V)) (t : string) :
  numbered d -> dict_get d (JStr (t +:+ "_" +:+ pretty (List.length d))) = None.
Proof.
  intros Hd. apply dict_get_absent. unfold numbered in Hd.
  eapply Forall_impl; [exact Hd|]. intros [k v] (t' & i & -> & Hi). simpl.
  destruct (String.eqb _ _) eqn:E; [|reflexivity]. apply String.eqb_eq in E.
  apply numbered_inj in E; try apply pretty_nat_underscore_free.
  apply (inj pretty) in E. lia.
Qed.

Lemma numbered_snoc {V} (d : list (json * V)) (t : string) (v : V) :
  numbered d -> numbered (d ++ [(JStr (t +:+ "_" +:+ pretty (List.length d)), v)]).
Proof.
  intros Hd. unfold numbered in *. apply Forall_app. split.
  - eapply Forall_impl; [exact Hd|]. intros kv (t' & i & E & Hi).
    exists t', i. split; [exact E|]. rewrite length_app. simpl. lia.
  - constructor; [|constructor]. exists t, (List.length d). split; [reflexivity|].
    rewrite length_app. simpl. lia.
Qed.

(** In an iOS phase every row gets an entry of its own, in payload order. *)
Lemma group_issues_from_ios current_phase top_issues : forall rows d,
  startswith_ios current_phase = true ->
  Forall2 (fun issue r => read_issue issue = Some r) top_issues rows ->
  numbered d ->
  exists groups,
    group_issues_from current_phase d top_issues = Some groups /\
    map snd groups = map snd d ++ map (ios_entry current_phase) rows.
Proof.
  induction top_issues as [|issue rest IH]; intros rows d Hios Hread Hd;
    inversion Hread as [|? r ? rows' Hr Hrest]; subst; simpl.
  - exists d. split; [reflexivity|]. rewrite app_nil_r. reflexivity.
  - rewrite (group_issue_ios _ _ _ r) by assumption. simpl.
    rewrite dict_set_fresh by (apply ios_key_fresh, Hd).
    destruct (IH rows' _ Hios Hrest
                (numbered_snoc d (str_of (r_title r)) (ios_entry current_phase r) Hd))
      as (groups & Hg & Hv).
    exists groups. split; [exact Hg|].
    rewrite Hv, map_app, <- app_assoc. reflexivity.
Qed.

End IosLoop.

(** C3, as stated, fails.  Two rows of the crashes page without a subtitle
    and under different titles are two groups by the claim; the loop files
    both under the key it gives a missing subtitle and the callback stores
    one entry with their counts added up.  Two iOS rows under one title are
    one group by the claim; the loop keeps one entry for each. *)
Lemma C3_counterexample :
  @claimed_counts Reference.builtins crashes bare_rows
  = Some [(JStr "A", (10, 50)); (JStr "B", (5, 20))] /\
  @group_counts Reference.builtins crashes bare_rows
  = Some [(JStr "Unknown", (15, 70))] /\
  Android.top_crashes
    (android (app_data (@handle_response Reference.builtins 7 partner_config fixture_today
                          (issue_list bare_rows) crashes_phase_state)))
  = [IssueData 1 (JStr "A") 1 15 70] /\
  @claimed_counts Reference.builtins ios_crashes twin_rows
  = Some [(JStr "T", (15, 70))] /\
  @group_counts Reference.builtins ios_crashes twin_rows
  = Some [(JStr "T_0", (10, 50)); (JStr "T_1", (5, 20))].
Proof. repeat split; vm_compute; reflexivity. Qed.

(** C3, amended.  On the rows the loop reads, with keys that are not
    floats:
    - on the Android crash and non-fatal lists rows are grouped by
      subtitle, the rows without a subtitle sharing one key, and on the ANR
      list by title; a group carries the captions of its first row (the
      title standing in for a missing subtitle in its name) and the sums of
      [impactedDevicesCount] and of [eventsCount] over its rows;
    - in the iOS phases nothing is grouped: every row has an entry of its
      own, in payload order, with its own counts;
    - Play-console clusters are grouped by cluster name, with the users
      and events summed and the percentages added up in payload order. *)
Theorem C3_rows_grouped_by_key (B : PyBuiltins) :
  (forall current_phase top_issues rows,
     startswith_ios current_phase = false ->
     mapM read_issue top_issues = Some rows ->
     Forall (fun r => plain_key (group_key current_phase r) = true) rows ->
     exists groups,
       group_issues current_phase top_issues = Some groups /\
       forall k, plain_key k = true ->
         dict_get groups k
         = summed current_phase (rows_of (group_key current_phase) k rows)) /\
  (forall current_phase top_issues rows,
     startswith_ios current_phase = true ->
     mapM read_issue top_issues = Some rows ->
     exists groups,
       group_issues current_phase top_issues = Some groups /\
       map snd groups = map (ios_entry current_phase) rows) /\
  (forall anr_data rows,
     mapM read_anr anr_data = Some rows ->
     Forall (fun r => plain_key (r_name r) = true) rows ->
     exists groups,
       group_anrs_from [] anr_data = Some groups /\
       forall k, plain_key k = true ->
         dict_get groups k = summed_anrs (rows_of r_name k rows)).
Proof.
  split; [|split].
  - intros current_phase top_issues rows Hios Hread Hplain.
    apply mapM_Some in Hread. eexists. split.
    + apply group_issues_from_rows; eassumption.
    + intros k Hk. rewrite group_rows_merged by assumption. apply merged_summed.
  - intros current_phase top_issues rows Hios Hread.
    apply mapM_Some in Hread.
    destruct (group_issues_from_ios current_phase top_issues rows [] Hios Hread)
      as (groups & Hg & Hv); [constructor|].
    exists groups. split; assumption.
  - intros anr_data rows Hread Hplain.
    apply mapM_Some in Hread. eexists. split.
    + apply group_anrs_from_rows; eassumption.
    + intros k Hk. rewrite group_rows_merged by assumption. apply merged_summed_anrs.
Qed.

Lemma C3_witness :
  (exists groups,
     @group_issues Reference.builtins crashes bare_rows = Some groups /\
     dict_get groups (JStr "Unknown")
     = Some (IssueGroup (JStr "A") (JStr "A") (JStr "Unknown") 15 70) /\
     dict_get groups (JStr "A") = None) /\
  (exists groups,
     @group_issues Reference.builtins ios_crashes twin_rows = Some groups /\
     map snd groups = [IssueGroup (JStr "T") (JStr "T") (JStr "x") 10 50;
                       IssueGroup (JStr "T") (JStr "T") (JStr "y") 5 20]) /\
  (exists groups,
     @group_anrs_from Reference.builtins [] twin_clusters = Some groups /\
     dict_get groups (JStr "Input dispatching timed out") = Some (AnrGroup 15 70 75)).
Proof.
  destruct (C3_rows_grouped_by_key Reference.builtins) as (Handroid & Hios & Hplay).
  split; [|split].
  - destruct (Handroid crashes bare_rows
                [IssueRow (JStr "Unknown") (JStr "A") 10 50;
                 IssueRow (JStr "Unknown") (JStr "B") 5 20])
      as (groups & Hg & Hk);
      [reflexivity | vm_compute; reflexivity | repeat constructor |].
    exists groups. split; [exact Hg|]. split; rewrite Hk by reflexivity; reflexivity.
  - destruct (Hios ios_crashes twin_rows
                [IssueRow (JStr "x") (JStr "T") 10 50; IssueRow (JStr "y") (JStr "T") 5 20])
      as (groups & Hg & Hv); [reflexivity | vm_compute; reflexivity |].
    exists groups. split; [exact Hg | exact Hv].
  - destruct (Hplay twin_clusters
                [AnrRow (JStr "Input dispatching timed out") 10 50 0.25;
                 AnrRow (JStr "Input dispatching timed out") 5 20 0.5])
      as (groups & Hg & Hk); [vm_compute; reflexivity | repeat constructor |].
    exists groups. split; [exact Hg|]. rewrite Hk by reflexivity.
    vm_compute. reflexivity.
Defined.

(* ===================================================================== *)
(** * Acceptance guards *)
(* ===================================================================== *)

(** C5, as stated, fails.  On the launch-time page a first timeline is
    accepted and sets the completion flag; a second one, matching the same
    signature while the phase is still active, is accepted again and
    replaces the value. *)
Lemma C5_counterexample :
  let s1 := @handle_response Reference.builtins 7 partner_config fixture_today
              first_timeline launch_phase_state in
  let s2 := @handle_response Reference.builtins 7 partner_config fixture_today
              second_timeline s1 in
  current_phase s1 = android_p90_launch /\
  android_p90_launch_captured s1 = true /\
  Android.p90_launch_time_seconds (android (app_data s1)) = Some 1%float /\
  is_launch_timeline (url second_timeline) = true /\
  Android.p90_launch_time_seconds (android (app_data s2)) = Some 2%float /\
  s2 <> s1.
Proof.
  cbv zeta. repeat split; try (vm_compute; reflexivity).
  intros E.
  apply (f_equal (fun s => Android.p90_launch_time_seconds (android (app_data s)))) in E.
  vm_compute in E. discriminate E.
Qed.

(** Where the first report is in and the phase loads neither a report nor
    an issue list, the chain of the callback skips the response. *)
Lemma report_chain_skip `{PyBuiltins} (DATE_RANGE_DAYS today : Z) (r : response) (s : state) :
  metrics_captured s = true ->
  meaningful sig_metrics_report (current_phase s) = false ->
  meaningful sig_top_issues (current_phase s) = false ->
  report_chain DATE_RANGE_DAYS today r s = s.
Proof.
  intros Hmc Hm Ht. unfold report_chain. cbv zeta. rewrite Hmc. cbn [andb negb].
  rewrite !(bool_decide_eq_false_2 (current_phase s = _))
    by (intros E; rewrite E in Hm; discriminate Hm).
  cbn [andb orb].
  destruct (is_top_issues _); [apply handle_top_issues_skip; exact Ht | reflexivity].
Qed.

(** C5, amended.  Whether a phase accepts at most one response depends on
    its guard.

    - In the phases whose guard tests the completion flag (metrics,
      crashes, non-fatals), once the flag is set a response whose handling
      starts while the phase is active is ignored: the callback returns
      the state it was given.
    - The launch-time, Play-console and ANR-report blocks test the phase
      alone.  In their phase a matching response from which a value is
      extracted is accepted whatever the completion flag: the extracted
      launch time, list of ANRs or count of installs is stored in place of
      the earlier one and the flag is set. *)
Theorem C5_acceptance_guards (B : PyBuiltins) (DATE_RANGE_DAYS : Z)
    (app_config : app_configuration) (today : Z) (response : response) (s : state) :
  phase_inv s ->
  let s' := handle_response DATE_RANGE_DAYS app_config today response s in
  ((current_phase s = metrics /\ metrics_captured s = true) \/
   (current_phase s = crashes /\ crashes_captured s = true) \/
   (current_phase s = non_fatals /\ non_fatals_captured s = true) ->
   s' = s) /\
  (forall p90_seconds,
     current_phase s = android_p90_launch ->
     is_launch_timeline (url response) = true ->
     json_body response ≫= p90_launch_seconds today = Some (Some p90_seconds) ->
     Android.p90_launch_time_seconds (android (app_data s')) = Some p90_seconds /\
     android_p90_launch_captured s' = true) /\
  (forall anr_list,
     current_phase s = up_anrs ->
     is_play_console_clusters app_config (url response) = true ->
     wanted_request_body (post_data response) = true ->
     json_body response ≫= play_console_anrs = Some anr_list ->
     Android.up_anrs (android (app_data s')) = anr_list /\
     play_console_anrs_captured s' = true) /\
  (forall grouped_metrics installs,
     current_phase s = anr_metrics ->
     is_metrics_report (url response) = true ->
     json_body response ≫= (fun j => Py.get j "groupedMetrics" (JArr []))
       = Some grouped_metrics ->
     valid_report DATE_RANGE_DAYS today grouped_metrics = Some true ->
     Py.iter grouped_metrics ≫= find_anr_installs = Some (Some installs) ->
     anr_installs s' = installs /\ anr_metrics_captured s' = true).
Proof.
  intros Hinv s'. subst s'.
  assert (Hlate : current_phase s <> metrics -> metrics_captured s = true).
  { intros Hp. destruct (metrics_captured s) eqn:E; [reflexivity|].
    elim Hp. exact (Hinv E). }
  rewrite handle_response_halves.
  split; [| split; [| split]].
  - intros Hcases.
    assert (Hmc : metrics_captured s = true).
    { destruct Hcases as [[_ ?]|[[Hp _]|[Hp _]]];
        [assumption | apply Hlate; congruence | apply Hlate; congruence]. }
    assert (Htop : handle_top_issues response s = s).
    { unfold handle_top_issues, top_issues_guard.
      destruct Hcases as [[Hp _]|[[Hp Hf]|[Hp Hf]]]; rewrite Hp, ?Hf; reflexivity. }
    assert (Hp : current_phase s = metrics \/ current_phase s = crashes
                 \/ current_phase s = non_fatals) by tauto.
    rewrite early_blocks_skip by (destruct Hp as [Hp|[Hp|Hp]]; rewrite Hp; discriminate).
    unfold report_chain. cbv zeta. rewrite Hmc. cbn [andb negb].
    rewrite !(bool_decide_eq_false_2 (current_phase s = _))
      by (destruct Hp as [Hp|[Hp|Hp]]; rewrite Hp; discriminate).
    cbn [andb orb].
    destruct (is_top_issues _); [exact Htop | reflexivity].
  - intros p90_seconds Hp Hurl Hv.
    assert (Hmc : metrics_captured s = true) by (apply Hlate; congruence).
    assert (E : early_blocks app_config today response s
                = set_android_p90_launch_captured true
                    (on_android (Android.set_p90_launch_time_seconds (Some p90_seconds)) s)).
    { unfold early_blocks. cbv zeta.
      rewrite (bool_decide_eq_true_2 _ Hp), Hurl. cbn [andb].
      unfold handle_launch_time. rewrite Hv. cbn [current_phase set_android_p90_launch_captured
        on_android set_app_data].
      rewrite !(bool_decide_eq_false_2 (current_phase s = _))
        by (rewrite Hp; discriminate).
      reflexivity. }
    rewrite E, report_chain_skip.
    + split; reflexivity.
    + exact Hmc.
    + simpl. rewrite Hp. reflexivity.
    + simpl. rewrite Hp. reflexivity.
  - intros anr_list Hp Hurl Hbody Hl.
    assert (Hmc : metrics_captured s = true) by (apply Hlate; congruence).
    assert (E : early_blocks app_config today response s
                = set_play_console_anrs_captured true
                    (on_android (Android.set_up_anrs anr_list) s)).
    { unfold early_blocks. cbv zeta.
      rewrite !(bool_decide_eq_false_2 (current_phase s = _))
        by (rewrite Hp; discriminate).
      cbn [andb orb].
      rewrite (bool_decide_eq_true_2 _ Hp), Hurl. cbn [andb].
      unfold handle_play_console. rewrite Hbody, Hl. reflexivity. }
    rewrite E, report_chain_skip.
    + split; reflexivity.
    + exact Hmc.
    + simpl. rewrite Hp. reflexivity.
    + simpl. rewrite Hp. reflexivity.
  - intros grouped_metrics installs Hp Hurl Hg Hvalid Hn.
    assert (Hmc : metrics_captured s = true) by (apply Hlate; congruence).
    rewrite early_blocks_skip by (rewrite Hp; discriminate).
    unfold report_chain. cbv zeta. rewrite Hmc. cbn [andb negb].
    rewrite (bool_decide_eq_true_2 _ Hp), Hurl. cbn [andb].
    unfold handle_anr_metrics. rewrite Hg. cbn [mbind option_bind].
    rewrite Hvalid. cbn [mbind option_bind]. rewrite Hn.
    split; reflexivity.
Qed.

(** A second metrics report on the first page, after the first was taken,
    and a second timeline on the launch-time page, after the first set the
    flag. *)
Lemma C5_witness :
  let s1 := @handle_response Reference.builtins 7 partner_config fixture_today
              metrics_fixture (initial_state "partner" partner_config) in
  let s2 := @handle_response Reference.builtins 7 partner_config fixture_today
              first_timeline launch_phase_state in
  let s3 := @handle_response Reference.builtins 7 partner_config fixture_today
              second_timeline s2 in
  (metrics_captured s1 = true /\
   @handle_response Reference.builtins 7 partner_config fixture_today metrics_fixture s1 = s1) /\
  (android_p90_launch_captured s2 = true /\
   Android.p90_launch_time_seconds (android (app_data s3)) = Some 2%float).
Proof.
  cbv zeta. split; split.
  - vm_compute. reflexivity.
  - refine (proj1 (C5_acceptance_guards Reference.builtins 7 partner_config fixture_today
                     metrics_fixture _ _) _).
    + intros Hc. vm_compute in Hc. discriminate Hc.
    + left. split; vm_compute; reflexivity.
  - vm_compute. reflexivity.
  - refine (proj1 (proj1 (proj2 (C5_acceptance_guards Reference.builtins 7 partner_config
                                   fixture_today second_timeline _ _)) _ _ _ _)).
    + intros Hc. vm_compute in Hc. discriminate Hc.
    + vm_compute. reflexivity.
    + vm_compute. reflexivity.
    + vm_compute. reflexivity.
Defined.

(* ===================================================================== *)
(** * P90 launch time *)
(* ===================================================================== *)

Section LaunchTime.
Context `{PyBuiltins}.





End LaunchTime.




(* ===================================================================== *)
(** * Ranking *)
(* ===================================================================== *)

(** ** The order of binary64 numbers other than NaN *)

Lemma SFltb_code x y :
  x <> S754_nan -> y <> S754_nan ->
  SFltb x y = true <-> lex_lt (sf_code x) (sf_code y).
Proof.
  intros Hx Hy. unfold SFltb, SFcompare, lex_lt.
  destruct x as [sx|sx| |sx mx ex], y as [sy|sy| |sy my ey]; try congruence;
    try destruct sx; try destruct sy; simpl;
    try (split; [discriminate | lia]);
    try (split; [lia | reflexivity]).
  all: change (PosDef.Pos.compare_cont Eq mx my) with (Pos.compare mx my).
  all: destruct (Z.compare_spec ex ey) as [->| |];
    [destruct (Pos.compare_spec mx my) as [->| |]; simpl | | ];
    (split; [try discriminate; try lia | try reflexivity; try lia]).
Qed.

Lemma float_ltb_code f g :
  Float64.is_nan f = false -> Float64.is_nan g = false ->
  (f <? g)%float = true <-> lex_lt (sf_code (Prim2SF f)) (sf_code (Prim2SF g)).
Proof.
  unfold Float64.is_nan. intros Hf Hg. rewrite ltb_spec.
  apply SFltb_code; intros E; rewrite E in *; discriminate.
Qed.

Lemma float_ltb_asym f g :
  Float64.is_nan f = false -> Float64.is_nan g = false ->
  (f <? g)%float = true -> (g <? f)%float = false.
Proof.
  intros Hf Hg Hlt. apply (float_ltb_code f g Hf Hg) in Hlt.
  apply not_true_is_false. intros Hgt. apply (float_ltb_code g f Hg Hf) in Hgt.
  unfold lex_lt in *. lia.
Qed.

Lemma float_ltb_negtrans f g h :
  Float64.is_nan f = false -> Float64.is_nan g = false -> Float64.is_nan h = false ->
  (f <? g)%float = false -> (g <? h)%float = false -> (f <? h)%float = false.
Proof.
  intros Hf Hg Hh H1 H2. apply not_true_is_false. intros H3.
  apply (float_ltb_code f h Hf Hh) in H3.
  apply not_true_iff_false in H1, H2.
  rewrite (float_ltb_code f g Hf Hg) in H1. rewrite (float_ltb_code g h Hg Hh) in H2.
  unfold lex_lt in *. lia.
Qed.

(** ** The stable descending sort *)

Section SortedReverseFacts.
Context {A K : Type} (key : A -> K) (ltb : K -> K -> bool).
(** The ranking values that [ltb] orders: on them it is a strict weak
    order. *)
Variable ordered : K -> Prop.
Hypothesis ltb_asym : forall a b,
  ordered a -> ordered b -> ltb a b = true -> ltb b a = false.
Hypothesis ltb_negtrans : forall a b c,
  ordered a -> ordered b -> ordered c ->
  ltb a b = false -> ltb b c = false -> ltb a c = false.

Lemma insert_reverse_perm x l : Permutation (insert_reverse key ltb x l) (x :: l).
Proof.
  induction l as [|y l IH]; simpl; [reflexivity|].
  destruct (ltb (key x) (key y)); [|reflexivity].
  rewrite IH. apply perm_swap.
Qed.

Lemma sorted_reverse_perm l : Permutation (sorted_reverse key ltb l) l.
Proof.
  induction l as [|x l IH]; simpl; [reflexivity|].
  rewrite insert_reverse_perm. apply perm_skip, IH.
Qed.

Lemma sorted_reverse_ordered l :
  Forall (fun x => ordered (key x)) l ->
  Forall (fun x => ordered (key x)) (sorted_reverse key ltb l).
Proof. intros Hl. eapply Permutation_Forall; [symmetry; apply sorted_reverse_perm | exact Hl]. Qed.

Lemma insert_reverse_descending x l :
  ordered (key x) -> Forall (fun y => ordered (key y)) l ->
  descending key ltb l -> descending key ltb (insert_reverse key ltb x l).
Proof.
  intros Hx Hl Hs. unfold descending in *.
  induction Hs as [|y l Hs IH Hy]; simpl.
  - repeat constructor.
  - apply Forall_cons_1 in Hl as [Hoy Hol].
    destruct (ltb (key x) (key y)) eqn:E.
    + constructor; [apply IH, Hol|].
      eapply Permutation_Forall; [symmetry; apply insert_reverse_perm|].
      constructor; [apply ltb_asym; assumption | exact Hy].
    + constructor; [constructor; assumption|].
      constructor; [exact E|].
      rewrite Forall_forall in Hy, Hol |- *. intros z Hz.
      apply (ltb_negtrans _ (key y)); auto.
Qed.

Lemma sorted_reverse_descending l :
  Forall (fun x => ordered (key x)) l -> descending key ltb (sorted_reverse key ltb l).
Proof.
  induction l as [|x l IH]; intros Hl; simpl; [constructor|].
  apply Forall_cons_1 in Hl as [Hx Hl].
  apply insert_reverse_descending; auto using sorted_reverse_ordered.
Qed.

(** Among the elements tied with [k] the order of insertion is kept. *)
Lemma insert_reverse_stable k x l :
  ordered k -> ordered (key x) -> Forall (fun y => ordered (key y)) l ->
  List.filter (tied key ltb k) (insert_reverse key ltb x l)
  = List.filter (tied key ltb k) (x :: l).
Proof.
  intros Hk Hx Hl. induction l as [|y l IH]; [reflexivity|].
  apply Forall_cons_1 in Hl as [Hy Hl]. specialize (IH Hl).
  cbn [insert_reverse]. destruct (ltb (key x) (key y)) eqn:E; [|reflexivity].
  cbn [List.filter] in *. rewrite IH.
  destruct (tied key ltb k x) eqn:Tx, (tied key ltb k y) eqn:Ty; try reflexivity.
  exfalso. unfold tied in Tx, Ty.
  apply andb_true_iff in Tx as [_ Tx], Ty as [Ty _].
  apply negb_true_iff in Tx, Ty.
  rewrite (ltb_negtrans _ _ _ Hx Hk Hy Tx Ty) in E. discriminate.
Qed.

Lemma sorted_reverse_stable k l :
  ordered k -> Forall (fun x => ordered (key x)) l ->
  List.filter (tied key ltb k) (sorted_reverse key ltb l) = List.filter (tied key ltb k) l.
Proof.
  intros Hk Hl. induction l as [|x l IH]; [reflexivity|].
  apply Forall_cons_1 in Hl as [Hx Hl]. cbn [sorted_reverse].
  rewrite insert_reverse_stable by auto using sorted_reverse_ordered.
  cbn [List.filter]. rewrite IH by exact Hl. reflexivity.
Qed.

Lemma top3_length l : (length (top3 key ltb l) <= 3)%nat.
Proof. unfold top3. rewrite length_firstn. lia. Qed.

Lemma descending_firstn n l : descending key ltb l -> descending key ltb (firstn n l).
Proof.
  unfold descending. intros Hs. revert n.
  induction Hs as [|x l Hs IH Hx]; intros [|n]; simpl; try constructor.
  - apply IH.
  - rewrite Forall_forall in Hx |- *. intros y Hy. apply Hx.
    apply elem_of_take in Hy as (i & Hi & _). eapply list_elem_of_lookup_2, Hi.
Qed.

End SortedReverseFacts.

Lemma StronglySorted_impl {A} (R R' : A -> A -> Prop) l :
  (forall a b, R a b -> R' a b) -> StronglySorted R l -> StronglySorted R' l.
Proof.
  intros HR. induction 1 as [|x l Hs IH Hx]; constructor; [exact IH|].
  eapply Forall_impl; [exact Hx | intros y; apply HR].
Qed.

Lemma SFeqb_code x y :
  x <> S754_nan -> y <> S754_nan ->
  SFeqb x y = true <-> sf_code x = sf_code y.
Proof.
  intros Hx Hy. unfold SFeqb, SFcompare.
  destruct x as [sx|sx| |sx mx ex], y as [sy|sy| |sy my ey]; try congruence;
    try destruct sx; try destruct sy; simpl;
    try (split; [discriminate | intros [=]; lia]);
    try (split; reflexivity).
  all: change (PosDef.Pos.compare_cont Eq mx my) with (Pos.compare mx my).
  all: destruct (Z.compare_spec ex ey) as [->| |];
    [destruct (Pos.compare_spec mx my) as [->| |]; simpl | | ];
    (split; [try discriminate; try reflexivity | try reflexivity; intros [=]; lia]).
Qed.

(** Away from NaN, two floats are tied exactly when [==] holds. *)
Lemma float_tied_eqb {A} (key : A -> float) k x :
  Float64.is_nan k = false -> Float64.is_nan (key x) = false ->
  tied key PrimFloat.ltb k x = (key x =? k)%float.
Proof.
  intros Hk Hx. unfold tied.
  pose proof (float_ltb_code k (key x) Hk Hx) as H1.
  pose proof (float_ltb_code (key x) k Hx Hk) as H2.
  assert (H3 : (key x =? k)%float = true <->
               sf_code (Prim2SF (key x)) = sf_code (Prim2SF k)).
  { rewrite FloatAxioms.eqb_spec. unfold Float64.is_nan in Hk, Hx.
    apply SFeqb_code; intros E; rewrite E in *; discriminate. }
  destruct (sf_code (Prim2SF (key x))) as [[a1 a2] a3].
  destruct (sf_code (Prim2SF k)) as [[b1 b2] b3].
  unfold lex_lt in H1, H2. simpl in H1, H2.
  destruct (k <? key x)%float, (key x <? k)%float, (key x =? k)%float; simpl;
    try reflexivity; exfalso.
  all: try (assert ((a1, a2, a3) = (b1, b2, b3)) as [= -> -> ->] by (apply H3; reflexivity)).
  all: try (pose proof (proj1 H1 eq_refl)); try (pose proof (proj1 H2 eq_refl)); try lia.
  assert (~ (b1 < a1 \/ b1 = a1 /\ (b2 < a2 \/ b2 = a2 /\ b3 < a3)))
    by (intros Hc; apply H1 in Hc; discriminate).
  assert (~ (a1 < b1 \/ a1 = b1 /\ (a2 < b2 \/ a2 = b2 /\ a3 < b3)))
    by (intros Hc; apply H2 in Hc; discriminate).
  assert ((a1, a2, a3) = (b1, b2, b3)) as Heq by (f_equal; [f_equal|]; lia).
  apply H3 in Heq. discriminate.
Qed.

(** C6.  The top-N selection of a cluster extraction returns at most 3
    entries: the first three of the grouped clusters arranged in descending
    order of the ranking metric (impacted devices for Firebase issue lists,
    the impact ratio for Play-console ANRs, which is a number: not NaN),
    clusters of equal ranking value staying in first-seen order. *)
Theorem C6_top3_sorted_stable :
  (forall grouped_issues : list (json * issue_group),
     let ranked := sorted_reverse g_impactedDevicesCount Z.ltb (map snd grouped_issues) in
     sorted_issues grouped_issues = firstn 3 ranked /\
     (length (sorted_issues grouped_issues) <= 3)%nat /\
     Permutation ranked (map snd grouped_issues) /\
     StronglySorted (fun a b => g_impactedDevicesCount b <= g_impactedDevicesCount a)
       ranked /\
     (forall n,
        List.filter (fun g => g_impactedDevicesCount g =? n) ranked
        = List.filter (fun g => g_impactedDevicesCount g =? n) (map snd grouped_issues)))
  /\
  (forall grouped_anrs : list (json * anr_group),
     Forall (fun x => Float64.is_nan (anr_rank x) = false) grouped_anrs ->
     let ranked := sorted_reverse anr_rank PrimFloat.ltb grouped_anrs in
     sorted_anrs grouped_anrs = firstn 3 ranked /\
     (length (sorted_anrs grouped_anrs) <= 3)%nat /\
     Permutation ranked grouped_anrs /\
     StronglySorted (fun a b => (anr_rank a <? anr_rank b)%float = false) ranked /\
     (forall k, Float64.is_nan k = false ->
        List.filter (fun x => (anr_rank x =? k)%float) ranked
        = List.filter (fun x => (anr_rank x =? k)%float) grouped_anrs)).
Proof.
  split.
  - intros grouped ranked. subst ranked.
    split; [reflexivity|]. split; [apply top3_length|].
    split; [apply sorted_reverse_perm|]. split.
    + eapply StronglySorted_impl;
        [|apply (sorted_reverse_descending g_impactedDevicesCount Z.ltb (fun _ => True))].
      * intros a b Hab. apply Z.ltb_ge in Hab. exact Hab.
      * intros a b _ _ Hab. apply Z.ltb_lt in Hab. apply Z.ltb_ge. lia.
      * intros a b c _ _ _ H1 H2. apply Z.ltb_ge in H1, H2. apply Z.ltb_ge. lia.
      * apply Forall_forall. intros; exact I.
    + intros n.
      assert (Hext : forall g, tied g_impactedDevicesCount Z.ltb n g
                               = (g_impactedDevicesCount g =? n)).
      { intros g. unfold tied.
        destruct (Z.ltb_spec n (g_impactedDevicesCount g)),
                 (Z.ltb_spec (g_impactedDevicesCount g) n),
                 (Z.eqb_spec (g_impactedDevicesCount g) n); simpl; try reflexivity; lia. }
      rewrite <- (List.filter_ext _ _ Hext (sorted_reverse _ _ _)).
      rewrite <- (List.filter_ext _ _ Hext (map snd grouped)).
      apply (sorted_reverse_stable g_impactedDevicesCount Z.ltb (fun _ => True)); auto.
      * intros a b c _ _ _ H1 H2. apply Z.ltb_ge in H1, H2. apply Z.ltb_ge. lia.
      * apply Forall_forall. intros; exact I.
  - intros grouped Hnan ranked. subst ranked.
    split; [reflexivity|]. split; [apply top3_length|].
    split; [apply sorted_reverse_perm|].
    assert (Hranked : Forall (fun x => Float64.is_nan (anr_rank x) = false)
                        (sorted_reverse anr_rank PrimFloat.ltb grouped)).
    { eapply Permutation_Forall; [symmetry; apply sorted_reverse_perm | exact Hnan]. }
    split.
    + apply (sorted_reverse_descending anr_rank PrimFloat.ltb
               (fun k => Float64.is_nan k = false));
        [apply float_ltb_asym | apply float_ltb_negtrans | exact Hnan].
    + intros k Hk.
      assert (Hext : forall l, Forall (fun x => Float64.is_nan (anr_rank x) = false) l ->
                List.filter (fun x => (anr_rank x =? k)%float) l
                = List.filter (tied anr_rank PrimFloat.ltb k) l).
      { induction 1 as [|x l Hx _ IH]; [reflexivity|].
        cbn [List.filter]. rewrite IH, (float_tied_eqb anr_rank k x Hk Hx). reflexivity. }
      rewrite (Hext _ Hranked), (Hext _ Hnan).
      apply (sorted_reverse_stable anr_rank PrimFloat.ltb
               (fun k => Float64.is_nan k = false) float_ltb_negtrans k grouped Hk Hnan).
Qed.

(** Four clusters, two of them tied: the tied ones keep their order. *)
Lemma C6_witness :
  sorted_anrs anr_clusters
    = [(JStr "B", AnrGroup 30 40 2.5); (JStr "A", AnrGroup 10 20 1.5);
       (JStr "C", AnrGroup 50 60 1.5)] /\
  StronglySorted (fun a b => (anr_rank a <? anr_rank b)%float = false)
    (sorted_reverse anr_rank PrimFloat.ltb anr_clusters).
Proof.
  assert (Hnan : Forall (fun x => Float64.is_nan (anr_rank x) = false) anr_clusters).
  { repeat (constructor; [vm_compute; reflexivity|]). constructor. }
  destruct (proj2 C6_top3_sorted_stable anr_clusters Hnan) as (_ & _ & _ & Hsorted & _).
  split; [vm_compute; reflexivity | exact Hsorted].
Defined.

(* ===================================================================== *)
(** * Impact percentage *)
(* ===================================================================== *)

(** C7.  The fixture of the specification: two rows under the subtitle
    NullPointerException, 10 and 5 devices, 50 and 20 events, against 1000
    installs, give one entry with 15 devices, 70 events and an impact of 1.
    The percentage is computed in binary64, [int(devices / installs * 100)],
    and is not always the floor of the exact quotient: 29 devices against
    100 installs give 28, where [floor(29 / 100 * 100)] is 29. *)
Theorem C7_impact_percentage :
  Android.top_crashes
    (android (app_data (@handle_response Reference.builtins 7 partner_config fixture_today
                          issues_fixture crashes_phase_state)))
  = [IssueData 1 (JStr "NullPointerException") 1 15 70] /\
  impact_percent 29 100 = Some 28 /\
  29 * 100 / 100 = 29 /\
  Android.top_crashes
    (android (app_data (@handle_response Reference.builtins 7 partner_config fixture_today
                          small_app_issues small_app_state)))
  = [IssueData 1 (JStr "IllegalStateException") 28 29 40].
Proof. repeat split; vm_compute; reflexivity. Qed.

(* ===================================================================== *)
(** * Reasoning about the main flow *)
(* ===================================================================== *)

Section FlowLemmas.
Context `{PyBuiltins}.
Variable DATE_RANGE_DAYS : Z.
Variable app_config : app_configuration.

Lemma Flow_spec_ret (P J : state -> Prop) {A} (a : A) :
  Flow_spec P J (fun _ s => P s) (mret a).
Proof. intros s tr Hs. exact Hs. Qed.

Lemma Flow_spec_bind (P J : state -> Prop) {A B} (Q : A -> state -> Prop)
    (R : B -> state -> Prop) (m : Flow A) (k : A -> Flow B) :
  Flow_spec P J Q m -> (forall a, Flow_spec (Q a) J R (k a)) ->
  Flow_spec P J R (m ≫= k).
Proof.
  intros Hm Hk s tr Hs. unfold mbind, Flow_bind. specialize (Hm s tr Hs).
  destruct (m s tr) as [a s' tr'| |]; [apply Hk, Hm | exact Hm | exact Hm].
Qed.

Lemma Flow_spec_weaken (P P' J J' : state -> Prop) {A} (Q Q' : A -> state -> Prop)
    (m : Flow A) :
  Flow_spec P J Q m ->
  (forall s, P' s -> P s) -> (forall s, J s -> J' s) -> (forall a s, Q a s -> Q' a s) ->
  Flow_spec P' J' Q' m.
Proof.
  intros Hm HP HJ HQ s tr Hs. specialize (Hm s tr (HP s Hs)).
  destruct (m s tr); auto.
Qed.

Lemma Flow_spec_assign (P J Q : state -> Prop) (f : state -> state) :
  (forall s, P s -> Q (f s)) -> Flow_spec P J (fun _ s => Q s) (assign f).
Proof. intros Hf s tr Hs. apply Hf, Hs. Qed.

Lemma Flow_spec_result (P J : state -> Prop) {A} (f : state -> A) :
  Flow_spec P J (fun a s => P s /\ a = f s) (result f).
Proof. intros s tr Hs. split; [exact Hs | reflexivity]. Qed.

(** ** Invariants the callback keeps *)

Variable I : state -> Prop.
Hypothesis callback_keeps : forall today r s,
  I s -> I (handle_response DATE_RANGE_DAYS app_config today r s).

Lemma deliver_keeps o s : I s -> I (deliver DATE_RANGE_DAYS app_config o s).
Proof.
  unfold deliver. generalize (arrivals o). intros l. revert s.
  induction l as [|a l IH]; intros s Hs; simpl; [exact Hs|].
  apply IH, callback_keeps, Hs.
Qed.

Lemma sleep_keeps : Flow_spec I I (fun _ s => I s) (sleep DATE_RANGE_DAYS app_config).
Proof. intros s [|o tr] Hs; simpl; [exact Hs | apply deliver_keeps, Hs]. Qed.

Lemma page_call_keeps : Flow_spec I I (fun _ s => I s) (page_call DATE_RANGE_DAYS app_config).
Proof.
  intros s [|o tr] Hs; simpl; [exact Hs|].
  destruct (raises o); apply deliver_keeps, Hs.
Qed.

Lemma goto_keeps u : Flow_spec I I (fun _ s => I s) (goto DATE_RANGE_DAYS app_config u).
Proof. destruct u; [apply page_call_keeps | intros s tr Hs; exact Hs]. Qed.

(** The unbounded wait returns only with its flag set. *)
Lemma wait_for_keeps f :
  Flow_spec I I (fun _ s => I s /\ get_flag f s = true)
    (wait_for DATE_RANGE_DAYS app_config f).
Proof.
  intros s tr. revert s. induction tr as [|o tr IH]; intros s Hs; simpl.
  - destruct (get_flag f s) eqn:E; [split; assumption | exact Hs].
  - destruct (get_flag f s) eqn:E; [split; assumption|].
    apply IH, deliver_keeps, Hs.
Qed.

Lemma poll_keeps f remaining : forall elapsed,
  Flow_spec I I (fun _ s => I s) (poll DATE_RANGE_DAYS app_config f remaining elapsed).
Proof.
  induction remaining as [|n IH]; intros elapsed s tr Hs; simpl.
  - destruct (get_flag f s); exact Hs.
  - destruct (get_flag f s); [exact Hs|].
    destruct tr as [|o rest]; [exact Hs|]. apply IH, deliver_keeps, Hs.
Qed.

Lemma wait_with_timeout_keeps f :
  (forall s, I s -> I (set_flag f true s)) ->
  Flow_spec I I (fun _ s => I s) (wait_with_timeout DATE_RANGE_DAYS app_config f).
Proof.
  intros Hset. unfold wait_with_timeout.
  eapply Flow_spec_bind; [apply poll_keeps | intros elapsed].
  eapply Flow_spec_bind; [| intros u; apply Flow_spec_ret].
  apply Flow_spec_assign. intros s Hs. destruct (negb _); [apply Hset, Hs | exact Hs].
Qed.

Lemma when_keeps b m :
  Flow_spec I I (fun _ s => I s) m -> Flow_spec I I (fun _ s => I s) (when b m).
Proof. intros Hm. destruct b; [exact Hm | apply Flow_spec_ret]. Qed.

End FlowLemmas.

(* ===================================================================== *)
(** * What the callback never changes *)
(* ===================================================================== *)

Section Frame.
Context `{PyBuiltins}.
Variable DATE_RANGE_DAYS : Z.
Variable app_config : app_configuration.
Variables (p : phase) (i : Ios.t) (mc : bool).

(** An update that touches neither the phase, nor the iOS part, nor resets
    [metrics_captured]. *)
Lemma frame_update (f : state -> state) s :
  (forall s, current_phase (f s) = current_phase s) ->
  (forall s, ios (app_data (f s)) = ios (app_data s)) ->
  (forall s, metrics_captured s = true -> metrics_captured (f s) = true) ->
  frame p i mc s -> frame p i mc (f s).
Proof.
  intros H1 H2 H3 (Hp & Hi & Hm). unfold frame.
  rewrite H1, H2. repeat split; auto.
Qed.

(** An update of the iOS part made in an iOS phase only. *)
Lemma frame_ios_update (f : state -> state) s :
  startswith_ios (current_phase s) = true ->
  (forall s, current_phase (f s) = current_phase s) ->
  (forall s, metrics_captured (f s) = metrics_captured s) ->
  frame p i mc s -> frame p i mc (f s).
Proof.
  intros Hios H1 H3 (Hp & Hi & Hm). unfold frame.
  rewrite H1, H3. repeat split; auto.
  intros Hn. rewrite Hp, Hn in Hios. discriminate.
Qed.

Ltac plain_update :=
  apply frame_update;
  [reflexivity | reflexivity | intros ? Hmc; solve [exact Hmc | reflexivity] | assumption].

Lemma append_issue_frame d s : frame p i mc s -> frame p i mc (append_issue d s).
Proof.
  intros Hs. unfold append_issue. destruct (current_phase s) eqn:E; try exact Hs;
    try plain_update.
  - apply frame_ios_update; [rewrite E | | |]; auto.
  - apply frame_ios_update; [rewrite E | | |]; auto.
Qed.

Lemma mark_issues_captured_frame s :
  frame p i mc s -> frame p i mc (mark_issues_captured s).
Proof.
  intros Hs. unfold mark_issues_captured.
  destruct (current_phase s); try exact Hs; plain_update.
Qed.

Lemma append_issues_frame total n l : H_inv (frame p i mc) (append_issues total n l).
Proof.
  revert n. induction l as [|g l IH]; intros n; simpl.
  - apply H_inv_ret.
  - apply H_inv_bind; [apply H_inv_lift | intros d].
    apply H_inv_bind; [| intros u; apply IH].
    apply H_inv_modify. intros s. apply append_issue_frame.
Qed.

Lemma handle_top_issues_frame r s :
  frame p i mc s -> frame p i mc (handle_top_issues r s).
Proof.
  intros Hs. unfold handle_top_issues.
  destruct (top_issues_guard s) as [total| |]; [| plain_update | exact Hs].
  apply try_except_inv; [| auto | exact Hs].
  unfold top_issues_body.
  apply H_inv_bind; [apply H_inv_lift | intros rows].
  apply H_inv_bind; [apply H_inv_read | intros ph].
  apply H_inv_bind; [apply H_inv_lift | intros g].
  apply H_inv_bind; [apply append_issues_frame | intros u].
  apply H_inv_modify. intros s'. apply mark_issues_captured_frame.
Qed.

Lemma handle_launch_time_frame today r s :
  frame p i mc s -> frame p i mc (handle_launch_time today r s).
Proof.
  intros Hs. unfold handle_launch_time.
  destruct (json_body r ≫= p90_launch_seconds today) as [[x|]|]; try exact Hs.
Qed.

Lemma handle_dominant_release_frame r s :
  frame p i mc s -> frame p i mc (handle_dominant_release r s).
Proof.
  intros Hs. unfold handle_dominant_release.
  destruct (text_body r ≫= dominant_version) as [[x|]|]; try exact Hs.
  destruct (bool_decide (current_phase s = ios_dominant_release)) eqn:E.
  - apply bool_decide_eq_true in E.
    apply frame_ios_update;
      [change (startswith_ios (current_phase s) = true); rewrite E; reflexivity
      | reflexivity | reflexivity | exact Hs].
  - exact Hs.
Qed.

Lemma handle_play_console_frame r s :
  frame p i mc s -> frame p i mc (handle_play_console r s).
Proof.
  intros Hs. unfold handle_play_console. destruct (wanted_request_body _); [|exact Hs].
  destruct (json_body r ≫= play_console_anrs); exact Hs.
Qed.

Lemma handle_anr_metrics_frame today r s :
  frame p i mc s -> frame p i mc (handle_anr_metrics DATE_RANGE_DAYS today r s).
Proof.
  intros Hs. unfold handle_anr_metrics.
  match goal with |- context [match ?o with _ => _ end] => destruct o as [[x|]|] end;
    try exact Hs.
Qed.

Lemma android_metrics_loop_frame rows : forall nf f,
  H_inv (frame p i mc) (android_metrics_loop rows nf f).
Proof.
  induction rows as [|g rows IH]; intros nf f; simpl.
  - apply H_inv_ret.
  - apply H_inv_bind; [apply H_inv_lift | intros fatality].
    apply H_inv_bind; [apply H_inv_lift | intros has].
    destruct (Py.eq_str fatality "NON_FATAL" && has);
      [| destruct (Py.eq_str fatality "FATAL" && has); [| apply IH]].
    + apply H_inv_bind; [apply H_inv_lift | intros rate].
      apply H_inv_bind; [apply H_inv_lift | intros n].
      apply H_inv_bind; [| intros u; apply IH].
      apply H_inv_modify. intros s Hs. plain_update.
    + apply H_inv_bind; [apply H_inv_lift | intros rate].
      apply H_inv_bind; [apply H_inv_lift | intros n].
      apply H_inv_bind; [| intros u; apply IH].
      apply H_inv_modify. intros s Hs. plain_update.
Qed.

Lemma handle_android_metrics_frame today r s :
  frame p i mc s -> frame p i mc (handle_android_metrics DATE_RANGE_DAYS today r s).
Proof.
  intros Hs. unfold handle_android_metrics.
  apply try_except_inv; [| auto | exact Hs].
  unfold android_metrics_body.
  apply H_inv_bind; [apply H_inv_lift | intros gm].
  apply H_inv_bind; [apply H_inv_lift | intros valid].
  destruct valid; [| apply H_inv_ret].
  apply H_inv_bind; [apply H_inv_lift | intros rows].
  apply H_inv_bind; [apply android_metrics_loop_frame | intros rates].
  apply H_inv_modify. intros s' Hs'. unfold store_android_metrics.
  apply frame_update; [reflexivity | reflexivity | reflexivity | exact Hs'].
Qed.

Lemma ios_guard_phase (s : state) a b x :
  (bool_decide (current_phase s = a) || bool_decide (current_phase s = b)) && x = true ->
  startswith_ios a = true -> startswith_ios b = true ->
  startswith_ios (current_phase s) = true.
Proof.
  intros [Hg _]%andb_true_iff Ha Hb.
  apply orb_true_iff in Hg as [Hg|Hg]; apply bool_decide_eq_true in Hg; congruence.
Qed.

Lemma ios_metrics_row_frame metric : H_inv (frame p i mc) (ios_metrics_row metric).
Proof.
  intros s Hs. unfold ios_metrics_row, mbind, H_bind, lift, modify, read, mret, H_ret.
  repeat match goal with
         | |- context [match ?o with _ => _ end] => destruct o eqn:?
         end;
    cbn [fst]; try exact Hs;
    (apply frame_ios_update;
     [ eapply ios_guard_phase; [eassumption | reflexivity | reflexivity]
     | reflexivity | reflexivity | exact Hs ]).
Qed.

Lemma ios_metrics_except_frame s :
  frame p i mc s -> frame p i mc (ios_metrics_except s).
Proof. intros Hs. unfold ios_metrics_except. destruct (ios_has_rate _ _); exact Hs. Qed.

Lemma handle_ios_metrics_frame today r s :
  frame p i mc s -> frame p i mc (handle_ios_metrics DATE_RANGE_DAYS today r s).
Proof.
  intros Hs. unfold handle_ios_metrics.
  apply try_except_inv; [| apply ios_metrics_except_frame | exact Hs].
  unfold ios_metrics_body.
  apply H_inv_bind; [apply H_inv_lift | intros gm].
  apply H_inv_bind; [apply H_inv_lift | intros valid].
  destruct valid; [| apply H_inv_ret].
  apply H_inv_bind; [apply H_inv_lift | intros rows].
  apply H_inv_bind; [apply H_inv_for_each, ios_metrics_row_frame | intros u].
  apply H_inv_modify. intros s' Hs'.
  destruct (bool_decide _); [exact Hs'|]. destruct (bool_decide _); exact Hs'.
Qed.

(** The frame of a call of the callback. *)
Lemma handle_response_frame today r s :
  frame p i mc s -> frame p i mc (handle_response DATE_RANGE_DAYS app_config today r s).
Proof.
  intros Hs. rewrite handle_response_halves.
  assert (He : frame p i mc (early_blocks app_config today r s)).
  { unfold early_blocks. cbv zeta.
    set (s1 := if _ && is_launch_timeline _ then _ else s).
    assert (H1 : frame p i mc s1).
    { subst s1. destruct (_ && _); [apply handle_launch_time_frame|]; exact Hs. }
    clearbody s1.
    set (s2 := if _ && is_dominant_release _ then _ else s1).
    assert (H2 : frame p i mc s2).
    { subst s2. destruct (_ && _); [apply handle_dominant_release_frame|]; exact H1. }
    clearbody s2.
    destruct (_ && _); [apply handle_play_console_frame|]; exact H2. }
  revert He. generalize (early_blocks app_config today r s). clear s Hs. intros s Hs.
  unfold report_chain. cbv zeta.
  destruct (_ && _); [apply handle_android_metrics_frame, Hs|].
  destruct (_ && _); [apply handle_anr_metrics_frame, Hs|].
  destruct (_ && _); [apply handle_ios_metrics_frame, Hs|].
  destruct (is_top_issues _); [apply handle_top_issues_frame, Hs | exact Hs].
Qed.

End Frame.

Section FrameCorollaries.
Context `{PyBuiltins}.
Variable DATE_RANGE_DAYS : Z.
Variable app_config : app_configuration.

(** The callback never assigns [current_phase]. *)
Lemma handle_response_phase today r s :
  current_phase (handle_response DATE_RANGE_DAYS app_config today r s) = current_phase s.
Proof.
  apply (handle_response_frame DATE_RANGE_DAYS app_config (current_phase s)
           (ios (app_data s)) false today r s).
  repeat split; auto; discriminate.
Qed.

(** It never resets [metrics_captured]. *)
Lemma handle_response_metrics_captured today r s :
  metrics_captured s = true ->
  metrics_captured (handle_response DATE_RANGE_DAYS app_config today r s) = true.
Proof.
  intros Hm.
  apply (handle_response_frame DATE_RANGE_DAYS app_config (current_phase s)
           (ios (app_data s)) true today r s); [|reflexivity].
  repeat split; auto.
Qed.

(** Outside the iOS phases it leaves the iOS part of the result alone. *)
Lemma handle_response_ios_idle today r s :
  ios_idle s -> ios_idle (handle_response DATE_RANGE_DAYS app_config today r s).
Proof.
  intros [Hp Hi]. unfold ios_idle. rewrite handle_response_phase. split; [exact Hp|].
  apply (handle_response_frame DATE_RANGE_DAYS app_config (current_phase s)
           initial_ios false today r s); [|exact Hp].
  repeat split; auto; discriminate.
Qed.

End FrameCorollaries.

(* ===================================================================== *)
(** * Runs of the sequencer *)
(* ===================================================================== *)

Lemma set_flag_ios_idle f s : ios_idle s -> ios_idle (set_flag f true s).
Proof. intros Hs. destruct f; exact Hs. Qed.

(** One step of a proof that the flow keeps an invariant [I]: [Hcb] says
    that the callback keeps it, [Hflag] that forcing a flag does. *)
Ltac flow_step Hcb Hflag :=
  match goal with
  | |- Flow_spec _ _ _ (mbind _ _) => eapply Flow_spec_bind; [| intros ?]
  | |- Flow_spec _ _ _ (sleep _ _) => apply (sleep_keeps _ _ _ Hcb)
  | |- Flow_spec _ _ _ (page_call _ _) => apply (page_call_keeps _ _ _ Hcb)
  | |- Flow_spec _ _ _ (goto _ _ _) => apply (goto_keeps _ _ _ Hcb)
  | |- Flow_spec _ _ _ (wait_for _ _ _) =>
      eapply Flow_spec_weaken;
      [ apply (wait_for_keeps _ _ _ Hcb)
      | intros ? Hx; exact Hx | intros ? Hx; exact Hx | intros ? ? [Hx _]; exact Hx ]
  | |- Flow_spec _ _ _ (wait_with_timeout _ _ _) =>
      apply (wait_with_timeout_keeps _ _ _ Hcb); apply Hflag
  | |- Flow_spec _ _ _ (when _ _) => apply when_keeps
  | |- Flow_spec _ _ _ (mret _) => apply Flow_spec_ret
  | |- Flow_spec _ _ _ (result _) => apply Flow_spec_result
  end.

Section Runs.
Context `{PyBuiltins}.
Variable DATE_RANGE_DAYS : Z.
Variable app_config : app_configuration.

(** Without iOS, the flow never enters an iOS phase and the callback never
    writes an iOS field. *)
Lemma collect_app_data_ios_idle report_days app_key available vitals_data :
  cfg_has_ios app_config = false ->
  Flow_spec ios_idle ios_idle (fun result s => ios_idle s /\ result = app_data s)
    (collect_app_data DATE_RANGE_DAYS app_config report_days app_key available vitals_data).
Proof.
  intros Hios. unfold collect_app_data. rewrite Hios. cbn [andb when].
  pose proof (handle_response_ios_idle DATE_RANGE_DAYS app_config) as Hcb.
  repeat first
    [ flow_step Hcb set_flag_ios_idle
    | apply (Flow_spec_assign ios_idle ios_idle ios_idle);
      intros s [Hp Hi]; split; [first [exact Hp | reflexivity] | exact Hi] ].
Qed.

End Runs.

(** The sequencer maintains [phase_inv], the hypothesis of C4 and C5:
    wherever a run stands, either [metrics_captured] is set or the phase
    is still [metrics]. *)
Lemma collect_app_data_phase_inv `{PyBuiltins} (DATE_RANGE_DAYS : Z)
    (app_config : app_configuration) (report_days : Z) (app_key : string)
    (available : bool) (vitals_data : json) (tr : list await_outcome) :
  match collect_app_data DATE_RANGE_DAYS app_config report_days app_key available
          vitals_data (initial_state app_key app_config) tr with
  | Done _ s _ => phase_inv s
  | Raised s => phase_inv s
  | Waiting s => phase_inv s
  end.
Proof.
  set (I1 := fun s => current_phase s = metrics).
  set (I2 := fun s => metrics_captured s = true).
  assert (Hcb1 : forall today r s,
            I1 s -> I1 (handle_response DATE_RANGE_DAYS app_config today r s)).
  { intros today r s Hs. unfold I1. rewrite handle_response_phase. exact Hs. }
  assert (Hcb2 : forall today r s,
            I2 s -> I2 (handle_response DATE_RANGE_DAYS app_config today r s)).
  { intros today r s Hs. apply handle_response_metrics_captured, Hs. }
  assert (Hflag : forall f s, I2 s -> I2 (set_flag f true s)).
  { intros f s Hs. unfold I2 in *. destruct f; simpl; auto. }
  assert (Hrun : Flow_spec I1 phase_inv (fun _ s => phase_inv s)
            (collect_app_data DATE_RANGE_DAYS app_config report_days app_key available
               vitals_data)).
  { assert (H1 : forall s, I1 s -> phase_inv s).
    { intros s Hs Hc. exact Hs. }
    assert (H2 : forall s, I2 s -> phase_inv s).
    { intros s Hs Hc. unfold I2 in Hs. congruence. }
    unfold collect_app_data.
    eapply Flow_spec_bind.
    { eapply Flow_spec_weaken;
        [apply (goto_keeps _ _ _ Hcb1) | intros s Hs; exact Hs | exact H1
        | intros a s Hs; exact Hs]. }
    intros u0. eapply Flow_spec_bind.
    { eapply Flow_spec_weaken;
        [apply (wait_for_keeps _ _ _ Hcb1 f_metrics_captured) | intros s Hs; exact Hs
        | exact H1 | intros a s [_ Hs]; exact (Hs : I2 s)]. }
    intros u1.
    eapply Flow_spec_weaken with (P := I2) (J := I2) (Q := fun _ s => I2 s);
      [ | intros s Hs; exact Hs | exact H2 | intros a s Hs; apply H2, Hs ].
    repeat first
      [ flow_step Hcb2 Hflag
      | progress unfold collect_ios
      | apply (Flow_spec_assign I2 I2 I2); intros s Hs; exact Hs
      | eapply Flow_spec_weaken;
        [apply Flow_spec_result | intros s Hs; exact Hs | intros s Hs; exact Hs
        | intros a s [Hs _]; exact Hs] ]. }
  specialize (Hrun (initial_state app_key app_config) tr eq_refl).
  destruct (collect_app_data _ _ _ _ _ _ _ _); exact Hrun.
Qed.

(** C10.  For an app configured with [has_ios = false], wherever its
    collection run stands (returned, raised, or still waiting) the iOS
    fields of its result are at their initial value: the lists of top
    crashes and of top non-fatals are empty, the crash-free rates and the
    total installs are empty, and the dominant release is null. *)
Theorem C10_no_ios_fields_without_ios (B : PyBuiltins) (DATE_RANGE_DAYS : Z)
    (app_config : app_configuration) (report_days : Z) (app_key : string)
    (GOOGLE_PLAY_AVAILABLE : bool) (vitals_data : json) (tr : list await_outcome) :
  cfg_has_ios app_config = false ->
  match collect_app_data DATE_RANGE_DAYS app_config report_days app_key
          GOOGLE_PLAY_AVAILABLE vitals_data (initial_state app_key app_config) tr with
  | Done result s _ => ios_fields_initial result /\ result = app_data s
  | Raised s => ios_fields_initial (app_data s)
  | Waiting s => ios_fields_initial (app_data s)
  end.
Proof.
  intros Hios.
  assert (Hinit : ios_idle (initial_state app_key app_config)) by (split; reflexivity).
  assert (Hfields : forall s, ios_idle s -> ios_fields_initial (app_data s)).
  { intros s [_ Hi]. unfold ios_fields_initial. rewrite Hi. repeat split. }
  pose proof (collect_app_data_ios_idle DATE_RANGE_DAYS app_config report_days app_key
                GOOGLE_PLAY_AVAILABLE vitals_data Hios (initial_state app_key app_config)
                tr Hinit) as Hrun.
  destruct (collect_app_data _ _ _ _ _ _ _ _) as [result s rest|s|s].
  - destruct Hrun as [Hs ->]. split; [apply Hfields, Hs | reflexivity].
  - apply Hfields, Hrun.
  - apply Hfields, Hrun.
Qed.

(** A whole run of the partner app, which has no iOS: it returns, with an
    Android part that is filled in. *)
Lemma C10_witness :
  exists result s rest,
    @collect_app_data Reference.builtins 7 partner_config 7 "partner" false JNull
      (initial_state "partner" partner_config) partner_trace = Done result s rest /\
    ios_fields_initial result /\
    Android.top_crashes (android result)
      = [IssueData 1 (JStr "NullPointerException") 1 15 70].
Proof.
  pose proof (C10_no_ios_fields_without_ios Reference.builtins 7 partner_config 7
                "partner" false JNull partner_trace eq_refl) as Hrun.
  destruct (@collect_app_data Reference.builtins 7 partner_config 7 "partner" false JNull
              (initial_state "partner" partner_config) partner_trace)
    as [result s rest|s|s] eqn:E.
  - exists result, s, rest. split; [reflexivity|]. split; [apply Hrun|].
    vm_compute in E. injection E as <- _ _. reflexivity.
  - vm_compute in E. discriminate E.
  - vm_compute in E. discriminate E.
Defined.

(* ===================================================================== *)
(** * Blocks of statements with a precondition *)
(* ===================================================================== *)

Section HSpecLemmas.
Context {P E : state -> Prop}.

Lemma H_spec_ret {A} (a : A) : H_spec P (fun _ s => P s) E (mret a).
Proof. intros s Hs. exact Hs. Qed.

Lemma H_spec_lift {A} (o : option A) :
  (forall s, P s -> E s) -> H_spec P (fun _ s => P s) E (lift o).
Proof. intros HE s Hs. unfold lift. destruct o; [exact Hs | apply HE, Hs]. Qed.

Lemma H_spec_read {A} (f : state -> A) : H_spec P (fun a s => P s /\ a = f s) E (read f).
Proof. intros s Hs. split; [exact Hs | reflexivity]. Qed.

Lemma H_spec_modify (Q : state -> Prop) (f : state -> state) :
  (forall s, P s -> Q (f s)) -> H_spec P (fun _ s => Q s) E (modify f).
Proof. intros Hf s Hs. apply Hf, Hs. Qed.

Lemma H_spec_bind {A B} (Q : A -> state -> Prop) (R : B -> state -> Prop)
    (m : H A) (k : A -> H B) :
  H_spec P Q E m -> (forall a, H_spec (Q a) R E (k a)) -> H_spec P R E (m ≫= k).
Proof.
  intros Hm Hk s Hs. unfold mbind, H_bind. specialize (Hm s Hs).
  destruct (m s) as [s' [a|]]; [apply Hk, Hm | exact Hm].
Qed.

Lemma H_spec_weaken {A} (Q Q' : A -> state -> Prop) (m : H A) :
  H_spec P Q E m -> (forall a s, Q a s -> Q' a s) -> H_spec P Q' E m.
Proof.
  intros Hm HQ s Hs. specialize (Hm s Hs). destruct (m s) as [s' [a|]]; auto.
Qed.

Lemma try_except_spec (Q : state -> Prop) (body : H unit) (handler : state -> state) s :
  H_spec P (fun _ s => Q s) E body -> (forall s, E s -> Q (handler s)) -> P s ->
  Q (try_except body handler s).
Proof.
  intros Hb Hh Hs. unfold try_except. specialize (Hb s Hs).
  destruct (body s) as [s' [u|]]; auto.
Qed.

End HSpecLemmas.

Lemma H_spec_pre (P P' : state -> Prop) {A} (Q : A -> state -> Prop) (E : state -> Prop)
    (m : H A) :
  H_spec P Q E m -> (forall s, P' s -> P s) -> H_spec P' Q E m.
Proof. intros Hm HP s Hs. apply Hm, HP, Hs. Qed.

Lemma H_spec_for_each (I E : state -> Prop) {A} (l : list A) (body : A -> H unit) :
  (forall x, H_spec I (fun _ s => I s) E (body x)) ->
  H_spec I (fun _ s => I s) E (for_each l body).
Proof.
  intros Hbody. induction l as [|x l IH]; simpl.
  - apply H_spec_ret.
  - eapply H_spec_bind; [apply Hbody | intros u; exact IH].
Qed.

(* ===================================================================== *)
(** * What the callback assigns *)
(* ===================================================================== *)

Lemma updates_step s1 s2 s3 : updates s1 s2 -> update s2 s3 -> updates s1 s3.
Proof. intros H12 H23. eapply rtc_r; eassumption. Qed.

Lemma updates_trans s1 s2 s3 : updates s1 s2 -> updates s2 s3 -> updates s1 s3.
Proof. apply rtc_trans. Qed.

Lemma update_updates s1 s2 : update s1 s2 -> updates s1 s2.
Proof. apply rtc_once. Qed.

Lemma top_issues_guard_append d s : top_issues_guard (append_issue d s) = top_issues_guard s.
Proof. unfold append_issue. destruct (current_phase s) eqn:E; reflexivity. Qed.

Section Footprint.
Context `{PyBuiltins}.
Variable DATE_RANGE_DAYS : Z.
Variable app_config : app_configuration.

Lemma handle_launch_time_updates today r s :
  current_phase s = android_p90_launch -> updates s (handle_launch_time today r s).
Proof.
  intros Hp. unfold handle_launch_time.
  destruct (json_body r ≫= p90_launch_seconds today) as [[x|]|]; try apply rtc_refl.
  apply update_updates, update_launch_time, Hp.
Qed.

Lemma handle_dominant_release_updates r s :
  current_phase s = ios_dominant_release \/ current_phase s = android_dominant_release ->
  updates s (handle_dominant_release r s).
Proof.
  intros Hp. unfold handle_dominant_release.
  destruct (text_body r ≫= dominant_version) as [[x|]|]; try apply rtc_refl.
  case_bool_decide as E.
  - apply update_updates, update_ios_dominant_release, E.
  - apply update_updates, update_android_dominant_release. tauto.
Qed.

Lemma handle_play_console_updates r s :
  current_phase s = up_anrs -> updates s (handle_play_console r s).
Proof.
  intros Hp. unfold handle_play_console.
  destruct (wanted_request_body _); [|apply rtc_refl].
  destruct (json_body r) as [j|]; simpl; [|apply rtc_refl].
  unfold play_console_anrs.
  destruct (Py.get j "1" (JArr []) ≫= Py.iter) as [anr_data|]; simpl; [|apply rtc_refl].
  destruct (group_anrs_from [] anr_data) as [g|]; simpl; [|apply rtc_refl].
  apply update_updates, update_up_anrs, Hp.
Qed.

Lemma android_metrics_loop_updates s0 rows : forall nf f,
  H_inv (fun s => updates s0 s /\ metrics_captured s = false)
    (android_metrics_loop rows nf f).
Proof.
  induction rows as [|g rows IH]; intros nf f; simpl.
  - apply H_inv_ret.
  - apply H_inv_bind; [apply H_inv_lift | intros fatality].
    apply H_inv_bind; [apply H_inv_lift | intros has].
    destruct (Py.eq_str fatality "NON_FATAL" && has);
      [| destruct (Py.eq_str fatality "FATAL" && has); [| apply IH]].
    + apply H_inv_bind; [apply H_inv_lift | intros rate].
      apply H_inv_bind; [apply H_inv_lift | intros n].
      apply H_inv_bind; [| intros u; apply IH].
      apply H_inv_modify. intros s [Hs Hm]. split; [|exact Hm].
      eapply updates_step; [exact Hs | apply update_non_fatal_installs, Hm].
    + apply H_inv_bind; [apply H_inv_lift | intros rate].
      apply H_inv_bind; [apply H_inv_lift | intros n].
      apply H_inv_bind; [| intros u; apply IH].
      apply H_inv_modify. intros s [Hs Hm]. split; [|exact Hm].
      eapply updates_step; [exact Hs | apply update_fatal_installs, Hm].
Qed.

Lemma handle_android_metrics_updates today r s :
  metrics_captured s = false ->
  updates s (handle_android_metrics DATE_RANGE_DAYS today r s).
Proof.
  intros Hm. unfold handle_android_metrics.
  apply (try_except_spec (P := fun s' => updates s s' /\ metrics_captured s' = false)
           (E := fun s' => updates s s') (updates s));
    [| intros s' Hs'; exact Hs' | split; [apply rtc_refl | exact Hm]].
  unfold android_metrics_body.
  eapply H_spec_bind; [apply H_spec_lift; intros s1 [Hs1 _]; exact Hs1 | intros gm].
  eapply H_spec_bind; [apply H_spec_lift; intros s1 [Hs1 _]; exact Hs1 | intros valid].
  destruct valid;
    [| eapply H_spec_weaken; [apply H_spec_ret | intros a s1 [Hs1 _]; exact Hs1]].
  eapply H_spec_bind; [apply H_spec_lift; intros s1 [Hs1 _]; exact Hs1 | intros rows].
  eapply H_spec_bind.
  - intros s1 Hs1. pose proof (android_metrics_loop_updates s rows JNull JNull s1 Hs1) as Hl.
    destruct (android_metrics_loop rows JNull JNull s1) as [s2 [rates|]]; simpl in Hl;
      [exact Hl | exact (proj1 Hl)].
  - intros rates. apply H_spec_modify. intros s1 [Hs1 Hm1].
    eapply updates_step; [exact Hs1 | apply update_android_metrics, Hm1].
Qed.

Lemma handle_anr_metrics_updates today r s :
  current_phase s = anr_metrics ->
  updates s (handle_anr_metrics DATE_RANGE_DAYS today r s).
Proof.
  intros Hp. unfold handle_anr_metrics.
  match goal with |- context [match ?o with _ => _ end] => destruct o as [[x|]|] end;
    try apply rtc_refl.
  apply update_updates, update_anr_installs, Hp.
Qed.

Lemma H_inv_spec (I : state -> Prop) {A} (m : H A) :
  H_inv I m -> H_spec I (fun _ s => I s) I m.
Proof.
  intros Hm s Hs. specialize (Hm s Hs). destruct (m s) as [s' [a|]]; exact Hm.
Qed.

Lemma ios_report_phase_guard (s : state) x :
  (bool_decide (current_phase s = ios_metrics)
   || bool_decide (current_phase s = ios_crashes)
   || bool_decide (current_phase s = ios_non_fatals)) && x = true ->
  ios_report_phase (current_phase s).
Proof.
  intros [Hg _]%andb_true_iff. unfold ios_report_phase.
  apply orb_true_iff in Hg as [Hg|Hg]; [apply orb_true_iff in Hg as [Hg|Hg]|];
    apply bool_decide_eq_true in Hg; auto.
Qed.

Lemma ios_metrics_row_updates s0 p metric :
  ios_report_phase p ->
  H_spec (fun s => updates s0 s /\ current_phase s = p)
    (fun _ s => updates s0 s /\ current_phase s = p)
    (fun s => updates s0 s /\ current_phase s = p)
    (ios_metrics_row metric).
Proof.
  intros Hphase. unfold ios_metrics_row.
  eapply H_spec_bind; [apply H_spec_lift; auto | intros fatality].
  eapply H_spec_bind; [apply H_spec_lift; auto | intros has].
  destruct (Py.eq_str fatality "FATAL" && has);
    [| destruct (Py.eq_str fatality "NON_FATAL" && has); [| apply H_spec_ret]].
  - eapply H_spec_bind; [apply H_spec_lift; auto | intros installs].
    eapply H_spec_bind.
    { apply (H_spec_modify (fun s => updates s0 s /\ current_phase s = p)).
      intros s [Hs Hp]. split; [|exact Hp].
      eapply updates_step; [exact Hs | apply update_ios_fatal_installs; rewrite Hp; exact Hphase]. }
    intros u. eapply H_spec_bind; [apply H_spec_read | intros a].
    destruct (_ && negb (ios_has_rate "fatal" a)) eqn:G.
    + eapply H_spec_bind; [apply H_spec_lift; intros s [Hs _]; exact Hs | intros rate].
      apply H_spec_modify. intros s [[Hs Hp] ->]. split; [|exact Hp].
      apply andb_true_iff in G as [G1 G2]. apply negb_true_iff in G2.
      eapply updates_step; [exact Hs | apply update_ios_fatal_rate; [|exact G2]].
      apply orb_true_iff in G1 as [G1|G1]; apply bool_decide_eq_true in G1; auto.
    + eapply H_spec_weaken; [apply H_spec_ret | intros x s [Hs _]; exact Hs].
  - eapply H_spec_bind; [apply H_spec_lift; auto | intros installs].
    eapply H_spec_bind.
    { apply (H_spec_modify (fun s => updates s0 s /\ current_phase s = p)).
      intros s [Hs Hp]. split; [|exact Hp].
      eapply updates_step;
        [exact Hs | apply update_ios_non_fatal_installs; rewrite Hp; exact Hphase]. }
    intros u. eapply H_spec_bind; [apply H_spec_read | intros a].
    destruct (_ && negb (ios_has_rate "non_fatal" a)) eqn:G.
    + eapply H_spec_bind; [apply H_spec_lift; intros s [Hs _]; exact Hs | intros rate].
      eapply H_spec_bind; [apply H_spec_read | intros b].
      destruct (negb (ios_has_rate "non_fatal" b)) eqn:G'.
      * apply H_spec_modify. intros s [[[Hs Hp] Ha] Hb]. simpl in Ha, Hb. subst a b.
        split; [|exact Hp].
        apply andb_true_iff in G as [G1 G2]. apply negb_true_iff in G2.
        eapply updates_step; [exact Hs | apply update_ios_non_fatal_rate; [|exact G2]].
        apply orb_true_iff in G1 as [G1|G1]; apply bool_decide_eq_true in G1; auto.
      * eapply H_spec_weaken; [apply H_spec_ret | intros x s [[Hs _] _]; exact Hs].
    + eapply H_spec_weaken; [apply H_spec_ret | intros x s [Hs _]; exact Hs].
Qed.

Lemma handle_ios_metrics_updates today r s :
  ios_report_phase (current_phase s) ->
  updates s (handle_ios_metrics DATE_RANGE_DAYS today r s).
Proof.
  intros Hphase. unfold handle_ios_metrics.
  set (I := fun s' => updates s s' /\ current_phase s' = current_phase s).
  assert (Hflag : forall s', I s' -> updates s (set_ios_metrics_captured true s')).
  { intros s' [Hs' Hp]. eapply updates_step; [exact Hs'|].
    apply update_ios_metrics_captured. rewrite Hp. exact Hphase. }
  apply (try_except_spec (P := I) (E := I) (updates s)); [| | split; [apply rtc_refl | reflexivity]].
  - unfold ios_metrics_body.
    eapply H_spec_bind; [apply H_spec_lift; auto | intros gm].
    eapply H_spec_bind; [apply H_spec_lift; auto | intros valid].
    destruct valid; [| eapply H_spec_weaken; [apply H_spec_ret | intros a s1 [Hs1 _]; exact Hs1]].
    eapply H_spec_bind; [apply H_spec_lift; auto | intros rows].
    eapply H_spec_bind;
      [apply H_spec_for_each; intros x; apply ios_metrics_row_updates, Hphase | intros u].
    apply H_spec_modify. intros s1 Hs1.
    destruct (bool_decide _); [apply Hflag, Hs1|].
    destruct (bool_decide _); [apply Hflag, Hs1 | exact (proj1 Hs1)].
  - intros s1 Hs1. unfold ios_metrics_except.
    destruct (ios_has_rate _ _); [apply Hflag, Hs1 | exact (proj1 Hs1)].
Qed.

Lemma append_issues_updates s0 total guarded l : forall i,
  H_inv (fun s => updates s0 s /\ top_issues_guard s = Extract guarded)
    (append_issues total i l).
Proof.
  induction l as [|g l IH]; intros i; simpl.
  - apply H_inv_ret.
  - apply H_inv_bind; [apply H_inv_lift | intros d].
    apply H_inv_bind; [| intros u; apply IH].
    apply H_inv_modify. intros s [Hs Hg]. split.
    + eapply updates_step; [exact Hs | eapply update_append_issue, Hg].
    + rewrite top_issues_guard_append. exact Hg.
Qed.

Lemma handle_top_issues_updates r s : updates s (handle_top_issues r s).
Proof.
  unfold handle_top_issues. destruct (top_issues_guard s) as [total| |] eqn:G.
  - apply (try_except_spec
             (P := fun s' => updates s s' /\ top_issues_guard s' = Extract total)
             (E := fun s' => updates s s') (updates s));
      [| intros s' Hs'; exact Hs' | split; [apply rtc_refl | exact G]].
    unfold top_issues_body.
    eapply H_spec_bind; [apply H_spec_lift; intros s1 [Hs1 _]; exact Hs1 | intros rows].
    eapply H_spec_bind; [apply H_spec_read | intros ph].
    eapply H_spec_bind; [apply H_spec_lift; intros s1 [[Hs1 _] _]; exact Hs1 | intros g].
    eapply H_spec_bind.
    + eapply H_spec_pre; [| intros s1 [Hs1 _]; exact Hs1].
      intros s1 Hs1. pose proof (append_issues_updates s total total (sorted_issues g) 1 s1 Hs1) as Hl.
      destruct (append_issues total 1 (sorted_issues g) s1) as [s2 [u|]]; simpl in Hl;
        [exact Hl | exact (proj1 Hl)].
    + intros u. apply H_spec_modify. intros s1 [Hs1 Hg].
      eapply updates_step; [exact Hs1 | eapply update_issues_captured, Hg].
  - apply update_updates, update_issues_pending, G.
  - apply rtc_refl.
Qed.

(** A call of the callback is a sequence of the assignments listed. *)
Lemma handle_response_updates today r s :
  updates s (handle_response DATE_RANGE_DAYS app_config today r s).
Proof.
  rewrite handle_response_halves.
  assert (He : updates s (early_blocks app_config today r s)).
  { unfold early_blocks. cbv zeta.
    set (s1 := if _ && is_launch_timeline _ then _ else s).
    assert (H1 : updates s s1).
    { subst s1. destruct (_ && _) eqn:G; [|apply rtc_refl].
      apply handle_launch_time_updates.
      apply andb_true_iff in G as [G _]. apply bool_decide_eq_true in G. exact G. }
    clearbody s1.
    set (s2 := if _ && is_dominant_release _ then _ else s1).
    assert (H2 : updates s s2).
    { subst s2. destruct (_ && _) eqn:G; [|exact H1].
      eapply updates_trans; [exact H1|]. apply handle_dominant_release_updates.
      apply andb_true_iff in G as [G _].
      apply orb_true_iff in G as [G|G]; apply bool_decide_eq_true in G; auto. }
    clearbody s2.
    destruct (_ && _) eqn:G; [|exact H2].
    eapply updates_trans; [exact H2|]. apply handle_play_console_updates.
    apply andb_true_iff in G as [G _]. apply bool_decide_eq_true in G. exact G. }
  eapply updates_trans; [exact He|].
  generalize (early_blocks app_config today r s). clear s He. intros s.
  unfold report_chain. cbv zeta.
  destruct (negb (metrics_captured s) && is_metrics_report (url r)) eqn:G1.
  { apply handle_android_metrics_updates.
    apply andb_true_iff in G1 as [G1 _]. apply negb_true_iff in G1. exact G1. }
  destruct (bool_decide (current_phase s = anr_metrics) && is_metrics_report (url r)) eqn:G2.
  { apply handle_anr_metrics_updates.
    apply andb_true_iff in G2 as [G2 _]. apply bool_decide_eq_true in G2. exact G2. }
  destruct ((bool_decide (current_phase s = ios_metrics) || _ || _) && _) eqn:G3.
  { apply handle_ios_metrics_updates. eapply ios_report_phase_guard, G3. }
  destruct (is_top_issues _); [apply handle_top_issues_updates | apply rtc_refl].
Qed.

(** What every assignment keeps, every call of the callback keeps. *)
Lemma handle_response_keeps (I : state -> Prop) today r s :
  (forall s s', update s s' -> I s -> I s') ->
  I s -> I (handle_response DATE_RANGE_DAYS app_config today r s).
Proof.
  intros Hstep Hs. pose proof (handle_response_updates today r s) as Hu.
  induction Hu as [|s1 s2 s3 H12 H23 IH]; [exact Hs|].
  apply IH. eapply Hstep; eassumption.
Qed.

End Footprint.

(* ===================================================================== *)
(** * Invariants of the callback *)
(* ===================================================================== *)

(** The goal for each assignment of the list. *)
Ltac each_update Hu :=
  destruct Hu;
  unfold append_issue, mark_issues_captured, store_android_metrics, store_ios_rate in *;
  try match goal with
      | |- context [match current_phase ?s with _ => _ end] =>
          destruct (current_phase s) eqn:?
      end;
  cbn in *.

(** X1.  A call of the callback never assigns [current_phase] (the main
    flow alone moves from phase to phase) and never resets a completion
    flag: one that is set stays set. *)
Theorem callback_keeps_phase_and_flags (B : PyBuiltins) (DATE_RANGE_DAYS : Z)
    (app_config : app_configuration) (today : Z) (response : response) (s : state) :
  let s' := handle_response DATE_RANGE_DAYS app_config today response s in
  current_phase s' = current_phase s /\
  (forall f, get_flag f s = true -> get_flag f s' = true) /\
  (ios_nonfatal_issues_processed s = true -> ios_nonfatal_issues_processed s' = true).
Proof.
  cbv zeta.
  apply (handle_response_keeps DATE_RANGE_DAYS app_config
           (fun s' => current_phase s' = current_phase s /\
                      (forall f, get_flag f s = true -> get_flag f s' = true) /\
                      (ios_nonfatal_issues_processed s = true ->
                       ios_nonfatal_issues_processed s' = true)));
    [| repeat split; auto].
  intros s1 s2 Hu (Hp & Hf & Hn).
  assert (Hstep : current_phase s2 = current_phase s1 /\
                  (forall f, get_flag f s1 = true -> get_flag f s2 = true) /\
                  (ios_nonfatal_issues_processed s1 = true ->
                   ios_nonfatal_issues_processed s2 = true)).
  { clear Hp Hf Hn.
    each_update Hu;
      (split; [first [reflexivity | congruence]
              | split; [intros f; destruct f; cbn; auto | auto]]). }
  destruct Hstep as (Hp' & Hf' & Hn').
  split; [congruence | split; auto].
Qed.

(** X2.  A response whose handling starts once [metrics_captured] is set
    changes none of the Android crash-free rates, the Android install
    totals, the two install counts the impact percentages are computed
    from, and the list of accepted report URLs: the only block that writes
    them is entered with the flag unset. *)
Theorem android_rates_kept_once_captured (B : PyBuiltins) (DATE_RANGE_DAYS : Z)
    (app_config : app_configuration) (today : Z) (response : response) (s : state) :
  metrics_captured s = true ->
  let s' := handle_response DATE_RANGE_DAYS app_config today response s in
  Android.crash_free_rates (android (app_data s'))
  = Android.crash_free_rates (android (app_data s)) /\
  Android.total_installs (android (app_data s'))
  = Android.total_installs (android (app_data s)) /\
  fatal_installs s' = fatal_installs s /\
  non_fatal_installs s' = non_fatal_installs s /\
  metrics_requests s' = metrics_requests s.
Proof.
  intros Hm. cbv zeta.
  apply (handle_response_keeps DATE_RANGE_DAYS app_config
           (fun s' => metrics_captured s' = true /\
              Android.crash_free_rates (android (app_data s'))
              = Android.crash_free_rates (android (app_data s)) /\
              Android.total_installs (android (app_data s'))
              = Android.total_installs (android (app_data s)) /\
              fatal_installs s' = fatal_installs s /\
              non_fatal_installs s' = non_fatal_installs s /\
              metrics_requests s' = metrics_requests s));
    [| repeat split; auto].
  intros s1 s2 Hu (Hc & H1 & H2 & H3 & H4 & H5).
  rewrite <- H1, <- H2, <- H3, <- H4, <- H5. clear H1 H2 H3 H4 H5.
  each_update Hu; first [congruence | repeat split; first [assumption | reflexivity]].
Qed.

Lemma android_rates_kept_once_captured_witness :
  metrics_captured crashes_phase_state = true /\
  Android.crash_free_rates
    (android (app_data (@handle_response Reference.builtins 7 partner_config fixture_today
                          later_metrics_fixture crashes_phase_state)))
  = Android.crash_free_rates (android (app_data crashes_phase_state)).
Proof.
  split; [reflexivity|].
  apply (android_rates_kept_once_captured Reference.builtins 7 partner_config fixture_today
           later_metrics_fixture crashes_phase_state).
  reflexivity.
Defined.

(** X3.  An iOS crash-free rate that is stored is never overwritten: a
    later response leaves it, and the install total stored with it, as they
    are (the first report that carries the rate wins). *)
Theorem ios_rate_first_write_wins (B : PyBuiltins) (DATE_RANGE_DAYS : Z)
    (app_config : app_configuration) (today : Z) (response : response) (s : state)
    (k : string) (rate : json) :
  Ios.crash_free_rates (ios (app_data s)) !! k = Some rate ->
  let s' := handle_response DATE_RANGE_DAYS app_config today response s in
  Ios.crash_free_rates (ios (app_data s')) !! k = Some rate /\
  Ios.total_installs (ios (app_data s')) !! k = Ios.total_installs (ios (app_data s)) !! k.
Proof.
  intros Hk. cbv zeta.
  apply (handle_response_keeps DATE_RANGE_DAYS app_config
           (fun s' => Ios.crash_free_rates (ios (app_data s')) !! k = Some rate /\
                      Ios.total_installs (ios (app_data s')) !! k
                      = Ios.total_installs (ios (app_data s)) !! k));
    [| split; auto].
  intros s1 s2 Hu [H1 H2]. rewrite <- H2. clear H2.
  destruct Hu;
    unfold append_issue, mark_issues_captured, store_android_metrics in *;
    try match goal with
        | |- context [match current_phase ?s with _ => _ end] =>
            destruct (current_phase s) eqn:?
        end;
    try (split; [exact H1 | reflexivity]).
  - unfold store_ios_rate, ios_has_rate in *. cbn.
    destruct (decide (k = "fatal")) as [->|Hne].
    + match goal with
      | Hr : bool_decide _ = false |- _ =>
          apply bool_decide_eq_false in Hr; rewrite H1 in Hr; exfalso; apply Hr;
          eexists; reflexivity
      end.
    + rewrite !lookup_insert_ne by congruence. split; [exact H1 | reflexivity].
  - unfold store_ios_rate, ios_has_rate in *. cbn.
    destruct (decide (k = "non_fatal")) as [->|Hne].
    + match goal with
      | Hr : bool_decide _ = false |- _ =>
          apply bool_decide_eq_false in Hr; rewrite H1 in Hr; exfalso; apply Hr;
          eexists; reflexivity
      end.
    + rewrite !lookup_insert_ne by congruence. split; [exact H1 | reflexivity].
Qed.

Lemma ios_rate_first_write_wins_witness :
  Ios.crash_free_rates (ios (app_data ios_rates_state)) !! "fatal" = Some (JFloat 97) /\
  Ios.crash_free_rates
    (ios (app_data (@handle_response Reference.builtins 7 customer_config fixture_today
                      later_metrics_fixture ios_rates_state))) !! "fatal"
  = Some (JFloat 97).
Proof.
  assert (Hk : Ios.crash_free_rates (ios (app_data ios_rates_state)) !! "fatal"
               = Some (JFloat 97)) by (vm_compute; reflexivity).
  split; [exact Hk|].
  apply (ios_rate_first_write_wins Reference.builtins 7 customer_config fixture_today
           later_metrics_fixture ios_rates_state "fatal" (JFloat 97) Hk).
Defined.

(** X4.  The five lists of ranked issues only grow: a response may append
    entries to a list, and never removes, replaces or reorders the entries
    that are there. *)
Theorem issue_lists_only_grow (B : PyBuiltins) (DATE_RANGE_DAYS : Z)
    (app_config : app_configuration) (today : Z) (response : response) (s : state) :
  let s' := handle_response DATE_RANGE_DAYS app_config today response s in
  Android.top_crashes (android (app_data s))
    `prefix_of` Android.top_crashes (android (app_data s')) /\
  Android.top_non_fatals (android (app_data s))
    `prefix_of` Android.top_non_fatals (android (app_data s')) /\
  Android.all_anrs (android (app_data s))
    `prefix_of` Android.all_anrs (android (app_data s')) /\
  Ios.top_crashes (ios (app_data s)) `prefix_of` Ios.top_crashes (ios (app_data s')) /\
  Ios.top_non_fatals (ios (app_data s))
    `prefix_of` Ios.top_non_fatals (ios (app_data s')).
Proof.
  cbv zeta.
  apply (handle_response_keeps DATE_RANGE_DAYS app_config
           (fun s' =>
              Android.top_crashes (android (app_data s))
                `prefix_of` Android.top_crashes (android (app_data s')) /\
              Android.top_non_fatals (android (app_data s))
                `prefix_of` Android.top_non_fatals (android (app_data s')) /\
              Android.all_anrs (android (app_data s))
                `prefix_of` Android.all_anrs (android (app_data s')) /\
              Ios.top_crashes (ios (app_data s))
                `prefix_of` Ios.top_crashes (ios (app_data s')) /\
              Ios.top_non_fatals (ios (app_data s))
                `prefix_of` Ios.top_non_fatals (ios (app_data s'))));
    [| repeat split; reflexivity].
  intros s1 s2 Hu (H1 & H2 & H3 & H4 & H5).
  each_update Hu;
    repeat split;
    first [assumption | (etrans; [eassumption | apply prefix_app_r; reflexivity])].
Qed.



(* ===================================================================== *)
(** * The main flow, stage by stage *)
(* ===================================================================== *)

Lemma ios_dominant_release_url_given report_days app_key app_config :
  url_given (ios_dominant_release_url (_build_urls report_days app_key app_config))
  = url_given (ios_crashes_url (_build_urls report_days app_key app_config)).
Proof.
  unfold _build_urls. cbn.
  destruct (cfg_ios app_config) as [i|]; [|reflexivity].
  destruct (cfg_has_ios app_config); reflexivity.
Qed.

Lemma android_dominant_release_url_given report_days app_key app_config :
  url_given (android_dominant_release_url (_build_urls report_days app_key app_config))
  = true.
Proof. reflexivity. Qed.

Lemma set_flag_phase f b s : current_phase (set_flag f b s) = current_phase s.
Proof. destruct f; reflexivity. Qed.

Lemma set_flag_monotone f g s :
  get_flag g s = true -> get_flag g (set_flag f true s) = true.
Proof. destruct f, g; cbn; auto. Qed.

Lemma earlier_flags_set_flag wi wp f s :
  earlier_flags_set wi wp s -> earlier_flags_set wi wp (set_flag f true s).
Proof.
  unfold earlier_flags_set. rewrite set_flag_phase. intros HF.
  eapply Forall_impl; [exact HF|]. intros q Hq g Hg. apply set_flag_monotone, Hq, Hg.
Qed.

Section Stages.
Context `{PyBuiltins}.
Variable DATE_RANGE_DAYS : Z.
Variable app_config : app_configuration.

(** The callback moves neither the phase nor a flag that is set. *)
Lemma handle_response_monotone today r s :
  let s' := handle_response DATE_RANGE_DAYS app_config today r s in
  current_phase s' = current_phase s /\
  forall f, get_flag f s = true -> get_flag f s' = true.
Proof.
  cbv zeta.
  apply (handle_response_keeps DATE_RANGE_DAYS app_config
           (fun s' => current_phase s' = current_phase s /\
                      forall f, get_flag f s = true -> get_flag f s' = true));
    [| split; auto].
  intros s1 s2 Hu (Hp & Hf).
  assert (Hstep : current_phase s2 = current_phase s1 /\
                  forall f, get_flag f s1 = true -> get_flag f s2 = true).
  { clear Hp Hf.
    each_update Hu;
      (split; [first [reflexivity | congruence] | intros f; destruct f; cbn; auto]). }
  destruct Hstep as (Hp' & Hf'). split; [congruence | auto].
Qed.

Lemma earlier_flags_callback wi wp today r s :
  earlier_flags_set wi wp s ->
  earlier_flags_set wi wp (handle_response DATE_RANGE_DAYS app_config today r s).
Proof.
  destruct (handle_response_monotone today r s) as [Hp Hf].
  unfold earlier_flags_set. rewrite Hp. intros HF.
  eapply Forall_impl; [exact HF|]. intros q Hq g Hg. apply Hf, Hq, Hg.
Qed.

Variable J : state -> Prop.

Lemma stage_sleep (P : state -> Prop) :
  (forall today r s, P s -> P (handle_response DATE_RANGE_DAYS app_config today r s)) ->
  (forall s, P s -> J s) ->
  Flow_spec P J (fun _ s => P s) (sleep DATE_RANGE_DAYS app_config).
Proof.
  intros Hcb HJ. eapply Flow_spec_weaken; [apply (sleep_keeps _ _ P Hcb) | | |]; auto.
Qed.

Lemma stage_page_call (P : state -> Prop) :
  (forall today r s, P s -> P (handle_response DATE_RANGE_DAYS app_config today r s)) ->
  (forall s, P s -> J s) ->
  Flow_spec P J (fun _ s => P s) (page_call DATE_RANGE_DAYS app_config).
Proof.
  intros Hcb HJ. eapply Flow_spec_weaken; [apply (page_call_keeps _ _ P Hcb) | | |]; auto.
Qed.

Lemma stage_goto (P : state -> Prop) u :
  (forall today r s, P s -> P (handle_response DATE_RANGE_DAYS app_config today r s)) ->
  (forall s, P s -> J s) ->
  Flow_spec P J (fun _ s => P s) (goto DATE_RANGE_DAYS app_config u).
Proof.
  intros Hcb HJ. eapply Flow_spec_weaken; [apply (goto_keeps _ _ P Hcb) | | |]; auto.
Qed.

Lemma stage_wait_for (P : state -> Prop) f :
  (forall today r s, P s -> P (handle_response DATE_RANGE_DAYS app_config today r s)) ->
  (forall s, P s -> J s) ->
  Flow_spec P J (fun _ s => P s /\ get_flag f s = true)
    (wait_for DATE_RANGE_DAYS app_config f).
Proof.
  intros Hcb HJ. eapply Flow_spec_weaken; [apply (wait_for_keeps _ _ P Hcb) | | |]; auto.
Qed.

(** A bounded wait ends with its flag set, by a response or by force. *)
Lemma stage_wait_with_timeout (P : state -> Prop) f :
  (forall today r s, P s -> P (handle_response DATE_RANGE_DAYS app_config today r s)) ->
  (forall s, P s -> P (set_flag f true s)) ->
  (forall s, P s -> J s) ->
  Flow_spec P J (fun _ s => P s /\ get_flag f s = true)
    (wait_with_timeout DATE_RANGE_DAYS app_config f).
Proof.
  intros Hcb Hset HJ. unfold wait_with_timeout.
  eapply Flow_spec_bind.
  { eapply Flow_spec_weaken; [apply (poll_keeps _ _ P Hcb) | | |]; auto.
    intros a s Hs. exact Hs. }
  intros elapsed. eapply Flow_spec_bind; [| intros u; apply Flow_spec_ret].
  apply Flow_spec_assign. intros s Hs.
  destruct (get_flag f s) eqn:E; cbn.
  - split; assumption.
  - split; [apply Hset, Hs | apply get_set_flag].
Qed.

End Stages.

Lemma on_course_callback `{PyBuiltins} DATE_RANGE_DAYS app_config wi wp today r s :
  on_course wi wp s ->
  on_course wi wp (handle_response DATE_RANGE_DAYS app_config today r s).
Proof.
  intros [Hin HF]. split; [|apply earlier_flags_callback, HF].
  destruct (handle_response_monotone DATE_RANGE_DAYS app_config today r s) as [-> _].
  exact Hin.
Qed.

Lemma on_course_set_flag wi wp f s :
  on_course wi wp s -> on_course wi wp (set_flag f true s).
Proof.
  intros [Hin HF]. split; [rewrite set_flag_phase; exact Hin|].
  apply earlier_flags_set_flag, HF.
Qed.

Section Run.
Context `{PyBuiltins}.
Variable DATE_RANGE_DAYS : Z.
Variable app_config : app_configuration.
Variables (wi wp : bool).
Variable Inv : state -> Prop.

Hypothesis callback_keeps : forall today r s,
  Inv s -> listening wi wp s ->
  Inv (handle_response DATE_RANGE_DAYS app_config today r s).
Hypothesis deadline_keeps : forall f s,
  timed f = true -> Inv s -> Inv (set_flag f true s).
Hypothesis phase_keeps : forall p s,
  Inv s -> on_course wi wp (set_current_phase p s) -> Inv (set_current_phase p s).

Lemma stage_callback p today r s :
  (wi = false -> p <> anrs) ->
  stage Inv wi wp p s ->
  stage Inv wi wp p (handle_response DATE_RANGE_DAYS app_config today r s).
Proof.
  intros Hl (HI & HF & Hp). unfold stage.
  destruct (handle_response_monotone DATE_RANGE_DAYS app_config today r s) as [Hp' _].
  split.
  { apply callback_keeps; [exact HI|]. split; [exact HF|]. rewrite Hp. exact Hl. }
  split; [apply on_course_callback, HF | congruence].
Qed.

Lemma stage_flag_callback p f today r s :
  (wi = false -> p <> anrs) ->
  stage Inv wi wp p s /\ get_flag f s = true ->
  stage Inv wi wp p (handle_response DATE_RANGE_DAYS app_config today r s) /\
  get_flag f (handle_response DATE_RANGE_DAYS app_config today r s) = true.
Proof.
  intros Hl [Hs Hf]. split; [apply stage_callback; assumption|].
  apply (handle_response_monotone DATE_RANGE_DAYS app_config today r s), Hf.
Qed.

Lemma stage_deadline p f s :
  timed f = true -> stage Inv wi wp p s -> stage Inv wi wp p (set_flag f true s).
Proof.
  intros Ht (HI & HF & Hp). unfold stage. rewrite set_flag_phase.
  split; [apply deadline_keeps; assumption|].
  split; [apply on_course_set_flag, HF | exact Hp].
Qed.

Lemma stage_enter p s :
  Inv s -> on_course wi wp (set_current_phase p s) ->
  stage Inv wi wp p (set_current_phase p s).
Proof.
  intros HI HF. unfold stage. split; [apply phase_keeps; assumption|].
  split; [exact HF | reflexivity].
Qed.

End Run.

(** The waits that are over when the next phase is entered. *)
Ltac list_phases_before :=
  repeat match goal with
         | HF : context [phases_before ?p ?l] |- _ =>
             let l' := eval vm_compute in (phases_before p l) in
             change (phases_before p l) with l' in HF
         | |- context [phases_before ?p ?l] =>
             let l' := eval vm_compute in (phases_before p l) in
             change (phases_before p l) with l'
         end.

Ltac flags_of_stage :=
  unfold earlier_flags_set, all_flags_set, phases_of_run; cbn;
  repeat match goal with
         | HF : on_course _ _ _ |- _ => destruct HF as [_ HF]
         end;
  repeat match goal with
         | HF : earlier_flags_set _ _ _ |- _ => unfold earlier_flags_set in HF
         end;
  repeat match goal with
         | Hp : current_phase ?s = _, HF : Forall _ (phases_before (current_phase ?s) _) |- _ =>
             rewrite Hp in HF
         end;
  list_phases_before;
  repeat match goal with
         | HF : Forall _ (_ :: _) |- _ => inversion HF; clear HF; subst
         end;
  repeat first [apply List.Forall_cons | apply List.Forall_nil];
  intros f0 E0; cbn in E0;
  first [ discriminate E0
        | injection E0 as <-; cbn;
          first [ assumption
                | match goal with
                  | Hq : forall f, awaited _ = Some f -> _ |- _ => exact (Hq _ eq_refl)
                  end ] ].

(** The phase entered is one of the run. *)
Ltac phase_of_run :=
  unfold phases_of_run; cbn; repeat first [left; reflexivity | right].

Ltac may_listen := intros Hw; first [discriminate Hw | discriminate].

Ltac stage_kept :=
  intros ? ? ? Hx;
  first [ eapply stage_callback; [eassumption | may_listen | exact Hx]
        | eapply stage_flag_callback; [eassumption | may_listen | exact Hx] ].

Ltac stage_J :=
  intros ? Hx; first [ exact (conj (proj1 Hx) (proj1 (proj2 Hx)))
                     | exact (conj (proj1 (proj1 Hx)) (proj1 (proj2 (proj1 Hx)))) ].

Ltac stage_step :=
  cbv beta;
  lazymatch goal with
  | |- Flow_spec _ _ _ (mbind _ _) => eapply Flow_spec_bind; [| intros ?]
  | |- Flow_spec _ _ _ (sleep _ _) => apply stage_sleep; [stage_kept | stage_J]
  | |- Flow_spec _ _ _ (page_call _ _) => apply stage_page_call; [stage_kept | stage_J]
  | |- Flow_spec _ _ _ (goto _ _ _) => apply stage_goto; [stage_kept | stage_J]
  | |- Flow_spec _ _ _ (wait_for _ _ _) => apply stage_wait_for; [stage_kept | stage_J]
  | |- Flow_spec _ _ _ (wait_with_timeout _ _ _) =>
      apply stage_wait_with_timeout;
      [ stage_kept
      | intros ? Hx; eapply stage_deadline; [eassumption | reflexivity | exact Hx]
      | stage_J ]
  | |- Flow_spec _ _ _ (mret _) => apply Flow_spec_ret
  end.

Lemma when_assign_spec (P J Q : state -> Prop) (b : bool) (f : state -> state) :
  (forall s, P s -> Q (if b then f s else s)) ->
  Flow_spec P J (fun _ s => Q s) (when b (assign f)).
Proof. intros Hf s tr Hs. specialize (Hf s Hs). destruct b; exact Hf. Qed.

(** The main flow, from its first page to its [return]: [Inv] holds
    wherever the run stands, together with the flags of the phases it has
    left; a run that returns has all its flags set. *)
Lemma collect_app_data_stages `{PyBuiltins} (DATE_RANGE_DAYS : Z)
    (app_config : app_configuration) (report_days : Z) (app_key : string)
    (GOOGLE_PLAY_AVAILABLE : bool) (vitals_data : json) (Inv Fin : state -> Prop) :
  let wi := visits_ios report_days app_key app_config in
  let wp := visits_p90 report_days app_key app_config in
  (forall today r s, Inv s -> listening wi wp s ->
     Inv (handle_response DATE_RANGE_DAYS app_config today r s)) ->
  (forall f s, timed f = true -> Inv s -> Inv (set_flag f true s)) ->
  (forall p s, Inv s -> on_course wi wp (set_current_phase p s) ->
     Inv (set_current_phase p s)) ->
  (forall s, Inv s ->
     Fin (if GOOGLE_PLAY_AVAILABLE && Py.truthy vitals_data
          then set_app_data (set_google_play_vitals vitals_data (app_data s)) s
          else s)) ->
  Flow_spec (stage Inv wi wp metrics)
    (fun s => Inv s /\ on_course wi wp s)
    (fun result s =>
       Fin s /\ all_flags_set wi wp s /\
       current_phase s = last_phase report_days app_key app_config /\
       result = app_data s)
    (collect_app_data DATE_RANGE_DAYS app_config report_days app_key
       GOOGLE_PLAY_AVAILABLE vitals_data).
Proof.
  cbv zeta. intros Hcb Hdl Hph Hvit.
  unfold collect_app_data, collect_ios, last_phase. cbv zeta.
  rewrite ios_dominant_release_url_given, android_dominant_release_url_given.
  change (cfg_has_ios app_config
          && url_given (ios_crashes_url (_build_urls report_days app_key app_config)))
    with (visits_ios report_days app_key app_config).
  change (default true (cfg_has_p90_launch_time app_config)
          && url_given (android_p90_launch_url (_build_urls report_days app_key app_config)))
    with (visits_p90 report_days app_key app_config).
  generalize dependent (visits_ios report_days app_key app_config).
  generalize dependent (visits_p90 report_days app_key app_config).
  intros wp wi Hcb Hph.
  destruct wi, wp; cbn [when].
  all: match goal with
       | |- Flow_spec (stage _ ?wi ?wp _) _ _ _ =>
           repeat first
             [ stage_step
             | match goal with
               | |- Flow_spec _ _ _ (assign (set_current_phase ?p)) =>
                   apply (Flow_spec_assign _ _ (stage Inv wi wp p));
                   intros s Hs;
                   first [ destruct Hs as [(HI & HF & Hp) Hf]
                         | destruct Hs as (HI & HF & Hp) ];
                   (eapply stage_enter; [exact Hph | exact HI | split; [phase_of_run | flags_of_stage]])
               end ]
       end.
  all: cbv beta.
  all: match goal with
       | |- Flow_spec (fun s => stage _ ?wi ?wp ?p s /\ _) _ _ (when _ _) =>
           apply (when_assign_spec _ _
                    (fun s => Fin s /\ all_flags_set wi wp s /\ current_phase s = p));
           intros s [(HI & HF & Hp) Hf]; specialize (Hvit s HI);
           destruct (GOOGLE_PLAY_AVAILABLE && Py.truthy vitals_data);
           (split; [exact Hvit | split; [flags_of_stage | exact Hp]])
       | |- Flow_spec _ _ _ (result _) =>
           eapply Flow_spec_weaken;
           [ apply Flow_spec_result | intros s Hs; exact Hs
           | intros s Hs; exact Hs
           | cbv beta; intros r s [(HFin & Hall & Hp) ->]; repeat split; assumption ]
       end.
Qed.

(* ===================================================================== *)
(** * Properties of every run *)
(* ===================================================================== *)

Lemma initial_stage (Inv : state -> Prop) wi wp app_key app_config :
  Inv (initial_state app_key app_config) ->
  stage Inv wi wp metrics (initial_state app_key app_config).
Proof.
  intros HI. split; [exact HI|]. split; [|reflexivity]. split.
  - left. reflexivity.
  - unfold earlier_flags_set. apply List.Forall_nil.
Qed.

(** What [collect_app_data_stages] says of a run from the initial state. *)
Lemma run_from_initial_state `{PyBuiltins} (DATE_RANGE_DAYS : Z)
    (app_config : app_configuration) (report_days : Z) (app_key : string)
    (GOOGLE_PLAY_AVAILABLE : bool) (vitals_data : json) (Inv Fin : state -> Prop)
    (tr : list await_outcome) :
  let wi := visits_ios report_days app_key app_config in
  let wp := visits_p90 report_days app_key app_config in
  (forall today r s, Inv s -> listening wi wp s ->
     Inv (handle_response DATE_RANGE_DAYS app_config today r s)) ->
  (forall f s, timed f = true -> Inv s -> Inv (set_flag f true s)) ->
  (forall p s, Inv s -> on_course wi wp (set_current_phase p s) ->
     Inv (set_current_phase p s)) ->
  (forall s, Inv s ->
     Fin (if GOOGLE_PLAY_AVAILABLE && Py.truthy vitals_data
          then set_app_data (set_google_play_vitals vitals_data (app_data s)) s
          else s)) ->
  Inv (initial_state app_key app_config) ->
  match collect_app_data DATE_RANGE_DAYS app_config report_days app_key
          GOOGLE_PLAY_AVAILABLE vitals_data (initial_state app_key app_config) tr with
  | Done result s _ =>
      Fin s /\ all_flags_set wi wp s /\
      current_phase s = last_phase report_days app_key app_config /\
      result = app_data s
  | Raised s => Inv s /\ on_course wi wp s
  | Waiting s => Inv s /\ on_course wi wp s
  end.
Proof.
  cbv zeta. intros Hcb Hdl Hph Hvit Hinit.
  apply (collect_app_data_stages DATE_RANGE_DAYS app_config report_days app_key
           GOOGLE_PLAY_AVAILABLE vitals_data Inv Fin Hcb Hdl Hph Hvit).
  apply initial_stage, Hinit.
Qed.

(** X6.  The protocol of phases and flags.  Wherever a run of
    [collect_app_data] stands, its phase is one of the phases of the run
    and the completion flag of every phase it has left is set.  A run that
    returns is in its last phase with every flag set: it has had a metrics
    report of the configured window, an issue list on the crashes page and
    on the non-fatals page and an ANR report (the four waits without a
    deadline), and each wait with a deadline is over. *)
Theorem run_follows_phases (B : PyBuiltins) (DATE_RANGE_DAYS : Z)
    (app_config : app_configuration) (report_days : Z) (app_key : string)
    (GOOGLE_PLAY_AVAILABLE : bool) (vitals_data : json) (tr : list await_outcome) :
  let wi := visits_ios report_days app_key app_config in
  let wp := visits_p90 report_days app_key app_config in
  let run := collect_app_data DATE_RANGE_DAYS app_config report_days app_key
               GOOGLE_PLAY_AVAILABLE vitals_data (initial_state app_key app_config) tr in
  on_course wi wp (state_of run) /\
  (is_Some (returned run) ->
   all_flags_set wi wp (state_of run) /\
   current_phase (state_of run) = last_phase report_days app_key app_config /\
   returned run = Some (app_data (state_of run))).
Proof.
  cbv zeta.
  pose proof (run_from_initial_state DATE_RANGE_DAYS app_config report_days app_key
                GOOGLE_PLAY_AVAILABLE vitals_data (fun _ => True) (fun _ => True) tr)
    as Hrun.
  cbv zeta in Hrun.
  specialize (Hrun (fun _ _ _ _ _ => Logic.I) (fun _ _ _ _ => Logic.I)
                (fun _ _ _ _ => Logic.I) (fun _ _ => Logic.I) Logic.I).
  destruct (collect_app_data _ _ _ _ _ _ _ _) as [result s rest|s|s]; cbn.
  - destruct Hrun as (_ & Hall & Hp & ->). split.
    + split.
      * rewrite Hp. unfold last_phase, phases_of_run.
        destruct (visits_ios _ _ _), (visits_p90 _ _ _); cbn; tauto.
      * unfold earlier_flags_set, all_flags_set in *.
        revert Hall. generalize (phases_of_run (visits_ios report_days app_key app_config)
                                   (visits_p90 report_days app_key app_config)).
        intros l Hall. induction Hall as [|q l Hq Hl IH]; cbn; [constructor|].
        case_bool_decide; constructor; assumption.
    + intros _. repeat split; assumption.
  - split; [exact (proj2 Hrun) | intros [x Hx]; discriminate Hx].
  - split; [exact (proj2 Hrun) | intros [x Hx]; discriminate Hx].
Qed.

Lemma handle_response_rates_present `{PyBuiltins} DATE_RANGE_DAYS app_config today r s :
  android_rates_present s ->
  android_rates_present (handle_response DATE_RANGE_DAYS app_config today r s).
Proof.
  apply handle_response_keeps. clear s. intros s1 s2 Hu. unfold android_rates_present.
  each_update Hu; auto.
Qed.

(** X7.  A result that [collect_app_data] returns always carries the two
    Android crash-free rates and the two Android install totals, under the
    keys [fatal] and [non_fatal] (a rate is null when the accepted report
    has no group of its kind). *)
Theorem returned_result_has_android_rates (B : PyBuiltins) (DATE_RANGE_DAYS : Z)
    (app_config : app_configuration) (report_days : Z) (app_key : string)
    (GOOGLE_PLAY_AVAILABLE : bool) (vitals_data : json) (tr : list await_outcome)
    (result : app_result) :
  returned (collect_app_data DATE_RANGE_DAYS app_config report_days app_key
              GOOGLE_PLAY_AVAILABLE vitals_data (initial_state app_key app_config) tr)
  = Some result ->
  is_Some (Android.crash_free_rates (android result) !! "fatal") /\
  is_Some (Android.crash_free_rates (android result) !! "non_fatal") /\
  is_Some (Android.total_installs (android result) !! "fatal") /\
  is_Some (Android.total_installs (android result) !! "non_fatal").
Proof.
  pose proof (run_from_initial_state DATE_RANGE_DAYS app_config report_days app_key
                GOOGLE_PLAY_AVAILABLE vitals_data android_rates_present
                android_rates_present tr) as Hrun.
  cbv zeta in Hrun.
  destruct (collect_app_data _ _ _ _ _ _ _ _) as [r s rest|s|s]; cbn;
    intros E; try discriminate E. injection E as ->.
  destruct Hrun as (Hfin & Hall & _ & ->).
  - intros today r s0 Hs0 _. apply handle_response_rates_present, Hs0.
  - intros f s0 Hf Hs0. unfold android_rates_present in *.
    destruct f; try discriminate Hf; exact Hs0.
  - intros p s0 Hs0 _. exact Hs0.
  - intros s0 Hs0. destruct (_ && _); exact Hs0.
  - intros E. discriminate E.
  - apply Hfin. unfold all_flags_set, phases_of_run in Hall. cbn in Hall.
    inversion Hall as [|q l Hq _]; subst. exact (Hq _ eq_refl).
Qed.

Lemma returned_result_has_android_rates_witness :
  exists result,
    returned partner_run = Some result /\
    Android.crash_free_rates (android result)
    = {[ "fatal" := JFloat 97; "non_fatal" := JFloat 95 ]} /\
    is_Some (Android.total_installs (android result) !! "non_fatal").
Proof.
  unfold partner_run.
  destruct (returned _) as [result|] eqn:E; [|vm_compute in E; discriminate E].
  exists result. split; [reflexivity|].
  split; [vm_compute in E; injection E as <-; vm_compute; reflexivity|].
  exact (proj2 (proj2 (proj2 (returned_result_has_android_rates Reference.builtins 7
           partner_config 7 "partner" false JNull partner_trace result E)))).
Defined.

Lemma top_issues_guard_pending s :
  top_issues_guard s = MarkPending ->
  current_phase s = ios_non_fatals /\ ios_metrics_captured s = false.
Proof.
  unfold top_issues_guard.
  destruct (current_phase s); cbn;
    repeat match goal with |- context [if ?b then _ else _] => destruct b eqn:? end;
    cbn; try discriminate; auto.
Qed.

(** On the iOS non-fatals page the wait for the iOS metrics is over. *)
Lemma ios_non_fatals_after_metrics wi wp s :
  on_course wi wp s -> current_phase s = ios_non_fatals -> ios_metrics_captured s = true.
Proof.
  intros [Hin HF] Hp. unfold earlier_flags_set in HF. rewrite Hp in Hin, HF.
  destruct wi, wp; unfold phases_of_run in Hin; cbn in Hin;
    try (exfalso; repeat (destruct Hin as [Hin|Hin]; [discriminate Hin|]); exact Hin);
    list_phases_before;
    repeat match goal with
           | HF : Forall _ (_ :: _) |- _ => inversion HF; clear HF; subst
           end;
    match goal with
    | Hq : forall f, awaited ios_metrics = Some f -> _ |- _ => exact (Hq _ eq_refl)
    end.
Qed.

(** X8.  The branch that defers an iOS non-fatal issue list until the
    install count is known is never taken in a run: when the main flow
    enters the phase [ios_non_fatals] the wait for the iOS metrics is over
    (its flag set by a report or forced by the deadline), so
    [ios_nonfatal_issues_processed] stays false wherever a run stands. *)
Theorem deferred_issue_list_never_marked (B : PyBuiltins) (DATE_RANGE_DAYS : Z)
    (app_config : app_configuration) (report_days : Z) (app_key : string)
    (GOOGLE_PLAY_AVAILABLE : bool) (vitals_data : json) (tr : list await_outcome) :
  ios_nonfatal_issues_processed
    (state_of (collect_app_data DATE_RANGE_DAYS app_config report_days app_key
                 GOOGLE_PLAY_AVAILABLE vitals_data (initial_state app_key app_config) tr))
  = false.
Proof.
  pose proof (run_from_initial_state DATE_RANGE_DAYS app_config report_days app_key
                GOOGLE_PLAY_AVAILABLE vitals_data
                (fun s => ios_nonfatal_issues_processed s = false)
                (fun s => ios_nonfatal_issues_processed s = false) tr) as Hrun.
  cbv zeta in Hrun.
  assert (Hcb : forall today r s,
            ios_nonfatal_issues_processed s = false ->
            listening (visits_ios report_days app_key app_config)
              (visits_p90 report_days app_key app_config) s ->
            ios_nonfatal_issues_processed
              (handle_response DATE_RANGE_DAYS app_config today r s) = false).
  { intros today r s Hs [Hc _].
    pose proof (ios_non_fatals_after_metrics _ _ s Hc) as Hm.
    apply (handle_response_keeps DATE_RANGE_DAYS app_config
             (fun s' => ios_nonfatal_issues_processed s' = false /\
                        (current_phase s' = ios_non_fatals ->
                         ios_metrics_captured s' = true)));
      [| split; assumption].
    clear. intros s1 s2 Hu [Hn Hm].
    destruct Hu;
      try match goal with
          | Hg : top_issues_guard _ = MarkPending |- _ =>
              apply top_issues_guard_pending in Hg as [Hp Hf];
              rewrite (Hm Hp) in Hf; discriminate Hf
          end;
      unfold append_issue, mark_issues_captured, store_android_metrics, store_ios_rate in *;
      try match goal with
          | |- context [match current_phase ?s with _ => _ end] =>
              destruct (current_phase s) eqn:?
          end;
      cbn in *;
      (split; [first [assumption | reflexivity]
              | intros Hq;
                first [reflexivity | congruence | apply Hm; first [reflexivity | congruence]]]). }
  specialize (Hrun Hcb).
  destruct (collect_app_data _ _ _ _ _ _ _ _) as [r s rest|s|s]; cbn; apply Hrun;
    try reflexivity;
    try (intros f s0 _ Hs0; destruct f; exact Hs0);
    try (intros p s0 Hs0 _; exact Hs0);
    try (intros s0 Hs0; destruct (_ && _); exact Hs0).
Qed.

Lemma handle_response_all_anrs `{PyBuiltins} DATE_RANGE_DAYS app_config today r s :
  current_phase s <> anrs ->
  Android.all_anrs (android (app_data (handle_response DATE_RANGE_DAYS app_config today r s)))
  = Android.all_anrs (android (app_data s)).
Proof.
  intros Hp.
  apply (handle_response_keeps DATE_RANGE_DAYS app_config
           (fun s' => current_phase s' = current_phase s /\
                      Android.all_anrs (android (app_data s'))
                      = Android.all_anrs (android (app_data s))));
    [| split; reflexivity].
  intros s1 s2 Hu [H1 H2]. rewrite <- H1 in Hp. rewrite <- H1, <- H2. clear H1 H2.
  each_update Hu; first [split; reflexivity | congruence | split; congruence].
Qed.

(** X9.  A run that does not visit the iOS pages never stores an ANR in
    [all_anrs]: the main flow goes through the phase [anrs] without an
    [await], and the callback appends to the list in that phase only.  The
    list is empty wherever the run stands, and in the result it returns. *)
Theorem all_anrs_empty_without_ios (B : PyBuiltins) (DATE_RANGE_DAYS : Z)
    (app_config : app_configuration) (report_days : Z) (app_key : string)
    (GOOGLE_PLAY_AVAILABLE : bool) (vitals_data : json) (tr : list await_outcome) :
  visits_ios report_days app_key app_config = false ->
  let run := collect_app_data DATE_RANGE_DAYS app_config report_days app_key
               GOOGLE_PLAY_AVAILABLE vitals_data (initial_state app_key app_config) tr in
  Android.all_anrs (android (app_data (state_of run))) = [] /\
  (forall result, returned run = Some result -> Android.all_anrs (android result) = []).
Proof.
  intros Hwi. cbv zeta.
  pose proof (run_from_initial_state DATE_RANGE_DAYS app_config report_days app_key
                GOOGLE_PLAY_AVAILABLE vitals_data
                (fun s => Android.all_anrs (android (app_data s)) = [])
                (fun s => Android.all_anrs (android (app_data s)) = []) tr) as Hrun.
  cbv zeta in Hrun.
  assert (Hcb : forall today r s,
            Android.all_anrs (android (app_data s)) = [] ->
            listening (visits_ios report_days app_key app_config)
              (visits_p90 report_days app_key app_config) s ->
            Android.all_anrs
              (android (app_data (handle_response DATE_RANGE_DAYS app_config today r s)))
            = []).
  { intros today r s Hs [_ Hl]. rewrite handle_response_all_anrs; [exact Hs | exact (Hl Hwi)]. }
  specialize (Hrun Hcb).
  assert (Hfinal :
    match collect_app_data DATE_RANGE_DAYS app_config report_days app_key
            GOOGLE_PLAY_AVAILABLE vitals_data (initial_state app_key app_config) tr with
    | Done result s _ => Android.all_anrs (android (app_data s)) = [] /\ result = app_data s
    | Raised s => Android.all_anrs (android (app_data s)) = []
    | Waiting s => Android.all_anrs (android (app_data s)) = []
    end).
  { destruct (collect_app_data _ _ _ _ _ _ _ _) as [r s rest|s|s];
      [ destruct Hrun as (Hf & _ & _ & Hr); [| | | | split; assumption]
      | destruct Hrun as (Hf & _); [| | | | exact Hf]
      | destruct Hrun as (Hf & _); [| | | | exact Hf] ];
      first [ reflexivity
            | intros f s0 _ Hs0; destruct f; exact Hs0
            | intros p s0 Hs0 _; exact Hs0
            | intros s0 Hs0; destruct (_ && _); exact Hs0 ]. }
  destruct (collect_app_data _ _ _ _ _ _ _ _) as [r s rest|s|s]; cbn.
  - destruct Hfinal as [Hf ->]. split; [exact Hf | intros result [= <-]; exact Hf].
  - split; [exact Hfinal | intros result E; discriminate E].
  - split; [exact Hfinal | intros result E; discriminate E].
Qed.

Lemma all_anrs_empty_without_ios_witness :
  visits_ios 7 "partner" partner_config = false /\
  is_Some (returned partner_run) /\
  Android.all_anrs (android (app_data (state_of partner_run))) = [].
Proof.
  split; [reflexivity|]. split.
  - unfold partner_run. vm_compute. eexists. reflexivity.
  - unfold partner_run.
    exact (proj1 (all_anrs_empty_without_ios Reference.builtins 7 partner_config 7
                    "partner" false JNull partner_trace eq_refl)).
Defined.

(** X10.  [up_anrs] never holds more than three entries, wherever a run
    stands: every Play-console response that is accepted replaces the list
    by the three top-ranked clusters at most. *)
Theorem up_anrs_at_most_three (B : PyBuiltins) (DATE_RANGE_DAYS : Z)
    (app_config : app_configuration) (report_days : Z) (app_key : string)
    (GOOGLE_PLAY_AVAILABLE : bool) (vitals_data : json) (tr : list await_outcome) :
  (length (Android.up_anrs
             (android (app_data
                (state_of (collect_app_data DATE_RANGE_DAYS app_config report_days app_key
                             GOOGLE_PLAY_AVAILABLE vitals_data
                             (initial_state app_key app_config) tr))))) <= 3)%nat.
Proof.
  pose proof (run_from_initial_state DATE_RANGE_DAYS app_config report_days app_key
                GOOGLE_PLAY_AVAILABLE vitals_data
                (fun s => (length (Android.up_anrs (android (app_data s))) <= 3)%nat)
                (fun s => (length (Android.up_anrs (android (app_data s))) <= 3)%nat) tr)
    as Hrun.
  cbv zeta in Hrun.
  assert (Hcb : forall today r s,
            (length (Android.up_anrs (android (app_data s))) <= 3)%nat ->
            listening (visits_ios report_days app_key app_config)
              (visits_p90 report_days app_key app_config) s ->
            (length (Android.up_anrs
                       (android (app_data
                          (handle_response DATE_RANGE_DAYS app_config today r s)))) <= 3)%nat).
  { intros today r s Hs _.
    apply (handle_response_keeps DATE_RANGE_DAYS app_config
             (fun s => (length (Android.up_anrs (android (app_data s))) <= 3)%nat));
      [| exact Hs].
    clear. intros s1 s2 Hu Hs.
    destruct Hu;
      try (cbn; rewrite length_map; unfold sorted_anrs; apply top3_length);
      unfold append_issue, mark_issues_captured, store_android_metrics, store_ios_rate in *;
      try match goal with
          | |- context [match current_phase ?s with _ => _ end] =>
              destruct (current_phase s) eqn:?
          end;
      cbn in *; exact Hs. }
  specialize (Hrun Hcb).
  destruct (collect_app_data _ _ _ _ _ _ _ _) as [r s rest|s|s]; cbn; apply Hrun;
    first [ cbn; lia
          | intros f s0 _ Hs0; destruct f; exact Hs0
          | intros p s0 Hs0 _; exact Hs0
          | intros s0 Hs0; destruct (_ && _); exact Hs0 ].
Qed.


(** X11.  A result that [collect_app_data] returns is labelled with the
    key and the name of the app it was collected for, and its
    [google_play_vitals] is the value fetched when the Play client is
    available and that value is true, and null otherwise: no response
    writes these three fields.  The value fetched is what
    [get_google_play_vitals] returns, [None] or a [dict]. *)
Theorem returned_result_is_labelled (B : PyBuiltins) (DATE_RANGE_DAYS : Z)
    (app_config : app_configuration) (report_days : Z) (key : string)
    (GOOGLE_PLAY_AVAILABLE : bool) (vitals_data : json) (tr : list await_outcome)
    (result : app_result) :
  vitals_data = JNull \/ (exists fields, vitals_data = JObj fields) ->
  returned (collect_app_data DATE_RANGE_DAYS app_config report_days key
              GOOGLE_PLAY_AVAILABLE vitals_data (initial_state key app_config) tr)
  = Some result ->
  app_key result = key /\
  app_name result = cfg_name app_config /\
  google_play_vitals result
  = (if GOOGLE_PLAY_AVAILABLE && Py.truthy vitals_data then vitals_data else JNull).
Proof.
  intros _.
  set (labelled := fun (v : json) (s : state) =>
         app_key (app_data s) = key /\
         app_name (app_data s) = cfg_name app_config /\
         google_play_vitals (app_data s) = v).
  pose proof (run_from_initial_state DATE_RANGE_DAYS app_config report_days key
                GOOGLE_PLAY_AVAILABLE vitals_data (labelled JNull)
                (labelled (if GOOGLE_PLAY_AVAILABLE && Py.truthy vitals_data
                           then vitals_data else JNull)) tr) as Hrun.
  cbv zeta in Hrun.
  assert (Hcb : forall today r s,
            labelled JNull s ->
            listening (visits_ios report_days key app_config)
              (visits_p90 report_days key app_config) s ->
            labelled JNull (handle_response DATE_RANGE_DAYS app_config today r s)).
  { intros today r s Hs _.
    apply (handle_response_keeps DATE_RANGE_DAYS app_config (labelled JNull)); [| exact Hs].
    clear. intros s1 s2 Hu Hs. subst labelled. cbv beta in *.
    each_update Hu; exact Hs. }
  specialize (Hrun Hcb).
  destruct (collect_app_data _ _ _ _ _ _ _ _) as [r s rest|s|s]; cbn;
    intros E; try discriminate E. injection E as ->.
  destruct Hrun as (Hfin & _ & _ & ->); [| | | | exact Hfin].
  - intros f s0 _ Hs0. destruct f; exact Hs0.
  - intros p s0 Hs0 _. exact Hs0.
  - intros s0 (H1 & H2 & H3). subst labelled. cbv beta.
    destruct (GOOGLE_PLAY_AVAILABLE && Py.truthy vitals_data); cbn; auto.
  - subst labelled. cbv beta. cbn. auto.
Qed.

Lemma returned_result_is_labelled_witness :
  exists result,
    returned partner_run_with_vitals = Some result /\
    app_key result = "partner"%string /\
    google_play_vitals result = partner_vitals.
Proof.
  unfold partner_run_with_vitals.
  destruct (returned _) as [result|] eqn:E; [|vm_compute in E; discriminate E].
  exists result. split; [reflexivity|].
  pose proof (returned_result_is_labelled Reference.builtins 7 partner_config 7 "partner"
                true partner_vitals partner_trace result
                (or_intror (ex_intro _ _ eq_refl)) E) as (Hk & _ & Hv).
  split; [exact Hk | exact Hv].
Defined.

(* ===================================================================== *)
(** * The first wait *)
(* ===================================================================== *)

Section FirstWait.
Context `{PyBuiltins}.
Variable DATE_RANGE_DAYS : Z.
Variable app_config : app_configuration.

(** On the first page, before a report is accepted, the callback leaves the
    state as it is on every response but a metrics report of the
    configured window. *)
Lemma handle_response_before_report today r s :
  current_phase s = metrics -> metrics_captured s = false ->
  is_metrics_report (url r) && valid_window DATE_RANGE_DAYS today r = false ->
  handle_response DATE_RANGE_DAYS app_config today r s = s.
Proof.
  intros Hp Hm Hr. rewrite handle_response_halves.
  rewrite early_blocks_skip by (rewrite Hp; discriminate).
  unfold report_chain. cbv zeta. rewrite Hm, Hp. cbn [negb andb].
  destruct (is_metrics_report (url r)) eqn:E; cbn in Hr |- *.
  - apply handle_android_metrics_invalid, Hr.
  - destruct (is_top_issues (url r)); [|reflexivity].
    apply handle_top_issues_skip. rewrite Hp. reflexivity.
Qed.

Lemma deliver_before_report o s :
  current_phase s = metrics -> metrics_captured s = false ->
  Forall (fun a => is_metrics_report (url (snd a))
                   && valid_window DATE_RANGE_DAYS (fst a) (snd a) = false) (arrivals o) ->
  deliver DATE_RANGE_DAYS app_config o s = s.
Proof.
  intros Hp Hm. unfold deliver. induction 1 as [|a l Ha Hl IH]; cbn; [reflexivity|].
  rewrite handle_response_before_report by assumption. exact IH.
Qed.

Lemma wait_for_before_report tr : forall s,
  current_phase s = metrics -> metrics_captured s = false ->
  Forall (fun a => is_metrics_report (url (snd a))
                   && valid_window DATE_RANGE_DAYS (fst a) (snd a) = false)
    (responses_of tr) ->
  wait_for DATE_RANGE_DAYS app_config f_metrics_captured s tr = Waiting s.
Proof.
  induction tr as [|o tr IH]; intros s Hp Hm Hall; cbn; rewrite Hm; [reflexivity|].
  unfold responses_of in Hall. cbn in Hall. apply Forall_app in Hall as [Ho Htr].
  rewrite deliver_before_report by assumption. apply IH; assumption.
Qed.

End FirstWait.

(** A statement of the main flow followed by the rest of it. *)
Lemma Flow_bind_eq {A B} (m : Flow A) (k : A -> Flow B) s tr :
  (m ≫= k) s tr
  = match m s tr with
    | Done a s' tr' => k a s' tr'
    | Raised s' => Raised s'
    | Waiting s' => Waiting s'
    end.
Proof. reflexivity. Qed.

(** A navigation during which the responses of [o] arrive. *)
Lemma goto_cons `{PyBuiltins} DATE_RANGE_DAYS app_config u s o tr :
  goto DATE_RANGE_DAYS app_config (Some u) s (o :: tr)
  = if raises o then Raised (deliver DATE_RANGE_DAYS app_config o s)
    else Done tt (deliver DATE_RANGE_DAYS app_config o s) tr.
Proof. reflexivity. Qed.

(** X12.  The wait for the first metrics report has no deadline.  As long
    as no response is a metrics report whose embedded window is the
    configured one (a report of another window, of another day, or that
    cannot be read, does not count), a run does not return and does not
    advance: it stands in its initial state, waiting, or stopped by a
    navigation that raised. *)
Theorem first_wait_has_no_deadline (B : PyBuiltins) (DATE_RANGE_DAYS : Z)
    (app_config : app_configuration) (report_days : Z) (app_key : string)
    (GOOGLE_PLAY_AVAILABLE : bool) (vitals_data : json) (tr : list await_outcome) :
  Forall (fun a => is_metrics_report (url (snd a))
                   && valid_window DATE_RANGE_DAYS (fst a) (snd a) = false)
    (responses_of tr) ->
  let run := collect_app_data DATE_RANGE_DAYS app_config report_days app_key
               GOOGLE_PLAY_AVAILABLE vitals_data (initial_state app_key app_config) tr in
  returned run = None /\ state_of run = initial_state app_key app_config.
Proof.
  intros Hall. cbv zeta. unfold collect_app_data. cbv zeta.
  rewrite Flow_bind_eq.
  destruct tr as [|o tr]; [split; reflexivity|].
  rewrite goto_cons.
  unfold responses_of in Hall. cbn in Hall. apply Forall_app in Hall as [Ho Htr].
  rewrite (deliver_before_report DATE_RANGE_DAYS app_config o) by (reflexivity || assumption).
  destruct (raises o); [split; reflexivity|].
  rewrite Flow_bind_eq.
  rewrite wait_for_before_report by (reflexivity || assumption).
  split; reflexivity.
Qed.

Lemma first_wait_has_no_deadline_witness :
  let run := @collect_app_data Reference.builtins 7 partner_config 7 "partner" false JNull
               (initial_state "partner" partner_config) stale_trace in
  returned run = None /\ state_of run = initial_state "partner" partner_config.
Proof.
  apply (first_wait_has_no_deadline Reference.builtins 7 partner_config 7 "partner"
           false JNull stale_trace).
  unfold stale_trace, responses_of. cbn.
  repeat constructor.
Defined.
